(** * Auto Notion Scheduler: the weekly template-to-calendar pipeline

    A shallow embedding of [utils/dateHelper.js], [utils/errorHandler.js],
    [services/notionService.js], [jobs/generateWeek.js] and [index.js].

    Conventions of the model.
    - A JavaScript number is a rational (or NaN, or an infinity).
      [Number] rounds the value of a text to the nearest double, as
      StringToNumber does.  The arithmetic of the program itself is on
      integers below 2^53, where doubles are exact, and is exact here.
    - A [Date] holds a time value in milliseconds since the epoch, or is
      the Invalid Date.  [new Date(value)], [addMinutes] and the setters
      that [parseTimeToDate] applies to what a template says cut the
      time line at 8.64e15 ms, as TimeClip does.  The methods [setDate]
      and [setHours] themselves are modelled on the whole time line: the
      program calls them directly only to move a reading of the clock
      by a few days, and the statements on moving any other date by
      days carry the range of the time values as a hypothesis
      ([inRange]).
    - The numbers stored in Notion (the Duration of a task) are integers,
      the whole minutes of the data model.
    - The local time zone of the runtime is a fixed offset [LocalTZA] from
      UTC, in milliseconds; daylight-saving changes are not modelled.
    - Strings are sequences of UTF-8 bytes.
    - A run is a function of the trace of what it has done so far
      (requests sent, delays waited, readings of the clock); the remote
      API and the clock answer as functions of that trace.
    - Calls to the logger are left out: they never throw and nothing reads
      what they write.  The evaluation of their arguments is kept where
      it can throw (the reading of [error.message] in a [catch] block). *)

From Stdlib Require Import ZArith QArith List String Ascii Bool Lia.
Import ListNotations.
Local Open Scope Z_scope.

(** ** JavaScript numbers *)

Inductive jsnumber : Type :=
| NaN
| Infinity (negative : bool)
| Real (q : Q).

Definition ofZ (z : Z) : jsnumber := Real (inject_Z z).

Definition jsneg (a : jsnumber) : jsnumber :=
  match a with
  | NaN => NaN
  | Infinity s => Infinity (negb s)
  | Real x => Real (Qopp x)
  end.

Definition jsadd (a b : jsnumber) : jsnumber :=
  match a, b with
  | NaN, _ | _, NaN => NaN
  | Real x, Real y => Real (Qplus x y)
  | Infinity s, Infinity s' => if Bool.eqb s s' then Infinity s else NaN
  | Infinity s, Real _ | Real _, Infinity s => Infinity s
  end.

Definition jssub (a b : jsnumber) : jsnumber := jsadd a (jsneg b).

(** [a < b]; false as soon as one side is NaN. *)
Definition jslt (a b : jsnumber) : bool :=
  match a, b with
  | NaN, _ | _, NaN => false
  | Real x, Real y => negb (Qle_bool y x)
  | Infinity s, Infinity s' => s && negb s'
  | Infinity s, Real _ => s
  | Real _, Infinity s => negb s
  end.

(** ToIntegerOrInfinity, on the finite numbers: truncation towards zero.
    [None] stands for the inputs that the Date abstract operations turn
    into NaN (NaN itself and the infinities). *)
Definition toInteger (a : jsnumber) : option Z :=
  match a with
  | Real q => Some (Z.quot (Qnum q) (QDen q))
  | _ => None
  end.

(** ** The Number value of a real number

    IEEE 754 binary64: round to the nearest, ties to even. *)

(** [2^k <= a / d], for positive [a] and [d] and any integer [k]. *)
Definition atLeastPow2 (a d k : Z) : bool :=
  if 0 <=? k then d * 2 ^ k <=? a else d <=? a * 2 ^ (- k).

(** [n / d] rounded to the nearest integer, to the even one when it is
    half way. *)
Definition roundHalfEven (n d : Z) : Z :=
  let f := n / d in
  let r := n mod d in
  if 2 * r <? d then f
  else if d <? 2 * r then f + 1
  else if Z.even f then f else f + 1.

Definition roundToDouble (q : Q) : jsnumber :=
  let n := Qnum q in
  let d := QDen q in
  if n =? 0 then Real 0
  else
    let a := Z.abs n in
    (* the binary exponent of a / d *)
    let e0 := Z.log2 a - Z.log2 d in
    let e := if atLeastPow2 a d e0 then e0 else e0 - 1 in
    (* the exponent of the unit in the last place: 52 bits below, and no
       lower than that of the subnormal numbers *)
    let u := Z.max (e - 52) (-1074) in
    let m := if 0 <=? u then roundHalfEven a (d * 2 ^ u)
             else roundHalfEven (a * 2 ^ (- u)) d in
    let up := 2 ^ Z.max u 0 in
    let down := 2 ^ Z.max (- u) 0 in
    if 2 ^ 1024 <=? m * up then Infinity (n <? 0)
    else Real (Qred (Qmake (Z.sgn n * m * up) (Z.to_pos down))).

(** ** Number(string): the StringNumericLiteral grammar *)

Definition isDigit (c : ascii) : bool :=
  let n := N_of_ascii c in ((48 <=? n) && (n <=? 57))%N.

Definition digitValue (c : ascii) : Z := Z.of_N (N_of_ascii c) - 48.

(** Value of a hexadecimal digit, if it is one. *)
Definition hexValue (c : ascii) : option Z :=
  let n := N_of_ascii c in
  if ((48 <=? n) && (n <=? 57))%N then Some (Z.of_N n - 48)
  else if ((97 <=? n) && (n <=? 102))%N then Some (Z.of_N n - 87)
  else if ((65 <=? n) && (n <=? 70))%N then Some (Z.of_N n - 55)
  else None.

(** Digits of the given radix, most significant first; [None] when a
    character is not a digit of that radix. *)
Fixpoint radixValue (radix : Z) (acc : Z) (s : list ascii) : option Z :=
  match s with
  | [] => Some acc
  | c :: r =>
      match hexValue c with
      | Some v => if v <? radix then radixValue radix (acc * radix + v) r else None
      | None => None
      end
  end.

(** Splits off the longest prefix of decimal digits. *)
Fixpoint spanDigits (s : list ascii) : list ascii * list ascii :=
  match s with
  | c :: r =>
      if isDigit c then let (ds, rest) := spanDigits r in (c :: ds, rest)
      else ([], s)
  | [] => ([], [])
  end.

Definition decimalValue (ds : list ascii) : Z :=
  fold_left (fun acc c => acc * 10 + digitValue c) ds 0.

(** StrWhiteSpaceChar: the white space and line terminator code points,
    as UTF-8 byte sequences. *)
Definition whiteSpaceTokens : list (list N) :=
  [ [9]; [10]; [11]; [12]; [13]; [32];
    [194; 160];
    [225; 154; 128];
    [226; 128; 128]; [226; 128; 129]; [226; 128; 130]; [226; 128; 131];
    [226; 128; 132]; [226; 128; 133]; [226; 128; 134]; [226; 128; 135];
    [226; 128; 136]; [226; 128; 137]; [226; 128; 138];
    [226; 128; 168]; [226; 128; 169]; [226; 128; 175];
    [226; 129; 159];
    [227; 128; 128];
    [239; 187; 191] ]%N.

Fixpoint stripPrefix (p : list N) (s : list ascii) : option (list ascii) :=
  match p, s with
  | [], _ => Some s
  | n :: p', c :: s' => if (N_of_ascii c =? n)%N then stripPrefix p' s' else None
  | _ :: _, [] => None
  end.

Fixpoint stripAnyOf (ps : list (list N)) (s : list ascii) : option (list ascii) :=
  match ps with
  | [] => None
  | p :: ps' =>
      match stripPrefix p s with
      | Some r => Some r
      | None => stripAnyOf ps' s
      end
  end.

Fixpoint trimStartWith (ps : list (list N)) (fuel : nat) (s : list ascii) : list ascii :=
  match fuel with
  | O => s
  | S k =>
      match stripAnyOf ps s with
      | Some r => trimStartWith ps k r
      | None => s
      end
  end.

Definition trimStart (s : list ascii) : list ascii :=
  trimStartWith whiteSpaceTokens (List.length s) s.

Definition trimEnd (s : list ascii) : list ascii :=
  rev (trimStartWith (map (@rev N) whiteSpaceTokens) (List.length s) (rev s)).

(** ExponentPart, optional: [e] or [E], an optional sign, digits; the
    literal must end there. *)
Definition exponentPart (s : list ascii) : option Z :=
  match s with
  | [] => Some 0
  | c :: r =>
      if (Ascii.eqb c "e" || Ascii.eqb c "E")%bool then
        let '(sign, r') :=
          match r with
          | "+"%char :: t => (1, t)
          | "-"%char :: t => (-1, t)
          | _ => (1, r)
          end in
        match spanDigits r' with
        | ([], _) => None
        | (ds, []) => Some (sign * decimalValue ds)
        | (_, _ :: _) => None
        end
      else None
  end.

(** [m * 10^e] as a rational. *)
Definition scale10 (m e : Z) : Q :=
  if 0 <=? e then inject_Z (m * 10 ^ e)
  else Qmake m (Z.to_pos (10 ^ (- e))).

(** StrUnsignedDecimalLiteral, [Infinity] apart. *)
Definition unsignedDecimal (s : list ascii) : option Q :=
  let (ip, r) := spanDigits s in
  let '(fp, dot, r') :=
    match r with
    | "."%char :: t => let (fp, r') := spanDigits t in (fp, true, r')
    | _ => ([], false, r)
    end in
  match ip, fp with
  | [], [] => None
  | _, _ =>
      match exponentPart r' with
      | Some e => Some (scale10 (decimalValue (ip ++ fp)) (e - Z.of_nat (List.length fp)))
      | None => None
      end
  end.

Definition strDecimalLiteral (s : list ascii) : jsnumber :=
  let '(negative, u) :=
    match s with
    | "+"%char :: t => (false, t)
    | "-"%char :: t => (true, t)
    | _ => (false, s)
    end in
  if list_eq_dec ascii_dec u (list_ascii_of_string "Infinity") then Infinity negative
  else
    match unsignedDecimal u with
    | Some q => roundToDouble (if negative then Qopp q else q)
    | None => NaN
    end.

Definition nonDecimalLiteral (radix : Z) (ds : list ascii) : jsnumber :=
  match ds with
  | [] => NaN
  | _ => match radixValue radix 0 ds with
         | Some v => roundToDouble (inject_Z v)
         | None => NaN
         end
  end.

(** [Number(s)] for a string [s]. *)
Definition Number (s : string) : jsnumber :=
  let t := trimEnd (trimStart (list_ascii_of_string s)) in
  match t with
  | [] => ofZ 0
  | "0"%char :: p :: ds =>
      if (Ascii.eqb p "x" || Ascii.eqb p "X")%bool then nonDecimalLiteral 16 ds
      else if (Ascii.eqb p "o" || Ascii.eqb p "O")%bool then nonDecimalLiteral 8 ds
      else if (Ascii.eqb p "b" || Ascii.eqb p "B")%bool then nonDecimalLiteral 2 ds
      else strDecimalLiteral t
  | _ => strDecimalLiteral t
  end.

(** [s.split(sep)] for a one-character separator. *)
Fixpoint split (sep : ascii) (s : string) : list string :=
  match s with
  | EmptyString => [EmptyString]
  | String c r =>
      if Ascii.eqb c sep then EmptyString :: split sep r
      else match split sep r with
           | p :: ps => String c p :: ps
           | [] => [String c EmptyString]
           end
  end.

(** ** Time values (ECMAScript, Dates and times) *)

Definition msPerDay : Z := 86400000.
Definition msPerHour : Z := 3600000.
Definition msPerMinute : Z := 60000.
Definition msPerSecond : Z := 1000.

Definition Day (t : Z) : Z := t / msPerDay.
Definition TimeWithinDay (t : Z) : Z := t mod msPerDay.
Definition WeekDay (t : Z) : Z := (Day t + 4) mod 7.
Definition HourFromTime (t : Z) : Z := (t / msPerHour) mod 24.
Definition MinFromTime (t : Z) : Z := (t / msPerMinute) mod 60.
Definition SecFromTime (t : Z) : Z := (t / msPerSecond) mod 60.
Definition msFromTime (t : Z) : Z := t mod msPerSecond.

Definition MakeTime (hour min sec ms : Z) : Z :=
  hour * msPerHour + min * msPerMinute + sec * msPerSecond + ms.
Definition MakeDate (day time : Z) : Z := day * msPerDay + time.

(** Year, month (1 to 12) and day of the month of a day number, in the
    proleptic Gregorian calendar. *)
Definition civilFromDays (d : Z) : Z * Z * Z :=
  let z := d + 719468 in
  let era := z / 146097 in
  let doe := z - era * 146097 in
  let yoe := (doe - doe / 1460 + doe / 36524 - doe / 146096) / 365 in
  let doy := doe - (365 * yoe + yoe / 4 - yoe / 100) in
  let mp := (5 * doy + 2) / 153 in
  let dd := doy - (153 * mp + 2) / 5 + 1 in
  let m := if mp <? 10 then mp + 3 else mp - 9 in
  let y := yoe + era * 400 in
  (if m <=? 2 then y + 1 else y, m, dd).

Definition YearFromTime (t : Z) : Z := fst (fst (civilFromDays (Day t))).
Definition MonthFromTime (t : Z) : Z := snd (fst (civilFromDays (Day t))) - 1.
Definition DateFromTime (t : Z) : Z := snd (civilFromDays (Day t)).

(** MakeDay(YearFromTime(t), MonthFromTime(t), dt): the day number of the
    first of [t]'s month, plus [dt - 1]. *)
Definition MakeDayInMonthOf (t dt : Z) : Z :=
  (Day t - (DateFromTime t - 1)) + dt - 1.

(** ** Date objects *)

Inductive Date : Type :=
| InvalidDate
| DateAt (t : Z).

(** The time values of Date: 100,000,000 days on either side of the
    epoch. *)
Definition maxTime : Z := 8640000000000000.

(** TimeClip, on an integral time value. *)
Definition TimeClip (t : Z) : Date :=
  if Z.abs t <=? maxTime then DateAt t else InvalidDate.

Definition clipped (d : Date) : Date :=
  match d with
  | InvalidDate => InvalidDate
  | DateAt t => TimeClip t
  end.

Section LocalTime.

Variable LocalTZA : Z.

Definition LocalTime (t : Z) : Z := t + LocalTZA.
Definition UTC (t : Z) : Z := t - LocalTZA.

(** *** Methods of Date.prototype *)

Definition Date_getDay (d : Date) : jsnumber :=
  match d with
  | InvalidDate => NaN
  | DateAt t => ofZ (WeekDay (LocalTime t))
  end.

Definition Date_getDate (d : Date) : jsnumber :=
  match d with
  | InvalidDate => NaN
  | DateAt t => ofZ (DateFromTime (LocalTime t))
  end.

Definition Date_setDate (d : Date) (date : jsnumber) : Date :=
  match d, toInteger date with
  | DateAt u, Some dt =>
      let t := LocalTime u in
      DateAt (UTC (MakeDate (MakeDayInMonthOf t dt) (TimeWithinDay t)))
  | _, _ => InvalidDate
  end.

(** [d.setHours(hour, min, sec, ms)]; an argument left out is [None] and
    keeps the field of [d]. *)
Definition Date_setHours (d : Date) (hour : jsnumber) (min sec ms : option jsnumber) : Date :=
  match d with
  | InvalidDate => InvalidDate
  | DateAt u =>
      let t := LocalTime u in
      let arg (o : option jsnumber) (dflt : Z) :=
        match o with
        | None => Some dflt
        | Some n => toInteger n
        end in
      match toInteger hour, arg min (MinFromTime t), arg sec (SecFromTime t),
            arg ms (msFromTime t) with
      | Some h, Some m, Some s, Some milli =>
          DateAt (UTC (MakeDate (Day t) (MakeTime h m s milli)))
      | _, _, _, _ => InvalidDate
      end
  end.

Definition Date_setMinutes (d : Date) (min : jsnumber) : Date :=
  match d, toInteger min with
  | DateAt u, Some m =>
      let t := LocalTime u in
      DateAt (UTC (MakeDate (Day t) (MakeTime (HourFromTime t) m (SecFromTime t) (msFromTime t))))
  | _, _ => InvalidDate
  end.

Definition Date_setSeconds (d : Date) (sec : jsnumber) : Date :=
  match d, toInteger sec with
  | DateAt u, Some s =>
      let t := LocalTime u in
      DateAt (UTC (MakeDate (Day t) (MakeTime (HourFromTime t) (MinFromTime t) s (msFromTime t))))
  | _, _ => InvalidDate
  end.

Definition Date_setMilliseconds (d : Date) (ms : jsnumber) : Date :=
  match d, toInteger ms with
  | DateAt u, Some milli =>
      let t := LocalTime u in
      DateAt (UTC (MakeDate (Day t) (MakeTime (HourFromTime t) (MinFromTime t) (SecFromTime t) milli)))
  | _, _ => InvalidDate
  end.

(** *** date-fns *)

(** The early return of [addDays] for a zero amount gives the same date
    as the general path and is not written out. *)
Definition addDays (date : Date) (amount : Z) : Date :=
  Date_setDate date (jsadd (Date_getDate date) (ofZ amount)).

Definition addWeeks (date : Date) (amount : Z) : Date :=
  addDays date (amount * 7).

Definition startOfWeek (date : Date) (weekStartsOn : Z) : Date :=
  let day := Date_getDay date in
  let diff :=
    jssub (jsadd (if jslt day (ofZ weekStartsOn) then ofZ 7 else ofZ 0) day)
          (ofZ weekStartsOn) in
  let date1 := Date_setDate date (jssub (Date_getDate date) diff) in
  Date_setHours date1 (ofZ 0) (Some (ofZ 0)) (Some (ofZ 0)) (Some (ofZ 0)).

(** The four setters of date-fns call the method of the same name on a
    copy of the date; the TimeClip that ends the method is written out
    here. *)
Definition setHours (date : Date) (hours : jsnumber) : Date :=
  clipped (Date_setHours date hours None None None).
Definition setMinutes (date : Date) (minutes : jsnumber) : Date :=
  clipped (Date_setMinutes date minutes).
Definition setSeconds (date : Date) (seconds : jsnumber) : Date :=
  clipped (Date_setSeconds date seconds).
Definition setMilliseconds (date : Date) (milliseconds : jsnumber) : Date :=
  clipped (Date_setMilliseconds date milliseconds).

End LocalTime.

(** [addMinutes] works on the time value: no time zone is involved.  It
    ends in [new Date(timestamp + amount * 60000)]. *)
Definition addMinutes (date : Date) (amount : Z) : Date :=
  match date with
  | InvalidDate => InvalidDate
  | DateAt t => TimeClip (t + amount * msPerMinute)
  end.

(** ** Errors and results *)

Inductive JsError : Type :=
| Error (message : string)
| RangeError (message : string)
| TypeError (message : string)
| APIResponseError (code message : string)
| NotionError (message : string) (originalError : JsError)
| ThrownUndefined.

Inductive Result (A : Type) : Type :=
| Ok (a : A)
| Throw (e : JsError).
Arguments Ok {A} a.
Arguments Throw {A} e.

Definition isOk {A} (r : Result A) : bool :=
  match r with Ok _ => true | Throw _ => false end.

(** ** Property access on an object literal *)

Inductive value : Type :=
| Undefined
| Num (n : jsnumber)
| Obj.

Definition ToNumber (v : value) : jsnumber :=
  match v with
  | Num n => n
  | Undefined | Obj => NaN
  end.

(** The properties every object literal inherits from Object.prototype;
    each is a function or an object. *)
Definition objectPrototypeKeys : list string :=
  [ "constructor"; "__defineGetter__"; "__defineSetter__"; "hasOwnProperty";
    "__lookupGetter__"; "__lookupSetter__"; "isPrototypeOf";
    "propertyIsEnumerable"; "toString"; "valueOf"; "__proto__";
    "toLocaleString" ]%string.

Fixpoint ownProperty (o : list (string * Z)) (key : string) : option Z :=
  match o with
  | [] => None
  | (k, v) :: o' => if String.eqb k key then Some v else ownProperty o' key
  end.

(** [o[key]] *)
Definition getProperty (o : list (string * Z)) (key : string) : value :=
  match ownProperty o key with
  | Some v => Num (ofZ v)
  | None => if existsb (String.eqb key) objectPrototypeKeys then Obj else Undefined
  end.

(** [v ?? d] *)
Definition nullish (v d : value) : value :=
  match v with
  | Undefined => d
  | _ => v
  end.

(** [v === n] for a number [n] *)
Definition strictEqualsNumber (v : value) (n : Z) : bool :=
  match v with
  | Num (Real q) => Qeq_bool q (inject_Z n)
  | _ => false
  end.

(** ** utils/dateHelper.js *)

Definition days : list (string * Z) :=
  [ ("Sunday", 0); ("Domingo", 0);
    ("Monday", 1); ("Lunes", 1);
    ("Tuesday", 2); ("Martes", 2);
    ("Wednesday", 3); ("Miércoles", 3);
    ("Thursday", 4); ("Jueves", 4);
    ("Friday", 5); ("Viernes", 5);
    ("Saturday", 6); ("Sábado", 6) ]%string.

Definition dayNameToIndex (dayName : string) : value :=
  nullish (getProperty days dayName) (Num (ofZ (-1))).

Definition calculateEndDate (startDate : Date) (duration : Z) : Date :=
  addMinutes startDate duration.

(** ISO 8601 rendering of a number on [width] decimal digits. *)
Fixpoint padded (width : nat) (n : Z) : string :=
  match width with
  | O => EmptyString
  | S w => (padded w (n / 10) ++ String (ascii_of_N (48 + Z.to_N (n mod 10))) EmptyString)%string
  end.

Definition isoYear (y : Z) : string :=
  if (0 <=? y) && (y <=? 9999) then padded 4 y
  else ((if (y <? 0)%Z then "-" else "+") ++ padded 6 (Z.abs y))%string.

(** The text of [date.toISOString()] for a valid time value. *)
Definition isoString (t : Z) : string :=
  (isoYear (YearFromTime t) ++ "-" ++ padded 2 (MonthFromTime t + 1) ++ "-"
   ++ padded 2 (DateFromTime t) ++ "T" ++ padded 2 (HourFromTime t) ++ ":"
   ++ padded 2 (MinFromTime t) ++ ":" ++ padded 2 (SecFromTime t) ++ "."
   ++ padded 3 (msFromTime t) ++ "Z")%string.

(** [date.toISOString()] *)
Definition toISOString (date : Date) : Result string :=
  match date with
  | InvalidDate => Throw (RangeError "Invalid time value")
  | DateAt t => Ok (isoString t)
  end.

Definition formatForNotion (date : Date) : Result string := toISOString date.

Record NotionDate : Type := mkNotionDate {
  start : string;
  end_ : string;
  time_zone : string
}.

(** [new Date(x.getTime() + ms)] *)
Definition shifted (d : Date) (ms : Z) : Date :=
  match d with
  | InvalidDate => InvalidDate
  | DateAt t => TimeClip (t + ms)
  end.

(** [timezone] is [None] when the caller leaves the argument out. *)
Definition createNotionDateObject (startDate endDate : Date) (timezone : option string)
  : Result NotionDate :=
  let timezone := match timezone with Some z => z | None => "America/Bogota"%string end in
  let offsetHours := -1 in
  let adjustedStart := shifted startDate (offsetHours * 60 * 60 * 1000) in
  let adjustedEnd := shifted endDate (offsetHours * 60 * 60 * 1000) in
  match formatForNotion adjustedStart with
  | Throw e => Throw e
  | Ok s =>
      match formatForNotion adjustedEnd with
      | Throw e => Throw e
      | Ok e => Ok {| start := s; end_ := e; time_zone := timezone |}
      end
  end.

Section DateHelper.

Variable LocalTZA : Z.

(** [referenceDate] defaults to [new Date()]: the caller passes the clock
    reading. *)
Definition getNextWeekStart (referenceDate : Date) : Date :=
  startOfWeek LocalTZA (addWeeks LocalTZA referenceDate 1) 1.

(** The third parameter of the source, [timezone], is never read. *)
Definition parseTimeToDate (baseDate : Date) (timeString : string) : Date :=
  let parts := map Number (split ":" timeString) in
  (* a missing element is undefined, which the setters take as NaN *)
  let hours := nth 0 parts NaN in
  let minutes := nth 1 parts NaN in
  (* new Date(baseDate) *)
  let date := baseDate in
  let date := setHours LocalTZA date hours in
  let date := setMinutes LocalTZA date minutes in
  let date := setSeconds LocalTZA date (ofZ 0) in
  let date := setMilliseconds LocalTZA date (ofZ 0) in
  date.

(** [now] is the reading of the clock taken by [getNextWeekStart()]. *)
Definition getNextWeekDayDate (now : Z) (dayName : string) : Result Date :=
  let nextWeekStart := getNextWeekStart (DateAt now) in
  let dayIndex := dayNameToIndex dayName in
  if strictEqualsNumber dayIndex (-1) then
    Throw (Error ("Día no válido: " ++ dayName))
  else
    let daysToAdd := jssub (ToNumber dayIndex) (ofZ 1) in
    let daysToAdd := if jslt daysToAdd (ofZ 0) then jsadd daysToAdd (ofZ 7) else daysToAdd in
    let targetDate := nextWeekStart in
    let targetDate := Date_setDate LocalTZA targetDate
                        (jsadd (Date_getDate LocalTZA targetDate) daysToAdd) in
    let targetDate := Date_setHours LocalTZA targetDate (ofZ 0) (Some (ofZ 0))
                        (Some (ofZ 0)) (Some (ofZ 0)) in
    Ok targetDate.

End DateHelper.

(** ** The Notion API, as the services see it *)

Module Notion.

Record RichText : Type := { plain_text : string }.

Record SelectOption : Type := { name : string }.

(** A field that may be missing, [null], or set. *)
Inductive optional (A : Type) : Type :=
| Absent
| Null
| Present (a : A).
Arguments Absent {A}.
Arguments Null {A}.
Arguments Present {A} a.

(** A property value; [None] in [title], [select] and [rich_text] stands
    for a missing or [null] field. *)
Record Property : Type := {
  title : option (list RichText);
  select : option SelectOption;
  rich_text : option (list RichText);
  number : optional Z
}.

(** [None]: the page has no property of that name. *)
Record Properties : Type := {
  Name : option Property;
  Day : option Property;
  Time : option Property;
  Duration : option Property;
  Notes : option Property
}.

Record Page : Type := { id : string; properties : Properties }.

Inductive Request : Type :=
| DatabasesRetrieve (database_id : string)
| DatabasesQuery (database_id sortProperty sortDirection : string)
| PagesCreate (database_id title start end_ time_zone notes : string).

Inductive Response : Type :=
| Database
| QueryResults (results : list Page)
| CreatedPage (id : string).

End Notion.

Module Task.
Record t : Type := {
  id : string;
  name : string;
  day : string;
  time : string;
  duration : Z;
  notes : string
}.
End Task.

Module CalendarEvent.
Record t : Type := {
  name : string;
  date : NotionDate;
  notes : string
}.
End CalendarEvent.

(** ** config/environment.js and config/notion.js *)

Record Config : Type := {
  apiKey : string;
  templateDbId : string;
  calendarDbId : string;
  loggingLevel : string;
  timezone : string
}.

Definition databases_template (config : Config) : string := templateDbId config.
Definition databases_calendar (config : Config) : string := calendarDbId config.

(** ** Effects

    What a run does to the outside is recorded, in order, in a trace.
    The outside answers as a function of what has happened so far. *)

Inductive Effect : Type :=
| Sent (request : Notion.Request)
| Waited (ms : Z)
| ClockRead.

Definition Trace : Type := list Effect.

Record Runtime : Type := {
  LocalTZA : Z;
  config : Config;
  remote : Trace -> Notion.Request -> Result Notion.Response;
  clock : Trace -> Z
}.

(** An asynchronous computation: from the trace so far to an outcome and
    the extended trace. *)
Definition M (A : Type) : Type := Trace -> Result A * Trace.

Definition ret {A} (a : A) : M A := fun tr => (Ok a, tr).
Definition throw {A} (e : JsError) : M A := fun tr => (Throw e, tr).
Definition bind {A B} (m : M A) (k : A -> M B) : M B :=
  fun tr =>
    match m tr with
    | (Ok a, tr') => k a tr'
    | (Throw e, tr') => (Throw e, tr')
    end.
Definition tryCatch {A} (m : M A) (handler : JsError -> M A) : M A :=
  fun tr =>
    match m tr with
    | (Ok a, tr') => (Ok a, tr')
    | (Throw e, tr') => handler e tr'
    end.
Definition lift {A} (r : Result A) : M A := fun tr => (r, tr).

Declare Scope js_scope.
Delimit Scope js_scope with js.
Notation "x <- m ;; k" := (bind m (fun x => k))
  (at level 61, m at next level, right associativity) : js_scope.
Notation "m ;;; k" := (bind m (fun _ => k))
  (at level 61, right associativity) : js_scope.
Local Open Scope js_scope.

(** ** utils/errorHandler.js *)

(** [error.message]; reading it off [undefined] is a TypeError. *)
Definition messageOf (error : JsError) : Result string :=
  match error with
  | Error m | RangeError m | TypeError m | APIResponseError _ m | NotionError m _ => Ok m
  | ThrownUndefined =>
      Throw (TypeError "Cannot read properties of undefined (reading 'message')")
  end.

(** [x || d] for strings *)
Definition orElse (x d : string) : string :=
  if String.eqb x "" then d else x.

(** What [handleError] throws: it always throws. *)
Definition handleError (error : JsError) (context : string) : JsError :=
  match messageOf error with
  | Ok _ => error
  | Throw e => e
  end.

Definition processNotionError (error : JsError) : Result string :=
  match error with
  | ThrownUndefined =>
      Throw (TypeError "Cannot read properties of undefined (reading 'code')")
  | APIResponseError code message =>
      if String.eqb code "object_not_found" then
        Ok "Base de datos o página no encontrada. Verifica los IDs en tu .env"%string
      else if String.eqb code "unauthorized" then
        Ok "Token de API inválido o sin permisos. Verifica tu NOTION_API_KEY"%string
      else if String.eqb code "restricted_resource" then
        Ok "La integración no tiene acceso a este recurso. Comparte la base de datos con tu integración"%string
      else if String.eqb code "validation_error" then
        Ok ("Error de validación: " ++ message)%string
      else Ok (orElse message "Error desconocido de Notion")
  | Error message | RangeError message | TypeError message | NotionError message _ =>
      Ok (orElse message "Error desconocido de Notion")
  end.

Section Run.

Variable rt : Runtime.

Definition send (request : Notion.Request) : M Notion.Response :=
  fun tr => (remote rt tr request, tr ++ [Sent request]).

(** [await new Promise(resolve => setTimeout(resolve, ms))] *)
Definition sleep (ms : Z) : M unit :=
  fun tr => (Ok tt, tr ++ [Waited ms]).

(** [Date.now()], [new Date()] *)
Definition readClock : M Z :=
  fun tr => (Ok (clock rt tr), tr ++ [ClockRead]).

(** The loop of [retryOperation], from iteration [i], with [n] iterations
    left to run.  The [catch] block reads [error.message] for its log
    line: when what was thrown is [undefined], that reading throws, out
    of the loop. *)
Fixpoint retryLoop {A} (fn : M A) (maxRetries delay : Z) (n : nat) (i : Z)
  (lastError : option JsError) : M A :=
  match n with
  | O => throw (match lastError with Some e => e | None => ThrownUndefined end)
  | S n' =>
      tryCatch fn (fun error =>
        lift (messageOf error) ;;;
        (if i <? maxRetries - 1 then sleep (delay * (i + 1)) else ret tt) ;;;
        retryLoop fn maxRetries delay n' (i + 1) (Some error))
  end.

Definition retryOperation {A} (fn : M A) (maxRetries delay : Z) : M A :=
  retryLoop fn maxRetries delay (Z.to_nat maxRetries) 0 None.

(** ** services/notionService.js *)

Definition extractTitle (property : option Notion.Property) : string :=
  match property with
  | Some {| Notion.title := Some (first :: _) |} => Notion.plain_text first
  | _ => ""
  end.

Definition extractSelect (property : option Notion.Property) : string :=
  match property with
  | Some {| Notion.select := Some option |} => Notion.name option
  | _ => ""
  end.

Definition extractText (property : option Notion.Property) : string :=
  match property with
  | Some {| Notion.rich_text := Some (first :: _) |} => Notion.plain_text first
  | _ => ""
  end.

(** [None] is the [null] that the source returns. *)
Definition extractNumber (property : option Notion.Property) : option Z :=
  match property with
  | Some {| Notion.number := Notion.Present n |} => Some n
  | _ => None
  end.

Definition parseTemplatePage (page : Notion.Page) : Task.t :=
  let properties := Notion.properties page in
  {| Task.id := Notion.id page;
     Task.name := extractTitle (Notion.Name properties);
     Task.day := extractSelect (Notion.Day properties);
     Task.time := extractText (Notion.Time properties);
     Task.duration :=
       match extractNumber (Notion.Duration properties) with
       | None => 60
       | Some n => if n =? 0 then 60 else n
       end;
     Task.notes := orElse (extractText (Notion.Notes properties)) "" |}.

(** Rethrows [error] wrapped in a [NotionError] whose message starts with
    [prefix]: the [catch] block shared by the three services. *)
Definition wrapNotionError {A} (prefix : string) (error : JsError) : M A :=
  match processNotionError error with
  | Throw e => throw e
  | Ok errorMessage => throw (NotionError (prefix ++ errorMessage) error)
  end.

Definition getTemplateTasks : M (list Task.t) :=
  tryCatch
    (response <- retryOperation
                   (send (Notion.DatabasesQuery (databases_template (config rt))
                            "Day" "ascending")) 3 1000 ;;
     match response with
     | Notion.QueryResults results => ret (map parseTemplatePage results)
     | _ => throw (TypeError "Cannot read properties of undefined (reading 'map')")
     end)
    (wrapNotionError "No se pudieron obtener las tareas de plantilla: ").

(** The argument of [notionClient.pages.create] in [createCalendarEvent]. *)
Definition createPageRequest (eventData : CalendarEvent.t) : Notion.Request :=
  let name := CalendarEvent.name eventData in
  let date := CalendarEvent.date eventData in
  let notes := CalendarEvent.notes eventData in
  Notion.PagesCreate (databases_calendar (config rt)) name
    (start date) (end_ date)
    (orElse (time_zone date) "America/Mexico_City")
    (orElse notes "").

Definition createCalendarEvent (eventData : CalendarEvent.t) : M Notion.Response :=
  tryCatch
    (retryOperation (send (createPageRequest eventData)) 3 1000)
    (wrapNotionError "No se pudo crear el evento: ").

Record BatchResult : Type := {
  batch_success : list Notion.Response;
  batch_errors : list (CalendarEvent.t * JsError)
}.

(** The [for] loop of [createCalendarEventsBatch]: [results] and [errors]
    are the two arrays it pushes to. *)
Fixpoint createEventsLoop (events : list CalendarEvent.t)
  (results : list Notion.Response) (errors : list (CalendarEvent.t * JsError))
  : M BatchResult :=
  match events with
  | [] => ret {| batch_success := results; batch_errors := errors |}
  | event :: rest =>
      fun tr =>
        match createCalendarEvent event tr with
        | (Ok result, tr') => createEventsLoop rest (results ++ [result]) errors tr'
        | (Throw error, tr') => createEventsLoop rest results (errors ++ [(event, error)]) tr'
        end
  end.

Definition createCalendarEventsBatch (events : list CalendarEvent.t) : M BatchResult :=
  createEventsLoop events [] [].

Definition verifyConnection : M bool :=
  tryCatch
    (send (Notion.DatabasesRetrieve (databases_template (config rt))) ;;;
     send (Notion.DatabasesRetrieve (databases_calendar (config rt))) ;;;
     ret true)
    (wrapNotionError "Verificación de conexión fallida: ").

End Run.

(** ** jobs/generateWeek.js *)

(** [now] is the clock reading taken inside [getNextWeekDayDate].  The
    [catch] block of the source logs and rethrows the same error. *)
Definition transformTaskToEvent (LocalTZA now : Z) (task : Task.t) : Result CalendarEvent.t :=
  match getNextWeekDayDate LocalTZA now (Task.day task) with
  | Throw error => Throw error
  | Ok dayDate =>
      let startDate := parseTimeToDate LocalTZA dayDate (Task.time task) in
      let endDate := calculateEndDate startDate (Task.duration task) in
      match createNotionDateObject startDate endDate None with
      | Throw error => Throw error
      | Ok notionDate =>
          Ok {| CalendarEvent.name := Task.name task;
                CalendarEvent.date := notionDate;
                CalendarEvent.notes :=
                  orElse (Task.notes task) "Generado automáticamente desde plantilla" |}
      end
  end.

(** The object that [generateWeek] returns.  [duration] is the elapsed
    time in milliseconds (the source renders it in seconds, as text);
    the fields that a given return statement leaves out are [None]. *)
Record WeekResult : Type := {
  success : bool;
  created : nat;
  failed : nat;
  message : option string;
  duration : option Z;
  errors : option (list (string * string));
  error : option string
}.

(** [result.errors.map(e => ({ event: e.event.name, error: e.error.message }))] *)
Fixpoint summarize (errors : list (CalendarEvent.t * JsError)) : Result (list (string * string)) :=
  match errors with
  | [] => Ok []
  | (event, error) :: rest =>
      match messageOf error with
      | Throw e => Throw e
      | Ok m =>
          match summarize rest with
          | Throw e => Throw e
          | Ok l => Ok ((CalendarEvent.name event, m) :: l)
          end
      end
  end.

Section Job.

Variable rt : Runtime.

(** The [for] loop over [templateTasks]; [events] and [transformErrors]
    are the two arrays it pushes to. *)
Fixpoint transformLoop (templateTasks : list Task.t) (events : list CalendarEvent.t)
  (transformErrors : list (Task.t * JsError))
  : M (list CalendarEvent.t * list (Task.t * JsError)) :=
  match templateTasks with
  | [] => ret (events, transformErrors)
  | task :: rest =>
      now <- readClock rt ;;
      match transformTaskToEvent (LocalTZA rt) now task with
      | Ok event => transformLoop rest (events ++ [event]) transformErrors
      | Throw error => transformLoop rest events (transformErrors ++ [(task, error)])
      end
  end.

Definition generateWeek : M WeekResult :=
  startTime <- readClock rt ;;
  tryCatch
    (verifyConnection rt ;;;
     templateTasks <- getTemplateTasks rt ;;
     match templateTasks with
     | [] =>
         ret {| success := true; created := 0; failed := 0;
                message := Some "No hay tareas de plantilla para procesar"%string;
                duration := None; errors := None; error := None |}
     | _ :: _ =>
         prepared <- transformLoop templateTasks [] [] ;;
         let events := fst prepared in
         let transformErrors := snd prepared in
         result <- createCalendarEventsBatch rt events ;;
         endTime <- readClock rt ;;
         summary <- lift (summarize (batch_errors result)) ;;
         ret {| success := true;
                created := List.length (batch_success result);
                failed := List.length (batch_errors result);
                message := None;
                duration := Some (endTime - startTime);
                errors := Some summary;
                error := None |}
     end)
    (fun error =>
       endTime <- readClock rt ;;
       (* handleError throws, so the return statement that follows it in
          the source is never reached *)
       throw (handleError error "GenerateWeek")).

(** ** index.js *)

Inductive ProcessEnd : Type :=
| RunsToCompletion
| Exit (code : Z).

Definition main (tr : Trace) : ProcessEnd * Trace :=
  match generateWeek tr with
  | (Ok result, tr') => (RunsToCompletion, tr')
  | (Throw error, tr') => (Exit 1, tr')
  end.

(** The job run as a script (the last block of jobs/generateWeek.js). *)
Definition runJob (tr : Trace) : ProcessEnd * Trace :=
  match generateWeek tr with
  | (Ok result, tr') => (if success result then Exit 0 else Exit 1, tr')
  | (Throw error, tr') => (Exit 1, tr')
  end.

End Job.

(** ** Vocabulary of the specification *)

(** The day number of the Monday that opens the Monday-to-Sunday week of
    day [d]. *)
Definition mondayOfWeek (d : Z) : Z := d - (d + 3) mod 7.

(** The Monday following the week that contains the local day of [now]. *)
Definition followingMonday (LocalTZA now : Z) : Z :=
  mondayOfWeek (Day (LocalTime LocalTZA now)) + 7.

(** A time string made of two decimal integers separated by a colon,
    with the two values. *)
Definition matchHHmm (timeString : string) : option (Z * Z) :=
  let (hd, r) := spanDigits (list_ascii_of_string timeString) in
  match r with
  | ":"%char :: md =>
      match hd, md with
      | _ :: _, _ :: _ =>
          if forallb isDigit md then Some (decimalValue hd, decimalValue md) else None
      | _, _ => None
      end
  | _ => None
  end.

(** One of the fourteen weekday names, exactly as spelled in the table. *)
Definition recognizedDay (dayName : string) : bool :=
  existsb (String.eqb dayName) (map fst days).

(** The hour and minute that an ISO 8601 timestamp in UTC spells out
    after its [T]. *)
Fixpoint utcHourMinute (iso : string) : option (Z * Z) :=
  match iso with
  | String "T" (String h1 (String h2 (String ":" (String m1 (String m2 _))))) =>
      if isDigit h1 && isDigit h2 && isDigit m1 && isDigit m2
      then Some (10 * digitValue h1 + digitValue h2, 10 * digitValue m1 + digitValue m2)
      else None
  | String _ r => utcHourMinute r
  | EmptyString => None
  end.

(** The wall-clock hour and minute shown for a UTC timestamp by a zone
    [offsetMinutes] minutes east of UTC. *)
Definition redisplay (offsetMinutes : Z) (iso : string) : option (Z * Z) :=
  match utcHourMinute iso with
  | Some (h, m) =>
      let total := (h * 60 + m + offsetMinutes) mod 1440 in
      Some (total / 60, total mod 60)
  | None => None
  end.

(** America/Bogota is five hours behind UTC all year. *)
Definition bogotaOffsetMinutes : Z := -300.

(** What the transformation loop does to each task: the task with the
    outcome of its own transformation, at its own reading of the clock. *)
Fixpoint outcomes (rt : Runtime) (tr : Trace) (tasks : list Task.t)
  : list (Task.t * Result CalendarEvent.t) :=
  match tasks with
  | [] => []
  | task :: rest =>
      (task, transformTaskToEvent (LocalTZA rt) (clock rt tr) task)
        :: outcomes rt (tr ++ [ClockRead]) rest
  end.

Definition okEvents (l : list (Task.t * Result CalendarEvent.t)) : list CalendarEvent.t :=
  flat_map (fun p => match snd p with Ok event => [event] | Throw _ => [] end) l.

Definition failures (l : list (Task.t * Result CalendarEvent.t)) : list (Task.t * JsError) :=
  flat_map (fun p => match snd p with Ok _ => [] | Throw e => [(fst p, e)] end) l.

(** The hour and the minute parts of a time string are both finite
    numbers. *)
Definition finiteTime (timeString : string) : bool :=
  let parts := map Number (split ":" timeString) in
  match toInteger (nth 0 parts NaN), toInteger (nth 1 parts NaN) with
  | Some _, Some _ => true
  | _, _ => false
  end.

(** A time value of Date. *)
Definition inRange (t : Z) : Prop := - maxTime <= t <= maxTime.

(** Setting [h] hours and [m] minutes on a day whose local midnight is
    the instant [midnight] stays within Date: the midnight itself, the
    two amounts of time, and whatever lies between the midnight and the
    end of the hour of [h:m] (the setters pass through the minutes and
    seconds of the date they are given) are time values. *)
Definition settersInRange (midnight h m : Z) : Prop :=
  inRange midnight
  /\ h * msPerHour <= maxTime /\ m * msPerMinute <= maxTime
  /\ midnight + (h + 1) * msPerHour + m * msPerMinute <= maxTime.

(** The same for a whole event of [D] minutes that starts at [h:m] of
    that day: its start and its end, and both one hour earlier, are time
    values too. *)
Definition eventInRange (midnight h m D : Z) : Prop :=
  let s := midnight + h * msPerHour + m * msPerMinute in
  settersInRange midnight h m
  /\ inRange (s - msPerHour)
  /\ inRange (s + D * msPerMinute)
  /\ inRange (s + D * msPerMinute - msPerHour).


(** The number of requests in a trace. *)
Definition countSent (tr : Trace) : nat :=
  List.length (filter (fun e => match e with Sent _ => true | _ => false end) tr).

(** The effects of writing one event: one to three attempts at the same
    request, with the waits in between. *)
Definition writeAttempts (request : Notion.Request) (seg : Trace) : Prop :=
  seg = [Sent request]
  \/ seg = [Sent request; Waited 1000; Sent request]
  \/ seg = [Sent request; Waited 1000; Sent request; Waited 2000; Sent request].

(** Requests that read: the two kinds sent before any template is
    fetched or any event written. *)
Definition isRetrieve (e : Effect) : Prop :=
  match e with
  | Sent (Notion.DatabasesQuery _ _ _) | Sent (Notion.PagesCreate _ _ _ _ _ _) => False
  | _ => True
  end.

(** Every page created is given the time zone America/Bogota. *)
Definition bogotaOnly (e : Effect) : Prop :=
  match e with
  | Sent (Notion.PagesCreate _ _ _ _ z _) => z = "America/Bogota"%string
  | _ => True
  end.

(** The same runtime under another configured time zone label. *)
Definition withTimezone (rt : Runtime) (label : string) : Runtime :=
  {| LocalTZA := LocalTZA rt;
     config := {| apiKey := apiKey (config rt);
                  templateDbId := templateDbId (config rt);
                  calendarDbId := calendarDbId (config rt);
                  loggingLevel := loggingLevel (config rt);
                  timezone := label |};
     remote := remote rt;
     clock := clock rt |}.

(** ** Sample environments *)

Definition sampleConfig : Config :=
  {| apiKey := "secret"; templateDbId := "template-db"; calendarDbId := "calendar-db";
     loggingLevel := "info"; timezone := "America/Mexico_City" |}.

Definition samplePage (day time : string) (minutes : Notion.optional Z) : Notion.Page :=
  let text (s : string) :=
    Some {| Notion.title := None; Notion.select := None;
            Notion.rich_text := Some [ {| Notion.plain_text := s |} ];
            Notion.number := Notion.Absent |} in
  {| Notion.id := "page-1";
     Notion.properties :=
       {| Notion.Name :=
            Some {| Notion.title := Some [ {| Notion.plain_text := "Standup" |} ];
                    Notion.select := None; Notion.rich_text := None;
                    Notion.number := Notion.Absent |};
          Notion.Day :=
            Some {| Notion.title := None;
                    Notion.select := Some {| Notion.name := day |};
                    Notion.rich_text := None; Notion.number := Notion.Absent |};
          Notion.Time := text time;
          Notion.Duration :=
            Some {| Notion.title := None; Notion.select := None;
                    Notion.rich_text := None; Notion.number := minutes |};
          Notion.Notes := None |} |}.

Definition countCreates (tr : Trace) : nat :=
  List.length (filter (fun e => match e with
                                | Sent (Notion.PagesCreate _ _ _ _ _ _) => true
                                | _ => false
                                end) tr).

(** A remote that answers the template query with [pages], and refuses
    the first [refusals] page creations. *)
Definition sampleRemote (pages : list Notion.Page) (refusals : nat)
  (tr : Trace) (request : Notion.Request) : Result Notion.Response :=
  match request with
  | Notion.DatabasesRetrieve _ => Ok Notion.Database
  | Notion.DatabasesQuery _ _ _ => Ok (Notion.QueryResults pages)
  | Notion.PagesCreate _ _ _ _ _ _ =>
      if (countCreates tr <? refusals)%nat
      then Throw (APIResponseError "rate_limited" "Rate limited")
      else Ok (Notion.CreatedPage "created-1")
  end.

(** A remote that throws [undefined] at the first request it is sent
    and accepts the following ones. *)
Definition undefinedOnceRemote (tr : Trace) (request : Notion.Request)
  : Result Notion.Response :=
  if (countSent tr =? 0)%nat then Throw ThrownUndefined else Ok Notion.Database.

(** A remote that refuses everything. *)
Definition unauthorizedRemote (tr : Trace) (request : Notion.Request)
  : Result Notion.Response :=
  Throw (APIResponseError "unauthorized" "API token is invalid.").

(** A runtime in UTC whose clock stands at Monday 8 January 2024,
    20:00 UTC. *)
Definition sampleRuntime (remote : Trace -> Notion.Request -> Result Notion.Response)
  : Runtime :=
  {| LocalTZA := 0; config := sampleConfig; remote := remote;
     clock := fun _ => 1704744000000 |}.

(** ** Effect footprints

    [appends P Q m]: started on any trace, [m] only appends effects that
    satisfy [P], and its outcome satisfies [Q]. *)
Definition appends {A} (P : Effect -> Prop) (Q : Result A -> Prop) (m : M A) : Prop :=
  forall tr, exists seg, snd (m tr) = tr ++ seg /\ Forall P seg /\ Q (fst (m tr)).

(** An outcome that, when it is an error, is an error object with a
    message. *)
Definition hasMessage {A} (r : Result A) : Prop :=
  match r with
  | Ok _ => True
  | Throw e => e <> ThrownUndefined
  end.

Definition sampleEvent : CalendarEvent.t :=
  {| CalendarEvent.name := "Standup";
     CalendarEvent.date :=
       {| start := "2024-01-15T08:00:00.000Z"; end_ := "2024-01-15T08:30:00.000Z";
          time_zone := "America/Bogota" |};
     CalendarEvent.notes := "Daily" |}.

(** * Further functions of the source *)

(** ** utils/dateHelper.js, continued *)

(** [a <= b]; false as soon as one side is NaN. *)
Definition jsle (a b : jsnumber) : bool :=
  match a, b with
  | NaN, _ | _, NaN => false
  | Real x, Real y => Qle_bool x y
  | Infinity s, Infinity s' => s || negb s'
  | Infinity s, Real _ => s
  | Real _, Infinity s => negb s
  end.

(** [!a] for a number that is not NaN: it is zero. *)
Definition jsIsZero (a : jsnumber) : bool :=
  match a with
  | Real q => Qeq_bool q (inject_Z 0)
  | _ => false
  end.

Section DateFns.

Variable LocalTZA : Z.

(** date-fns [endOfWeek] *)
Definition endOfWeek (date : Date) (weekStartsOn : Z) : Date :=
  let day := Date_getDay LocalTZA date in
  let diff :=
    jssub (jsadd (if jslt day (ofZ weekStartsOn) then ofZ (-7) else ofZ 0) (ofZ 6))
          (jssub day (ofZ weekStartsOn)) in
  let date1 := Date_setDate LocalTZA date (jsadd (Date_getDate LocalTZA date) diff) in
  Date_setHours LocalTZA date1 (ofZ 23) (Some (ofZ 59)) (Some (ofZ 59)) (Some (ofZ 999)).

(** date-fns [addDays], for an amount that is any number: the function
    of the same name above is its use with an integer constant. *)
Definition addDaysBy (date : Date) (amount : jsnumber) : Date :=
  match amount with
  | NaN => InvalidDate
  | _ =>
      if jsIsZero amount then date
      else Date_setDate LocalTZA date (jsadd (Date_getDate LocalTZA date) amount)
  end.

(** date-fns [nextDay]; [nextMonday] is [nextDay] with day 1, and so on. *)
Definition nextDay (date : Date) (day : Z) : Date :=
  let delta := jssub (ofZ day) (Date_getDay LocalTZA date) in
  let delta := if jsle delta (ofZ 0) then jsadd delta (ofZ 7) else delta in
  addDaysBy date delta.

Definition getNextWeekEnd (referenceDate : Date) : Date :=
  endOfWeek (addWeeks LocalTZA referenceDate 1) 1.

End DateFns.

(** The table [dayFunctions]: each name with the day that its function
    ([nextMonday], ..., [nextSunday]) looks for. *)
Definition dayFunctions : list (string * Z) :=
  [ ("Monday", 1); ("Tuesday", 2); ("Wednesday", 3); ("Thursday", 4);
    ("Friday", 5); ("Saturday", 6); ("Sunday", 0);
    ("Lunes", 1); ("Martes", 2); ("Miércoles", 3); ("Jueves", 4);
    ("Viernes", 5); ("Sábado", 6); ("Domingo", 0) ]%string.

(** What [getNextWeekDay] comes to.  For a name that the table only
    inherits from Object.prototype, the source calls that inherited member
    as a function; the model stops at the call. *)
Inductive NextWeekDay : Type :=
| NextDate (date : Date)
| InvalidDay (error : JsError)
| InheritedCall (key : string).

Definition getNextWeekDay (LocalTZA : Z) (referenceDate : Date) (dayName : string)
  : NextWeekDay :=
  match ownProperty dayFunctions dayName with
  | Some day => NextDate (nextDay LocalTZA referenceDate day)
  | None =>
      if existsb (String.eqb dayName) objectPrototypeKeys then InheritedCall dayName
      else InvalidDay (Error ("Día no válido: " ++ dayName))
  end.

Module WeekDates.
Record t : Type := {
  Monday : Date;
  Tuesday : Date;
  Wednesday : Date;
  Thursday : Date;
  Friday : Date;
  Saturday : Date;
  Sunday : Date
}.
End WeekDates.

Section WeekDatesOf.

Variable rt : Runtime.

(** [getNextWeekDayDate(dayName)], with its reading of the clock. *)
Definition getNextWeekDayDateNow (dayName : string) : M Date :=
  now <- readClock rt ;;
  lift (getNextWeekDayDate (LocalTZA rt) now dayName).

(** The first line of the source calls [getNextWeekStart()] and does not
    use the result: a reading of the clock. *)
Definition getNextWeekDates : M WeekDates.t :=
  readClock rt ;;;
  monday <- getNextWeekDayDateNow "Monday" ;;
  tuesday <- getNextWeekDayDateNow "Tuesday" ;;
  wednesday <- getNextWeekDayDateNow "Wednesday" ;;
  thursday <- getNextWeekDayDateNow "Thursday" ;;
  friday <- getNextWeekDayDateNow "Friday" ;;
  saturday <- getNextWeekDayDateNow "Saturday" ;;
  sunday <- getNextWeekDayDateNow "Sunday" ;;
  ret {| WeekDates.Monday := monday; WeekDates.Tuesday := tuesday;
         WeekDates.Wednesday := wednesday; WeekDates.Thursday := thursday;
         WeekDates.Friday := friday; WeekDates.Saturday := saturday;
         WeekDates.Sunday := sunday |}.

End WeekDatesOf.

(** ** utils/errorHandler.js, continued *)

(** The values that the fields of a validated object may hold. *)
Inductive JsValue : Type :=
| JsUndefined
| JsNull
| JsBoolean (b : bool)
| JsNumber (n : jsnumber)
| JsString (s : string)
| JsObject.

(** [!!v] *)
Definition truthy (v : JsValue) : bool :=
  match v with
  | JsUndefined | JsNull => false
  | JsBoolean b => b
  | JsNumber NaN => false
  | JsNumber (Infinity _) => true
  | JsNumber (Real q) => negb (Qeq_bool q (inject_Z 0))
  | JsString s => negb (String.eqb s "")
  | JsObject => true
  end.

Fixpoint ownValue (obj : list (string * JsValue)) (key : string) : option JsValue :=
  match obj with
  | [] => None
  | (k, v) :: obj' => if String.eqb k key then Some v else ownValue obj' key
  end.

(** [obj[field]], for a plain object: what it does not hold itself it
    inherits from Object.prototype. *)
Definition getValue (obj : list (string * JsValue)) (field : string) : JsValue :=
  match ownValue obj field with
  | Some v => v
  | None => if existsb (String.eqb field) objectPrototypeKeys then JsObject else JsUndefined
  end.

(** [l.join(sep)] *)
Fixpoint join (sep : string) (l : list string) : string :=
  match l with
  | [] => EmptyString
  | [x] => x
  | x :: r => (x ++ sep ++ join sep r)%string
  end.

Module ValidationError.
Record t : Type := { message : string; field : string }.
End ValidationError.

(** [None] when the function returns, [Some e] when it throws [e]. *)
Definition validateRequiredFields (obj : list (string * JsValue))
  (requiredFields : list string) (context : string) : option ValidationError.t :=
  let missing := filter (fun field => negb (truthy (getValue obj field))) requiredFields in
  match missing with
  | [] => None
  | first :: _ =>
      Some {| ValidationError.message :=
                (context ++ " - Campos requeridos faltantes: " ++ join ", " missing)%string;
              ValidationError.field := first |}
  end.

(** The function that [asyncErrorHandler(fn, context)] returns, applied:
    [fn] stands for the call of the wrapped function on its arguments. *)
Definition asyncErrorHandler {A} (fn : M A) (context : string) : M A :=
  tryCatch fn (fun error => throw (handleError error context)).

(** ** config/environment.js *)

(** [process.env], once the .env file is loaded. *)
Definition Environment : Type := string -> option string.

Definition requiredVariables : list string :=
  [ "NOTION_API_KEY"; "TEMPLATE_DB_ID"; "CALENDAR_DB_ID" ]%string.

(** [!process.env[key]] *)
Definition unset (env : Environment) (key : string) : bool :=
  match env key with
  | Some v => String.eqb v ""
  | None => true
  end.

Definition newline : string := String (ascii_of_N 10) EmptyString.

Definition validateEnvironment (env : Environment) : Result unit :=
  let missing := filter (unset env) requiredVariables in
  match missing with
  | [] => Ok tt
  | _ :: _ =>
      Throw (Error ("Faltan variables de entorno requeridas: " ++ join ", " missing
                    ++ newline ++ "Por favor, revisa tu archivo .env"))
  end.

(** [process.env[key] || dflt] *)
Definition envOr (env : Environment) (key dflt : string) : string :=
  match env key with
  | Some v => orElse v dflt
  | None => dflt
  end.

(** The evaluation of the module: the validation, then the [config]
    object.  A required variable is read after the validation has found
    it set. *)
Definition loadConfig (env : Environment) : Result Config :=
  match validateEnvironment env with
  | Throw e => Throw e
  | Ok _ =>
      Ok {| apiKey := envOr env "NOTION_API_KEY" "";
            templateDbId := envOr env "TEMPLATE_DB_ID" "";
            calendarDbId := envOr env "CALENDAR_DB_ID" "";
            loggingLevel := envOr env "LOG_LEVEL" "info";
            timezone := envOr env "TIMEZONE" "UTC" |}
  end.

(** ** Vocabulary of the further properties *)

(** The delays of a trace, added up. *)
Fixpoint totalWaited (tr : Trace) : Z :=
  match tr with
  | [] => 0
  | Waited ms :: r => ms + totalWaited r
  | _ :: r => totalWaited r
  end.

(** The pages created and the events refused, read off the outcomes of
    the writes, in order. *)
Definition okPages (outcomes : list (Result Notion.Response)) : list Notion.Response :=
  flat_map (fun r => match r with Ok page => [page] | Throw _ => [] end) outcomes.

Definition refusals (l : list (CalendarEvent.t * Result Notion.Response))
  : list (CalendarEvent.t * JsError) :=
  flat_map (fun p => match snd p with Ok _ => [] | Throw e => [(fst p, e)] end) l.

(** No page is created. *)
Definition notCreate (e : Effect) : Prop :=
  match e with
  | Sent (Notion.PagesCreate _ _ _ _ _ _) => False
  | _ => True
  end.

(** What the batch does to each event: the outcome of its own write,
    started where the write before it ended; and the trace after the
    last one. *)
Fixpoint writes (rt : Runtime) (events : list CalendarEvent.t) (tr : Trace)
  : list (Result Notion.Response) * Trace :=
  match events with
  | [] => ([], tr)
  | event :: rest =>
      let (r, tr1) := createCalendarEvent rt event tr in
      let (rs, tr2) := writes rt rest tr1 in
      (r :: rs, tr2)
  end.

(** No character of the text is the [T] that opens the time of day. *)
Fixpoint noT (s : string) : Prop :=
  match s with
  | EmptyString => True
  | String c r => c <> "T"%char /\ noT r
  end.

(** * Properties *)

(** ** Arithmetic of integer-valued numbers *)

Lemma jsadd_ofZ (a b : Z) : jsadd (ofZ a) (ofZ b) = ofZ (a + b).
Proof.
  unfold ofZ, jsadd, inject_Z, Qplus; simpl.
  now rewrite !Z.mul_1_r.
Qed.

Lemma jssub_ofZ (a b : Z) : jssub (ofZ a) (ofZ b) = ofZ (a - b).
Proof.
  unfold jssub, ofZ, jsadd, jsneg, inject_Z, Qplus, Qopp; simpl.
  now rewrite !Z.mul_1_r.
Qed.

Lemma jslt_ofZ (a b : Z) : jslt (ofZ a) (ofZ b) = (a <? b).
Proof.
  unfold jslt, ofZ, inject_Z, Qle_bool; simpl.
  rewrite !Z.mul_1_r. destruct (Z.leb_spec b a), (Z.ltb_spec a b); simpl; auto; lia.
Qed.

Lemma toInteger_ofZ (a : Z) : toInteger (ofZ a) = Some a.
Proof.
  unfold toInteger, ofZ, inject_Z; simpl. now rewrite Z.quot_1_r.
Qed.

Create Rewrite HintDb jsnum.
Lemma strictEqualsNumber_ofZ (a b : Z) : strictEqualsNumber (Num (ofZ a)) b = (a =? b).
Proof.
  unfold strictEqualsNumber, ofZ, inject_Z, Qeq_bool; simpl.
  now rewrite !Z.mul_1_r.
Qed.

#[local] Hint Rewrite jsadd_ofZ jssub_ofZ jslt_ofZ toInteger_ofZ strictEqualsNumber_ofZ : jsnum.

(** ** Moving a date by whole days *)

Lemma split_day (t : Z) : t = Day t * msPerDay + TimeWithinDay t.
Proof.
  unfold Day, TimeWithinDay, msPerDay.
  pose proof (Z.div_mod t 86400000). lia.
Qed.

Section DateFacts.

Variable LocalTZA : Z.

Lemma LocalTime_UTC (t : Z) : LocalTime LocalTZA (UTC LocalTZA t) = t.
Proof. unfold LocalTime, UTC. lia. Qed.

Lemma setDate_getDate_plus (u k : Z) :
  Date_setDate LocalTZA (DateAt u) (jsadd (Date_getDate LocalTZA (DateAt u)) (ofZ k))
  = DateAt (u + k * msPerDay).
Proof.
  unfold Date_setDate, Date_getDate. autorewrite with jsnum.
  f_equal. unfold UTC, MakeDate, MakeDayInMonthOf.
  pose proof (split_day (LocalTime LocalTZA u)) as E.
  unfold LocalTime in *. lia.
Qed.

Lemma setHours_midnight (u : Z) :
  Date_setHours LocalTZA (DateAt u) (ofZ 0) (Some (ofZ 0)) (Some (ofZ 0)) (Some (ofZ 0))
  = DateAt (UTC LocalTZA (Day (LocalTime LocalTZA u) * msPerDay)).
Proof.
  unfold Date_setHours. autorewrite with jsnum.
  f_equal. unfold MakeDate, MakeTime. f_equal. lia.
Qed.

Lemma jssub_as_add (a : jsnumber) (x : Z) : jssub a (ofZ x) = jsadd a (ofZ (- x)).
Proof. reflexivity. Qed.

Lemma Day_shift (t k : Z) : Day (t + k * msPerDay) = Day t + k.
Proof. unfold Day, msPerDay. now rewrite Z.div_add by lia. Qed.

Lemma getNextWeekStart_at (now : Z) :
  getNextWeekStart LocalTZA (DateAt now)
  = DateAt (UTC LocalTZA (followingMonday LocalTZA now * msPerDay)).
Proof.
  unfold getNextWeekStart, addWeeks, addDays.
  rewrite setDate_getDate_plus.
  unfold startOfWeek.
  set (u := now + 1 * 7 * msPerDay).
  assert (Eday : Date_getDay LocalTZA (DateAt u) = ofZ (WeekDay (LocalTime LocalTZA u)))
    by reflexivity.
  rewrite Eday. autorewrite with jsnum.
  set (w := WeekDay (LocalTime LocalTZA u)).
  assert (Ediff : jssub (jsadd (if w <? 1 then ofZ 7 else ofZ 0) (ofZ w)) (ofZ 1)
                  = ofZ ((if w <? 1 then 7 else 0) + w - 1)).
  { destruct (w <? 1); now autorewrite with jsnum. }
  rewrite Ediff, jssub_as_add, setDate_getDate_plus, setHours_midnight.
  do 2 f_equal.
  unfold followingMonday, mondayOfWeek, LocalTime.
  replace (u + - ((if w <? 1 then 7 else 0) + w - 1) * msPerDay + LocalTZA)
    with ((now + LocalTZA) + (7 - ((if w <? 1 then 7 else 0) + w - 1)) * msPerDay)
    by (unfold u; lia).
  rewrite Day_shift.
  assert (Ew : w = (Day (now + LocalTZA) + 4) mod 7).
  { unfold w, WeekDay, LocalTime, u.
    replace (now + 1 * 7 * msPerDay + LocalTZA) with ((now + LocalTZA) + 7 * msPerDay) by lia.
    rewrite Day_shift.
    replace (Day (now + LocalTZA) + 7 + 4) with (Day (now + LocalTZA) + 4 + 1 * 7) by lia.
    now rewrite Z.mod_add by lia. }
  set (d := Day (now + LocalTZA)) in *.
  pose proof (Z.mod_pos_bound (d + 4) 7 ltac:(lia)).
  pose proof (Z.div_mod (d + 4) 7 ltac:(lia)).
  pose proof (Z.div_mod (d + 3) 7 ltac:(lia)).
  pose proof (Z.mod_pos_bound (d + 3) 7 ltac:(lia)).
  destruct (w <? 1) eqn:Hw;
    [apply Z.ltb_lt in Hw | apply Z.ltb_ge in Hw];
    f_equal; clearbody w d; lia.
Qed.

Lemma dayNameToIndex_days (dayName : string) (idx : Z) :
  In (dayName, idx) days -> dayNameToIndex dayName = Num (ofZ idx) /\ 0 <= idx <= 6.
Proof.
  unfold days; intros H.
  repeat (destruct H as [H|H]; [injection H as <- <-; split; [reflexivity | lia] | ]).
  destruct H.
Qed.

Lemma getNextWeekDayDate_index (now : Z) (dayName : string) (idx : Z) :
  dayNameToIndex dayName = Num (ofZ idx) -> 0 <= idx <= 6 ->
  getNextWeekDayDate LocalTZA now dayName
  = Ok (DateAt (UTC LocalTZA
                 ((followingMonday LocalTZA now + (idx - 1 + 7) mod 7) * msPerDay))).
Proof.
  intros E R. unfold getNextWeekDayDate.
  rewrite E, getNextWeekStart_at. cbn [ToNumber]. autorewrite with jsnum.
  destruct (Z.eqb_spec idx (-1)) as [?|_]; [lia|].
  set (m := followingMonday LocalTZA now).
  assert (Eadd : (if idx - 1 <? 0 then ofZ (idx - 1 + 7) else ofZ (idx - 1))
                 = ofZ ((idx - 1 + 7) mod 7)).
  { destruct (Z.ltb_spec (idx - 1) 0); f_equal.
    - rewrite Z.mod_small; lia.
    - replace (idx - 1 + 7) with (idx - 1 + 1 * 7) by lia.
      rewrite Z.mod_add, Z.mod_small; lia. }
  rewrite Eadd, setDate_getDate_plus, setHours_midnight.
  do 3 f_equal. unfold LocalTime, UTC.
  replace (m * msPerDay - LocalTZA + (idx - 1 + 7) mod 7 * msPerDay + LocalTZA)
    with (m * msPerDay + (idx - 1 + 7) mod 7 * msPerDay) by lia.
  rewrite Day_shift. unfold Day, msPerDay. rewrite Z.div_mul; lia.
Qed.

End DateFacts.

(** C1. Whatever the clock reads and whatever the offset of the local
    zone, for each of the weekday names of the table (seven English, seven
    Spanish, covering the seven weekdays) [getNextWeekDayDate] returns a
    valid date which, read in local time, is midnight of the day
    [(index - 1 + 7) mod 7] days after the Monday that follows the week of
    the clock reading; that day lies in the seven days starting on that
    Monday and its weekday is the requested one (Sunday 0 to Saturday 6). *)
Theorem getNextWeekDayDate_in_next_week (LocalTZA now : Z) (dayName : string) (idx : Z) :
  In (dayName, idx) days ->
  let today := Day (LocalTime LocalTZA now) in
  let monday := followingMonday LocalTZA now in
  exists t,
    getNextWeekDayDate LocalTZA now dayName = Ok (DateAt t)
    /\ WeekDay (monday * msPerDay) = 1
    /\ today < monday <= today + 7
    /\ LocalTime LocalTZA t = (monday + (idx - 1 + 7) mod 7) * msPerDay
    /\ monday * msPerDay <= LocalTime LocalTZA t < (monday + 7) * msPerDay
    /\ TimeWithinDay (LocalTime LocalTZA t) = 0
    /\ WeekDay (LocalTime LocalTZA t) = idx.
Proof.
  intros Hin today monday.
  destruct (dayNameToIndex_days _ _ Hin) as [E R].
  eexists. split; [apply (getNextWeekDayDate_index LocalTZA now dayName idx E R)|].
  fold monday. rewrite !LocalTime_UTC.
  replace ((idx - 1 + 7) mod 7) with (if idx =? 0 then 6 else idx - 1).
  2:{ destruct (Z.eqb_spec idx 0) as [->|N]; [reflexivity|].
      replace (idx - 1 + 7) with (idx - 1 + 1 * 7) by lia.
      rewrite Z.mod_add, Z.mod_small; lia. }
  set (k := if idx =? 0 then 6 else idx - 1).
  assert (Hk : 0 <= k < 7 /\ (k + 1) mod 7 = idx).
  { unfold k. destruct (Z.eqb_spec idx 0) as [->|N]; [split; [lia|reflexivity]|].
    split; [lia|]. replace (idx - 1 + 1) with idx by lia. apply Z.mod_small. lia. }
  destruct Hk as [Hk Hidx].
  assert (Hday : forall n, Day (n * msPerDay) = n)
    by (intro n; unfold Day, msPerDay; apply Z.div_mul; lia).
  assert (Hmon : (monday + 3) mod 7 = 0).
  { unfold monday, followingMonday, mondayOfWeek. fold today.
    pose proof (Z.div_mod (today + 3) 7 ltac:(lia)) as D.
    replace (today - (today + 3) mod 7 + 7 + 3) with (0 + (((today + 3) / 7) + 1) * 7) by lia.
    now rewrite Z.mod_add by lia. }
  pose proof (Z.div_mod (monday + 3) 7 ltac:(lia)) as Dm. rewrite Hmon in Dm.
  assert (Hnext : today < monday <= today + 7).
  { unfold monday, followingMonday, mondayOfWeek. fold today.
    pose proof (Z.mod_pos_bound (today + 3) 7 ltac:(lia)). lia. }
  clearbody monday today k.
  split; [|split; [exact Hnext|split; [reflexivity|split; [|split]]]].
  - unfold WeekDay. rewrite Hday.
    replace (monday + 4) with (1 + ((monday + 3) / 7) * 7) by lia.
    now rewrite Z.mod_add by lia.
  - unfold msPerDay. lia.
  - unfold TimeWithinDay, msPerDay. apply Z.mod_mul. lia.
  - unfold WeekDay. rewrite Hday.
    replace (monday + k + 4) with ((k + 1) + ((monday + 3) / 7) * 7) by lia.
    now rewrite Z.mod_add by lia.
Qed.

(** The claim of C1 at a concrete point: Monday 8 January 2024, 20:00 UTC,
    asked for Sunday. *)
Lemma getNextWeekDayDate_in_next_week_witness :
  exists t,
    getNextWeekDayDate 0 1704744000000 "Domingo" = Ok (DateAt t)
    /\ WeekDay (followingMonday 0 1704744000000 * msPerDay) = 1
    /\ Day (LocalTime 0 1704744000000) < followingMonday 0 1704744000000
        <= Day (LocalTime 0 1704744000000) + 7
    /\ LocalTime 0 t = (followingMonday 0 1704744000000 + (0 - 1 + 7) mod 7) * msPerDay
    /\ followingMonday 0 1704744000000 * msPerDay <= LocalTime 0 t
        < (followingMonday 0 1704744000000 + 7) * msPerDay
    /\ TimeWithinDay (LocalTime 0 t) = 0
    /\ WeekDay (LocalTime 0 t) = 0.
Proof.
  apply (getNextWeekDayDate_in_next_week 0 1704744000000 "Domingo" 0).
  unfold days. simpl. tauto.
Defined.

(** The example of the README: run on Sunday 20 October 2024, the job
    fills the week of 21 to 27 October. *)
Example readme_sunday_run :
  getNextWeekDayDate 0 1729454400000 "Monday" = Ok (DateAt 1729468800000)
  /\ isoString 1729454400000 = "2024-10-20T20:00:00.000Z"%string
  /\ isoString 1729468800000 = "2024-10-21T00:00:00.000Z"%string
  /\ option_map isoString
       (match getNextWeekDayDate 0 1729454400000 "Domingo" with
        | Ok (DateAt t) => Some t
        | _ => None
        end) = Some "2024-10-27T00:00:00.000Z"%string.
Proof. repeat split; vm_compute; reflexivity. Qed.

Example Number_samples :
  map Number ["09"; " 12 "; "1.5"; "0x1F"; "abc"; ""; "-3"; "1e3"; "Infinity"]%string
  = [ofZ 9; ofZ 12; Real (3 # 2); ofZ 31; NaN; ofZ 0; Real (Qopp (inject_Z 3));
     ofZ 1000; Infinity false].
Proof. vm_compute. reflexivity. Qed.

(** [Number] rounds to the nearest double: beyond the largest double it
    gives an infinity, a tie goes to the even neighbour, and what is too
    small for a double is zero. *)
Example Number_rounds :
  map Number ["1e400"; "-1e400"; "0.99999999999999999999"; "9007199254740993";
              "0.1"; "2e-324"; "2400000001"]%string
  = [Infinity false; Infinity true; ofZ 1; ofZ 9007199254740992;
     Real (3602879701896397 # 36028797018963968); ofZ 0; ofZ 2400000001].
Proof. vm_compute. reflexivity. Qed.

Example split_samples :
  split ":" "09:30" = ["09"; "30"]%string
  /\ split ":" "" = [""]%string
  /\ split ":" "12:30:45" = ["12"; "30"; "45"]%string.
Proof. repeat split. Qed.

(** ** The fields of a time value *)

Ltac unfold_time :=
  unfold MakeDate, MakeTime, Day, TimeWithinDay, HourFromTime, MinFromTime,
    SecFromTime, msFromTime, msPerDay, msPerHour, msPerMinute, msPerSecond in *.

Lemma decompose_time (t : Z) :
  t = MakeDate (Day t)
        (MakeTime (HourFromTime t) (MinFromTime t) (SecFromTime t) (msFromTime t)).
Proof.
  unfold_time. Z.to_euclidean_division_equations. lia.
Qed.

Lemma time_fields_low (k m s x : Z) :
  0 <= m < 60 -> 0 <= s < 60 -> 0 <= x < 1000 ->
  let t := k * msPerHour + m * msPerMinute + s * msPerSecond + x in
  MinFromTime t = m /\ SecFromTime t = s /\ msFromTime t = x.
Proof.
  intros Hm Hs Hx t. subst t. unfold_time.
  Z.to_euclidean_division_equations. lia.
Qed.

Lemma time_fields_sec (k s x : Z) :
  0 <= s < 60 -> 0 <= x < 1000 ->
  let t := k * msPerMinute + s * msPerSecond + x in
  SecFromTime t = s /\ msFromTime t = x.
Proof.
  intros Hs Hx t. subst t. unfold_time.
  Z.to_euclidean_division_equations. lia.
Qed.

Lemma time_fields_normal (d h m : Z) :
  0 <= h < 24 -> 0 <= m < 60 ->
  let t := d * msPerDay + h * msPerHour + m * msPerMinute in
  Day t = d /\ HourFromTime t = h /\ MinFromTime t = m
  /\ SecFromTime t = 0 /\ msFromTime t = 0.
Proof.
  intros Hh Hm t. subst t. unfold_time.
  Z.to_euclidean_division_equations. lia.
Qed.

Lemma time_fields_range (t : Z) :
  0 <= HourFromTime t < 24 /\ 0 <= MinFromTime t < 60
  /\ 0 <= SecFromTime t < 60 /\ 0 <= msFromTime t < 1000.
Proof.
  unfold_time. repeat split; apply Z.mod_pos_bound; lia.
Qed.

Lemma TimeClip_inRange (t : Z) : inRange t -> TimeClip t = DateAt t.
Proof.
  unfold inRange, TimeClip. intros H.
  destruct (Z.leb_spec (Z.abs t) maxTime); [reflexivity|lia].
Qed.

Lemma TimeClip_outside (t : Z) : ~ inRange t -> TimeClip t = InvalidDate.
Proof.
  unfold inRange, TimeClip. intros H.
  destruct (Z.leb_spec (Z.abs t) maxTime); [|reflexivity]. exfalso. apply H. lia.
Qed.

Lemma TimeClip_inv (t t' : Z) : TimeClip t = DateAt t' -> t' = t /\ inRange t.
Proof.
  unfold inRange, TimeClip.
  destruct (Z.leb_spec (Z.abs t) maxTime); [|discriminate].
  intros [= <-]. split; [reflexivity|lia].
Qed.

Section SetterFacts.

Variable LocalTZA : Z.

(** The four setters of [parseTimeToDate], applied in a row to a valid
    date: the local day is kept, and the time of day is [h] hours and [m]
    minutes, carried over when they are out of range; as long as the
    hour of [h] and the minute of [h:m], from their first to their last
    instant, are time values. *)
Lemma setters_at (u : Z) (hours minutes : jsnumber) (h m : Z) :
  toInteger hours = Some h -> toInteger minutes = Some m ->
  let midnight := UTC LocalTZA (Day (LocalTime LocalTZA u) * msPerDay) in
  let final := midnight + h * msPerHour + m * msPerMinute in
  inRange (midnight + h * msPerHour) -> inRange (midnight + (h + 1) * msPerHour) ->
  inRange final -> inRange (final + msPerMinute) ->
  setMilliseconds LocalTZA
    (setSeconds LocalTZA
       (setMinutes LocalTZA (setHours LocalTZA (DateAt u) hours) minutes) (ofZ 0)) (ofZ 0)
  = DateAt final.
Proof.
  intros Eh Em midnight final R1 R2 R3 R4.
  set (t := LocalTime LocalTZA u).
  destruct (time_fields_range t) as (_ & Rm & Rs & Rx).
  set (t1 := Day t * msPerDay + h * msPerHour + MinFromTime t * msPerMinute
             + SecFromTime t * msPerSecond + msFromTime t).
  set (t2 := Day t * msPerDay + h * msPerHour + m * msPerMinute
             + SecFromTime t * msPerSecond + msFromTime t).
  set (t3 := Day t * msPerDay + h * msPerHour + m * msPerMinute + msFromTime t).
  assert (F1 : MinFromTime t1 = MinFromTime t /\ SecFromTime t1 = SecFromTime t
               /\ msFromTime t1 = msFromTime t).
  { pose proof (time_fields_low (Day t * 24 + h) _ _ _ Rm Rs Rx) as F. cbv zeta in F.
    replace t1 with ((Day t * 24 + h) * msPerHour + MinFromTime t * msPerMinute
                     + SecFromTime t * msPerSecond + msFromTime t)
      by (unfold t1; unfold_time; lia).
    exact F. }
  destruct F1 as (F1m & F1s & F1x).
  assert (F2 : SecFromTime t2 = SecFromTime t /\ msFromTime t2 = msFromTime t).
  { pose proof (time_fields_sec (Day t * 1440 + h * 60 + m) _ _ Rs Rx) as F. cbv zeta in F.
    replace t2 with ((Day t * 1440 + h * 60 + m) * msPerMinute
                     + SecFromTime t * msPerSecond + msFromTime t)
      by (unfold t2; unfold_time; lia).
    exact F. }
  destruct F2 as [F2s F2x].
  assert (F3 : SecFromTime t3 = 0 /\ msFromTime t3 = msFromTime t).
  { pose proof (time_fields_sec (Day t * 1440 + h * 60 + m) 0 _ ltac:(lia) Rx) as F.
    cbv zeta in F.
    replace t3 with ((Day t * 1440 + h * 60 + m) * msPerMinute + 0 * msPerSecond
                     + msFromTime t)
      by (unfold t3; unfold_time; lia).
    exact F. }
  destruct F3 as [F3s F3x].
  assert (S1 : setHours LocalTZA (DateAt u) hours = DateAt (UTC LocalTZA t1)).
  { unfold setHours, Date_setHours. rewrite Eh. cbn [clipped]. fold t.
    replace (MakeDate (Day t) (MakeTime h (MinFromTime t) (SecFromTime t) (msFromTime t)))
      with t1 by (unfold t1; unfold_time; lia).
    apply TimeClip_inRange.
    revert R1 R2. unfold inRange, midnight, UTC, t1. fold t. clearbody t. unfold_time. lia. }
  assert (S2 : setMinutes LocalTZA (DateAt (UTC LocalTZA t1)) minutes
               = DateAt (UTC LocalTZA t2)).
  { unfold setMinutes, Date_setMinutes. rewrite Em, LocalTime_UTC. cbn [clipped].
    pose proof (decompose_time t1) as D1. rewrite F1m, F1s, F1x in D1. rewrite F1s, F1x.
    replace (MakeDate (Day t1) (MakeTime (HourFromTime t1) m (SecFromTime t) (msFromTime t)))
      with t2
      by (unfold t2; unfold t1 in D1 at 1; clearbody t1 t; unfold_time; lia).
    apply TimeClip_inRange.
    revert R3 R4. unfold inRange, final, midnight, UTC, t2. fold t. clearbody t.
    unfold_time. lia. }
  assert (S3 : setSeconds LocalTZA (DateAt (UTC LocalTZA t2)) (ofZ 0)
               = DateAt (UTC LocalTZA t3)).
  { unfold setSeconds, Date_setSeconds. rewrite toInteger_ofZ, LocalTime_UTC. cbn [clipped].
    pose proof (decompose_time t2) as D2. rewrite F2s, F2x in D2. rewrite F2x.
    replace (MakeDate (Day t2) (MakeTime (HourFromTime t2) (MinFromTime t2) 0 (msFromTime t)))
      with t3
      by (unfold t3; unfold t2 in D2 at 1; clearbody t2 t1 t; unfold_time; lia).
    apply TimeClip_inRange.
    revert R3 R4. unfold inRange, final, midnight, UTC, t3. fold t. clearbody t.
    unfold_time. lia. }
  assert (S4 : setMilliseconds LocalTZA (DateAt (UTC LocalTZA t3)) (ofZ 0) = DateAt final).
  { unfold setMilliseconds, Date_setMilliseconds.
    rewrite toInteger_ofZ, LocalTime_UTC. cbn [clipped].
    pose proof (decompose_time t3) as D3. rewrite F3s, F3x in D3. rewrite F3s.
    replace (UTC LocalTZA
               (MakeDate (Day t3)
                  (MakeTime (HourFromTime t3) (MinFromTime t3) 0 0)))
      with final
      by (unfold final, midnight, UTC; fold t; unfold t3 in D3 at 1;
          clearbody t3 t2 t1 t; unfold_time; lia).
    now apply TimeClip_inRange. }
  now rewrite S1, S2, S3, S4.
Qed.

(** As soon as one of the two numbers is NaN or infinite, the date that
    comes out of the setters is invalid. *)
Lemma setters_invalid (d : Date) (hours minutes : jsnumber) :
  toInteger hours = None \/ toInteger minutes = None ->
  setMilliseconds LocalTZA
    (setSeconds LocalTZA
       (setMinutes LocalTZA (setHours LocalTZA d hours) minutes) (ofZ 0)) (ofZ 0)
  = InvalidDate.
Proof.
  intros H.
  assert (I : setMilliseconds LocalTZA (setSeconds LocalTZA InvalidDate (ofZ 0)) (ofZ 0)
              = InvalidDate) by reflexivity.
  destruct H as [H|H].
  - assert (E : setHours LocalTZA d hours = InvalidDate).
    { unfold setHours, Date_setHours. destruct d as [|u]; [reflexivity|]. now rewrite H. }
    rewrite E. exact I.
  - assert (E : setMinutes LocalTZA (setHours LocalTZA d hours) minutes = InvalidDate).
    { unfold setMinutes, Date_setMinutes.
      destruct (setHours LocalTZA d hours) as [|u]; [reflexivity|]. now rewrite H. }
    rewrite E. exact I.
Qed.

End SetterFacts.

(** ** Number and split on digit strings *)

Lemma isDigit_cases (c : ascii) :
  isDigit c = true ->
  In c ["0"; "1"; "2"; "3"; "4"; "5"; "6"; "7"; "8"; "9"]%char.
Proof.
  destruct c as [[] [] [] [] [] [] [] []]; intros H; try discriminate H;
    simpl; tauto.
Qed.

Lemma stripAnyOf_digit (c : ascii) (r : list ascii) :
  isDigit c = true ->
  stripAnyOf whiteSpaceTokens (c :: r) = None
  /\ stripAnyOf (map (@rev N) whiteSpaceTokens) (c :: r) = None.
Proof.
  intros H. apply isDigit_cases in H. simpl in H.
  repeat (destruct H as [<-|H]; [split; reflexivity|]). destruct H.
Qed.

Lemma spanDigits_all (l : list ascii) :
  forallb isDigit l = true -> spanDigits l = (l, []).
Proof.
  induction l as [|c l IH]; [reflexivity|].
  simpl. intros H. apply andb_prop in H as [Hc Hl].
  now rewrite Hc, (IH Hl).
Qed.

Lemma spanDigits_spec (l hd r : list ascii) :
  spanDigits l = (hd, r) -> l = hd ++ r /\ forallb isDigit hd = true.
Proof.
  revert hd r. induction l as [|c l IH]; intros hd r; simpl.
  - intros [= <- <-]. now split.
  - destruct (isDigit c) eqn:Hc.
    + destruct (spanDigits l) as [ds rest]. intros [= <- <-].
      destruct (IH ds rest eq_refl) as [-> Hds]. simpl. now rewrite Hc.
    + intros [= <- <-]. now split.
Qed.

Lemma trim_digits (c : ascii) (r : list ascii) :
  forallb isDigit (c :: r) = true -> trimEnd (trimStart (c :: r)) = c :: r.
Proof.
  intros H.
  assert (Hc : isDigit c = true) by (simpl in H; now apply andb_prop in H).
  assert (E1 : trimStart (c :: r) = c :: r).
  { unfold trimStart. cbn [List.length trimStartWith].
    now rewrite (proj1 (stripAnyOf_digit c r Hc)). }
  rewrite E1. unfold trimEnd.
  destruct (rev (c :: r)) as [|c' r'] eqn:E.
  - apply (f_equal (@List.length ascii)) in E. rewrite length_rev in E. discriminate E.
  - assert (Hc' : isDigit c' = true).
    { rewrite forallb_forall in H. apply H. apply in_rev. rewrite E. now left. }
    replace (List.length (c :: r)) with (S (List.length r')).
    2:{ rewrite <- (length_rev (c :: r)), E. reflexivity. }
    cbn [trimStartWith]. rewrite (proj2 (stripAnyOf_digit c' r' Hc')).
    now rewrite <- E, rev_involutive.
Qed.

Lemma digitValue_range (c : ascii) : isDigit c = true -> 0 <= digitValue c <= 9.
Proof.
  intros H. apply isDigit_cases in H. simpl in H.
  repeat (destruct H as [<-|H]; [unfold digitValue; simpl; lia|]). destruct H.
Qed.

Lemma decimalValue_nonneg (l : list ascii) :
  forallb isDigit l = true -> 0 <= decimalValue l.
Proof.
  assert (G : forall acc, 0 <= acc -> forallb isDigit l = true ->
              0 <= fold_left (fun a c => a * 10 + digitValue c) l acc).
  { induction l as [|c l IH]; simpl; intros acc Ha H; [exact Ha|].
    apply andb_prop in H as [Hc Hl]. apply IH; [|exact Hl].
    pose proof (digitValue_range c Hc). lia. }
  intros H. apply (G 0); [lia|exact H].
Qed.

(** ** Numbers below 2^53 are doubles *)

Lemma Qred_inject_Z (v : Z) (p : positive) :
  Qred (Qmake (v * Zpos p) p) = inject_Z v.
Proof.
  rewrite <- (Qred_complete (inject_Z v)).
  - unfold inject_Z, Qred. cbn. 
    pose proof (Z.ggcd_gcd v 1) as G. pose proof (Z.ggcd_correct_divisors v 1) as D.
    destruct (Z.ggcd v 1) as [g [aa bb]]. cbn in *. rewrite Z.gcd_1_r in G. subst g.
    destruct D as [D1 D2]. rewrite Z.mul_1_l in D1, D2. subst. reflexivity.
  - unfold Qeq, inject_Z. cbn. lia.
Qed.

Lemma roundToDouble_integer (v : Z) :
  Z.abs v < 2 ^ 53 -> roundToDouble (inject_Z v) = Real (inject_Z v).
Proof.
  intros H. unfold roundToDouble, inject_Z. cbn [Qnum Qden].
  destruct (Z.eqb_spec v 0) as [->|N]; [reflexivity|].
  change (Z.log2 1) with 0. rewrite Z.sub_0_r.
  set (a := Z.abs v) in *.
  assert (Ha : 0 < a) by (unfold a; lia).
  pose proof (Z.log2_spec a Ha) as [L1 L2].
  pose proof (Z.log2_nonneg a) as L0.
  assert (L52 : Z.log2 a <= 52).
  { apply Z.lt_succ_r. apply (Z.log2_lt_pow2 a 53); lia. }
  unfold atLeastPow2.
  destruct (Z.leb_spec 0 (Z.log2 a)) as [_|]; [|lia].
  rewrite Z.mul_1_l. destruct (Z.leb_spec (2 ^ Z.log2 a) a) as [_|]; [|lia].
  set (e := Z.log2 a) in *.
  replace (Z.max (e - 52) (-1074)) with (e - 52) by lia.
  set (k := 52 - e).
  assert (Hk : 0 <= k) by (unfold k; lia).
  assert (P : 0 < 2 ^ k) by (apply Z.pow_pos_nonneg; lia).
  replace (Z.max (- (e - 52)) 0) with k by (unfold k; lia).
  replace (- (e - 52)) with k by (unfold k; lia).
  assert (M : (if 0 <=? e - 52 then roundHalfEven a (1 * 2 ^ (e - 52))
               else roundHalfEven (a * 2 ^ k) 1) = a * 2 ^ k).
  { destruct (Z.leb_spec 0 (e - 52)).
    - assert (k = 0) by (unfold k; lia). replace (e - 52) with 0 by lia.
      rewrite H1. change (1 * 2 ^ 0) with 1. unfold roundHalfEven.
      rewrite Z.div_1_r, Z.mod_1_r. cbn. lia.
    - unfold roundHalfEven. rewrite Z.div_1_r, Z.mod_1_r. reflexivity. }
  rewrite M.
  assert (U : 2 ^ Z.max (e - 52) 0 = 1).
  { replace (Z.max (e - 52) 0) with 0 by lia. reflexivity. }
  rewrite U, !Z.mul_1_r.
  assert (B : a * 2 ^ k < 2 ^ 1024).
  { assert (a * 2 ^ k < 2 ^ (e + 1) * 2 ^ k) by (apply Z.mul_lt_mono_pos_r; lia).
    rewrite <- Z.pow_add_r in H0 by lia.
    replace (e + 1 + k) with 53 in H0 by (unfold k; lia).
    assert (2 ^ 53 < 2 ^ 1024) by (apply Z.pow_lt_mono_r; lia). lia. }
  destruct (Z.leb_spec (2 ^ 1024) (a * 2 ^ k)); [lia|].
  f_equal.
  replace (Z.sgn v * (a * 2 ^ k)) with (v * Zpos (Z.to_pos (2 ^ k))).
  - apply (Qred_inject_Z v).
  - rewrite Z2Pos.id by exact P. unfold a. rewrite Z.mul_assoc. f_equal.
    rewrite Z.mul_comm. symmetry. apply Z.abs_sgn.
Qed.

Lemma Number_digits (l : list ascii) :
  l <> [] -> forallb isDigit l = true -> decimalValue l < 2 ^ 53 ->
  Number (string_of_list_ascii l) = ofZ (decimalValue l).
Proof.
  intros Hne H B. destruct l as [|c r]; [contradiction|].
  pose proof (decimalValue_nonneg _ H) as P.
  unfold Number. rewrite list_ascii_of_string_of_list_ascii, (trim_digits c r H).
  assert (Hr : forallb isDigit r = true) by (simpl in H; now apply andb_prop in H).
  assert (Hlit : strDecimalLiteral (c :: r) = ofZ (decimalValue (c :: r))).
  { assert (Hc : isDigit c = true) by (simpl in H; now apply andb_prop in H).
    apply isDigit_cases in Hc. simpl in Hc.
    repeat (destruct Hc as [<-|Hc];
      [ unfold strDecimalLiteral;
        destruct (list_eq_dec ascii_dec _ _) as [E|_]; [discriminate E|];
        unfold unsignedDecimal; cbn [spanDigits isDigit N_of_ascii N_of_digits
                                      N.leb N.compare Pos.compare Pos.compare_cont andb
                                      N.add N.mul];
        rewrite (spanDigits_all r Hr); cbn -[decimalValue Z.pow roundToDouble];
        rewrite app_nil_r; rewrite ?Z.pow_0_r, ?Z.mul_1_r;
        apply roundToDouble_integer; lia | ]).
    destruct Hc. }
  assert (Hc : isDigit c = true) by (simpl in H; now apply andb_prop in H).
  apply isDigit_cases in Hc. simpl in Hc.
  destruct r as [|p ds].
  - repeat (destruct Hc as [<-|Hc]; [exact Hlit|]). destruct Hc.
  - assert (Hp : isDigit p = true) by (simpl in Hr; now apply andb_prop in Hr).
    apply isDigit_cases in Hp. simpl in Hp.
    repeat (destruct Hc as [<-|Hc];
      [ try exact Hlit;
        repeat (destruct Hp as [<-|Hp]; [exact Hlit|]); destruct Hp | ]).
    destruct Hc.
Qed.

Lemma digit_not_colon (c : ascii) : isDigit c = true -> Ascii.eqb c ":" = false.
Proof.
  intros H. apply isDigit_cases in H. simpl in H.
  repeat (destruct H as [<-|H]; [reflexivity|]). destruct H.
Qed.

Lemma split_digits (l : list ascii) :
  forallb isDigit l = true ->
  split ":" (string_of_list_ascii l) = [string_of_list_ascii l].
Proof.
  induction l as [|c l IH]; [reflexivity|].
  simpl. intros H. apply andb_prop in H as [Hc Hl].
  now rewrite (digit_not_colon c Hc), (IH Hl).
Qed.

Lemma split_two_integers (hd md : list ascii) :
  forallb isDigit hd = true -> forallb isDigit md = true ->
  split ":" (string_of_list_ascii (hd ++ ":"%char :: md))
  = [string_of_list_ascii hd; string_of_list_ascii md].
Proof.
  intros Hh Hm. induction hd as [|c hd IH].
  - simpl. now rewrite (split_digits md Hm).
  - simpl in Hh. apply andb_prop in Hh as [Hc Hh].
    simpl. now rewrite (digit_not_colon c Hc), (IH Hh).
Qed.

Lemma matchHHmm_spec (s : string) (h m : Z) :
  matchHHmm s = Some (h, m) ->
  exists hd md,
    s = string_of_list_ascii (hd ++ ":"%char :: md)
    /\ hd <> [] /\ md <> []
    /\ forallb isDigit hd = true /\ forallb isDigit md = true
    /\ h = decimalValue hd /\ m = decimalValue md.
Proof.
  unfold matchHHmm.
  destruct (spanDigits (list_ascii_of_string s)) as [hd r] eqn:E.
  apply spanDigits_spec in E as [El Hhd].
  destruct r as [|c md]; [discriminate|].
  destruct (ascii_dec c ":") as [->|N].
  2:{ destruct c as [[] [] [] [] [] [] [] []]; try discriminate; contradiction. }
  destruct hd as [|a hd]; [discriminate|].
  destruct md as [|b md]; [discriminate|].
  destruct (forallb isDigit (b :: md)) eqn:Hmd; [|discriminate].
  intros [= <- <-]. exists (a :: hd), (b :: md).
  repeat split; try assumption; try discriminate.
  now rewrite <- El, string_of_list_ascii_of_string.
Qed.

Lemma parseTimeToDate_two_integers (LocalTZA u : Z) (timeString : string) (h m : Z) :
  matchHHmm timeString = Some (h, m) ->
  settersInRange (UTC LocalTZA (Day (LocalTime LocalTZA u) * msPerDay)) h m ->
  parseTimeToDate LocalTZA (DateAt u) timeString
  = DateAt (UTC LocalTZA
             (Day (LocalTime LocalTZA u) * msPerDay + h * msPerHour + m * msPerMinute))
  /\ 0 <= h /\ 0 <= m.
Proof.
  intros H (R1 & Bh & Bm & R2).
  destruct (matchHHmm_spec _ _ _ H) as (hd & md & -> & Nh & Nm & Dh & Dm & -> & ->).
  pose proof (decimalValue_nonneg _ Dh) as Ph.
  pose proof (decimalValue_nonneg _ Dm) as Pm.
  split; [|split; assumption].
  unfold parseTimeToDate. rewrite (split_two_integers hd md Dh Dm).
  cbn [map nth].
  rewrite (Number_digits hd Nh Dh), (Number_digits md Nm Dm).
  2,3: revert Bh Bm; unfold maxTime, msPerHour, msPerMinute;
       change (2 ^ 53) with 9007199254740992; lia.
  rewrite (setters_at LocalTZA u _ _ _ _ (toInteger_ofZ _) (toInteger_ofZ _)).
  - f_equal. unfold UTC. lia.
  - revert R1 R2. unfold inRange, msPerHour, msPerMinute. lia.
  - revert R1 R2. unfold inRange, msPerHour, msPerMinute. lia.
  - revert R1 R2. unfold inRange, msPerHour, msPerMinute. lia.
  - revert R1 R2. unfold inRange, msPerHour, msPerMinute. lia.
Qed.




(** ** The end of an event *)

Lemma createNotionDateObject_valid (s e : Z) (timezone : option string) :
  inRange (s - 3600000) -> inRange (e - 3600000) ->
  createNotionDateObject (DateAt s) (DateAt e) timezone
  = Ok {| start := isoString (s - 3600000);
          end_ := isoString (e - 3600000);
          time_zone := match timezone with
                       | Some z => z
                       | None => "America/Bogota"%string
                       end |}.
Proof.
  intros Hs He. unfold createNotionDateObject, shifted. cbv zeta.
  replace (s + -1 * 60 * 60 * 1000) with (s - 3600000) by lia.
  replace (e + -1 * 60 * 60 * 1000) with (e - 3600000) by lia.
  now rewrite !TimeClip_inRange.
Qed.

Lemma createNotionDateObject_invalid (startDate endDate : Date) (timezone : option string) :
  startDate = InvalidDate \/ endDate = InvalidDate ->
  createNotionDateObject startDate endDate timezone
  = Throw (RangeError "Invalid time value").
Proof.
  intros [->| ->]; [reflexivity|].
  destruct startDate as [|s]; [reflexivity|].
  unfold createNotionDateObject, shifted. cbv zeta.
  now destruct (TimeClip _).
Qed.

(** A date shifted out of the time values cannot be rendered either. *)
Lemma createNotionDateObject_outside (s e : Z) (timezone : option string) :
  ~ inRange (s - 3600000) \/ ~ inRange (e - 3600000) ->
  createNotionDateObject (DateAt s) (DateAt e) timezone
  = Throw (RangeError "Invalid time value").
Proof.
  intros H. unfold createNotionDateObject, shifted. cbv zeta.
  replace (s + -1 * 60 * 60 * 1000) with (s - 3600000) by lia.
  replace (e + -1 * 60 * 60 * 1000) with (e - 3600000) by lia.
  destruct H as [H|H]; rewrite (TimeClip_outside _ H); [reflexivity|].
  now destruct (TimeClip _).
Qed.

Lemma createNotionDateObject_inv (startDate endDate : Date) (timezone : option string)
  (range : NotionDate) :
  createNotionDateObject startDate endDate timezone = Ok range ->
  exists s e,
    startDate = DateAt s /\ endDate = DateAt e
    /\ inRange (s - 3600000) /\ inRange (e - 3600000)
    /\ range = {| start := isoString (s - 3600000);
                  end_ := isoString (e - 3600000);
                  time_zone := match timezone with
                               | Some z => z
                               | None => "America/Bogota"%string
                               end |}.
Proof.
  destruct startDate as [|s]; [discriminate|].
  destruct endDate as [|e].
  { rewrite createNotionDateObject_invalid by now right. discriminate. }
  intros H. exists s, e.
  assert (R : inRange (s - 3600000) /\ inRange (e - 3600000)).
  { split.
    - destruct (Z_le_dec (- maxTime) (s - 3600000)) as [L|L];
        [destruct (Z_le_dec (s - 3600000) maxTime) as [U|U]|];
        [now split| |];
        rewrite createNotionDateObject_outside in H
          by (left; unfold inRange; lia); discriminate H.
    - destruct (Z_le_dec (- maxTime) (e - 3600000)) as [L|L];
        [destruct (Z_le_dec (e - 3600000) maxTime) as [U|U]|];
        [now split| |];
        rewrite createNotionDateObject_outside in H
          by (right; unfold inRange; lia); discriminate H. }
  destruct R as [Rs Re]. rewrite (createNotionDateObject_valid s e timezone Rs Re) in H.
  injection H as <-. auto.
Qed.

Lemma transformTaskToEvent_inv (LocalTZA now : Z) (task : Task.t) (event : CalendarEvent.t) :
  transformTaskToEvent LocalTZA now task = Ok event ->
  exists dayDate s,
    getNextWeekDayDate LocalTZA now (Task.day task) = Ok dayDate
    /\ parseTimeToDate LocalTZA dayDate (Task.time task) = DateAt s
    /\ start (CalendarEvent.date event) = isoString (s - 3600000)
    /\ end_ (CalendarEvent.date event)
       = isoString (s + Task.duration task * msPerMinute - 3600000)
    /\ time_zone (CalendarEvent.date event) = "America/Bogota"%string
    /\ CalendarEvent.name event = Task.name task
    /\ CalendarEvent.notes event
       = orElse (Task.notes task) "Generado automáticamente desde plantilla".
Proof.
  unfold transformTaskToEvent.
  destruct (getNextWeekDayDate LocalTZA now (Task.day task)) as [dayDate|e]; [|discriminate].
  destruct (createNotionDateObject _ _ None) as [range|e] eqn:C; [|discriminate].
  destruct (createNotionDateObject_inv _ _ _ _ C) as (s & e & Es & Ee & _ & _ & ->).
  intros [= <-]. exists dayDate, s. rewrite Es in Ee.
  unfold calculateEndDate, addMinutes in Ee.
  apply TimeClip_inv in Ee as [-> _]. now repeat split.
Qed.

(** The event of a task with a day of the table and a time of two
    integers, when the clock reads a time value at least a week before
    the last one and the time values on the way to the event are time
    values of Date. *)
Lemma transformTaskToEvent_at (LocalTZA now : Z) (task : Task.t) (idx h m : Z) :
  In (Task.day task, idx) days ->
  matchHHmm (Task.time task) = Some (h, m) ->
  inRange now -> inRange (now + 7 * msPerDay) ->
  let midnight :=
    UTC LocalTZA ((followingMonday LocalTZA now + (idx - 1 + 7) mod 7) * msPerDay) in
  let s := midnight + h * msPerHour + m * msPerMinute in
  let e := s + Task.duration task * msPerMinute in
  eventInRange midnight h m (Task.duration task) ->
  transformTaskToEvent LocalTZA now task
  = Ok {| CalendarEvent.name := Task.name task;
          CalendarEvent.date :=
            {| start := isoString (s - msPerHour);
               end_ := isoString (e - msPerHour);
               time_zone := "America/Bogota" |};
          CalendarEvent.notes :=
            orElse (Task.notes task) "Generado automáticamente desde plantilla" |}.
Proof.
  intros Hin T _ _ midnight s e (RS & Rs & Re & Re').
  destruct (dayNameToIndex_days _ _ Hin) as [E R].
  unfold transformTaskToEvent.
  rewrite (getNextWeekDayDate_index LocalTZA now _ idx E R).
  assert (D : Day (LocalTime LocalTZA
                     (UTC LocalTZA ((followingMonday LocalTZA now + (idx - 1 + 7) mod 7)
                                    * msPerDay)))
              = followingMonday LocalTZA now + (idx - 1 + 7) mod 7).
  { rewrite LocalTime_UTC. unfold Day, msPerDay. now rewrite Z.div_mul. }
  destruct (parseTimeToDate_two_integers LocalTZA
              (UTC LocalTZA ((followingMonday LocalTZA now + (idx - 1 + 7) mod 7) * msPerDay))
              _ _ _ T) as (P & _ & _).
  { rewrite D. exact RS. }
  rewrite P, D.
  replace (UTC LocalTZA ((followingMonday LocalTZA now + (idx - 1 + 7) mod 7) * msPerDay
                         + h * msPerHour + m * msPerMinute))
    with s by (unfold s, midnight, UTC; lia).
  unfold calculateEndDate, addMinutes. fold e. rewrite (TimeClip_inRange e Re).
  fold s e in Rs, Re'. unfold msPerHour in Rs, Re' |- *.
  now rewrite (createNotionDateObject_valid s e None Rs Re').
Qed.




(** ** Template normalization *)



(** ** Running the monadic operations *)

Lemma bind_run {A B} (m : M A) (k : A -> M B) (tr : Trace) :
  bind m k tr
  = match m tr with
    | (Ok a, tr') => k a tr'
    | (Throw e, tr') => (Throw e, tr')
    end.
Proof. reflexivity. Qed.

Lemma tryCatch_run {A} (m : M A) (handler : JsError -> M A) (tr : Trace) :
  tryCatch m handler tr
  = match m tr with
    | (Ok a, tr') => (Ok a, tr')
    | (Throw e, tr') => handler e tr'
    end.
Proof. reflexivity. Qed.

Lemma readClock_run (rt : Runtime) (tr : Trace) :
  readClock rt tr = (Ok (clock rt tr), tr ++ [ClockRead]).
Proof. reflexivity. Qed.

Lemma lift_run {A} (r : Result A) (tr : Trace) : lift r tr = (r, tr).
Proof. reflexivity. Qed.

(** ** Footprints of the monadic operations *)

Section Footprints.

Context {A B : Type}.
Variable P : Effect -> Prop.

Lemma appends_ret (Q : Result A -> Prop) (a : A) : Q (Ok a) -> appends P Q (ret a).
Proof. intros H tr. exists []. now rewrite app_nil_r. Qed.

Lemma appends_throw (Q : Result A -> Prop) (e : JsError) :
  Q (Throw e) -> appends P Q (throw e).
Proof. intros H tr. exists []. now rewrite app_nil_r. Qed.

Lemma appends_lift (Q : Result A -> Prop) (r : Result A) : Q r -> appends P Q (lift r).
Proof. intros H tr. exists []. now rewrite app_nil_r. Qed.

Lemma appends_weaken (Q Q' : Result A -> Prop) (m : M A) :
  (forall r, Q r -> Q' r) -> appends P Q m -> appends P Q' m.
Proof.
  intros W H tr. destruct (H tr) as (seg & E & F & HQ). exists seg. auto.
Qed.

Lemma appends_bind (Q1 : Result A -> Prop) (Q2 : Result B -> Prop)
  (m : M A) (k : A -> M B) :
  appends P Q1 m ->
  (forall a, Q1 (Ok a) -> appends P Q2 (k a)) ->
  (forall e, Q1 (Throw e) -> Q2 (Throw e)) ->
  appends P Q2 (bind m k).
Proof.
  intros Hm Hk He tr. unfold bind.
  destruct (Hm tr) as (seg & E & F & HQ).
  destruct (m tr) as [[a|e] tr1]; simpl in *; subst tr1.
  - destruct (Hk a HQ (tr ++ seg)) as (seg' & E' & F' & HQ').
    exists (seg ++ seg'). rewrite E', app_assoc.
    split; [reflexivity|]. split; [now apply Forall_app|exact HQ'].
  - exists seg. auto.
Qed.

Lemma appends_tryCatch (Q1 Q2 : Result A -> Prop) (m : M A) (handler : JsError -> M A) :
  appends P Q1 m ->
  (forall a, Q1 (Ok a) -> Q2 (Ok a)) ->
  (forall e, Q1 (Throw e) -> appends P Q2 (handler e)) ->
  appends P Q2 (tryCatch m handler).
Proof.
  intros Hm Ha Hh tr. unfold tryCatch.
  destruct (Hm tr) as (seg & E & F & HQ).
  destruct (m tr) as [[a|e] tr1]; simpl in *; subst tr1.
  - exists seg. auto.
  - destruct (Hh e HQ (tr ++ seg)) as (seg' & E' & F' & HQ').
    exists (seg ++ seg'). rewrite E', app_assoc.
    split; [reflexivity|]. split; [now apply Forall_app|exact HQ'].
Qed.

End Footprints.

Lemma appends_mono {A} (P P' : Effect -> Prop) (Q Q' : Result A -> Prop) (m : M A) :
  (forall e, P e -> P' e) -> (forall r, Q r -> Q' r) ->
  appends P Q m -> appends P' Q' m.
Proof.
  intros HP HQ H tr. destruct (H tr) as (seg & E & F & R). exists seg.
  split; [exact E|]. split; [|auto]. eapply Forall_impl; [|exact F]. exact HP.
Qed.

Lemma appends_send (rt : Runtime) (P : Effect -> Prop) (request : Notion.Request) :
  P (Sent request) -> appends P (fun _ => True) (send rt request).
Proof. intros H tr. exists [Sent request]. repeat split. now constructor. Qed.

Lemma appends_sleep (P : Effect -> Prop) (ms : Z) :
  P (Waited ms) -> appends P (fun _ => True) (sleep ms).
Proof. intros H tr. exists [Waited ms]. repeat split. now constructor. Qed.

Lemma appends_readClock (rt : Runtime) (P : Effect -> Prop) :
  P ClockRead -> appends P (fun _ => True) (readClock rt).
Proof. intros H tr. exists [ClockRead]. repeat split. now constructor. Qed.

Lemma appends_retryLoop {A} (P : Effect -> Prop) (fn : M A) (maxRetries delay : Z)
  (n : nat) (i : Z) (lastError : option JsError) :
  (forall ms, P (Waited ms)) ->
  appends P (fun _ => True) fn ->
  appends P (fun _ => True) (retryLoop fn maxRetries delay n i lastError).
Proof.
  intros Hw Hfn. revert i lastError.
  induction n as [|n IH]; intros i lastError; cbn [retryLoop].
  - now apply appends_throw.
  - eapply appends_tryCatch; [exact Hfn|trivial|].
    intros e _.
    eapply appends_bind with (Q1 := fun _ => True); [now apply appends_lift| |trivial].
    intros _ _.
    eapply appends_bind with (Q1 := fun _ => True); [|intros; apply IH|trivial].
    destruct (i <? maxRetries - 1); [apply appends_sleep, Hw|now apply appends_ret].
Qed.

(** Whatever the number of attempts allowed, retrying a request sends
    it at most that many times, and sends nothing else. *)
Lemma retryLoop_sends_at_most (rt : Runtime) (request : Notion.Request)
  (maxRetries delay : Z) (n : nat) :
  forall i lastError tr, exists seg,
    snd (retryLoop (send rt request) maxRetries delay n i lastError tr) = tr ++ seg
    /\ (countSent seg <= n)%nat
    /\ Forall (fun e => match e with
                        | Sent r => r = request
                        | Waited _ => True
                        | ClockRead => False
                        end) seg.
Proof.
  induction n as [|n IH]; intros i lastError tr.
  - exists []. cbn. rewrite app_nil_r. repeat split; [lia|constructor].
  - cbn [retryLoop]. rewrite tryCatch_run. unfold send at 1.
    destruct (remote rt tr request) as [page|e].
    + exists [Sent request]. cbn. repeat split; [lia|now repeat constructor].
    + rewrite bind_run. unfold lift at 1.
      destruct (messageOf e) as [message|t].
      2:{ exists [Sent request]. cbn. repeat split; [lia|now repeat constructor]. }
      rewrite bind_run.
      destruct (i <? maxRetries - 1).
      * unfold sleep.
        destruct (IH (i + 1) (Some e) ((tr ++ [Sent request]) ++ [Waited (delay * (i + 1))]))
          as (seg & E & C & F).
        exists (Sent request :: Waited (delay * (i + 1)) :: seg).
        rewrite E, <- !app_assoc. cbn. repeat split; [unfold countSent in *; lia|].
        now repeat constructor.
      * unfold ret.
        destruct (IH (i + 1) (Some e) (tr ++ [Sent request])) as (seg & E & C & F).
        exists (Sent request :: seg).
        rewrite E, <- !app_assoc. cbn. repeat split; [unfold countSent in *; lia|].
        now repeat constructor.
Qed.

Lemma processNotionError_throws (e e' : JsError) :
  processNotionError e = Throw e' -> e' <> ThrownUndefined.
Proof.
  destruct e; cbn; intros E; try discriminate E.
  - repeat match type of E with
           | context [if ?b then _ else _] => destruct b
           end; discriminate E.
  - injection E as <-. discriminate.
Qed.

Lemma wrapNotionError_run {A} (prefix : string) (e : JsError) (tr : Trace) :
  exists e', @wrapNotionError A prefix e tr = (Throw e', tr) /\ e' <> ThrownUndefined.
Proof.
  unfold wrapNotionError, throw.
  destruct (processNotionError e) as [m|e2] eqn:E.
  - eexists. split; [reflexivity|discriminate].
  - eexists. split; [reflexivity|]. now apply (processNotionError_throws e).
Qed.

Lemma appends_wrapNotionError {A} (P : Effect -> Prop) (prefix : string) (e : JsError) :
  appends P hasMessage (@wrapNotionError A prefix e).
Proof.
  intros tr. destruct (wrapNotionError_run (A := A) prefix e tr) as (e' & E & N).
  exists []. rewrite E, app_nil_r. cbn. auto.
Qed.

(** ** The retry wrapper *)

Lemma messageOf_object (e : JsError) :
  e <> ThrownUndefined -> exists message, messageOf e = Ok message.
Proof. destruct e; intros H; cbn; eauto. contradiction. Qed.

Lemma retryOperation_3 {A} (fn : M A) (delay : Z) (tr : Trace) :
  retryOperation fn 3 delay tr
  = match fn tr with
    | (Ok a, tr1) => (Ok a, tr1)
    | (Throw e1, tr1) =>
        match messageOf e1 with
        | Throw t => (Throw t, tr1)
        | Ok _ =>
            match fn (tr1 ++ [Waited (delay * 1)]) with
            | (Ok a, tr2) => (Ok a, tr2)
            | (Throw e2, tr2) =>
                match messageOf e2 with
                | Throw t => (Throw t, tr2)
                | Ok _ =>
                    match fn (tr2 ++ [Waited (delay * 2)]) with
                    | (Ok a, tr3) => (Ok a, tr3)
                    | (Throw e3, tr3) =>
                        match messageOf e3 with
                        | Throw t => (Throw t, tr3)
                        | Ok _ => (Throw e3, tr3)
                        end
                    end
                end
            end
        end
    end.
Proof.
  unfold retryOperation. change (Z.to_nat 3) with 3%nat. cbn [retryLoop].
  rewrite tryCatch_run. destruct (fn tr) as [[a1|e1] tr1]; [reflexivity|].
  rewrite bind_run, lift_run. destruct (messageOf e1) as [m1|t1]; [|reflexivity].
  rewrite bind_run. cbn - [lift]. unfold sleep.
  rewrite tryCatch_run.
  destruct (fn (tr1 ++ [Waited (delay * 1)])) as [[a2|e2] tr2]; [reflexivity|].
  rewrite bind_run, lift_run. destruct (messageOf e2) as [m2|t2]; [|reflexivity].
  rewrite bind_run. cbn - [lift].
  rewrite tryCatch_run.
  destruct (fn (tr2 ++ [Waited (delay * 2)])) as [[a3|e3] tr3]; [reflexivity|].
  rewrite bind_run, lift_run. destruct (messageOf e3) as [m3|t3]; reflexivity.
Qed.

(** What the [catch] block of a service makes of the error that
    [retryOperation] raises: the error itself, or the TypeError of the
    log line when it is [undefined]. *)
Lemma messageOf_throws (e t : JsError) :
  messageOf e = Throw t ->
  e = ThrownUndefined
  /\ t = TypeError "Cannot read properties of undefined (reading 'message')".
Proof. destruct e; cbn; intros H; try discriminate H. now injection H as <-. Qed.

Section ServiceFacts.

Variable rt : Runtime.

Ltac wrapped :=
  match goal with
  | |- context [@wrapNotionError ?A ?p ?e ?t] =>
      let e' := fresh "e'" in
      let E := fresh "E" in
      let N := fresh "N" in
      destruct (wrapNotionError_run (A := A) p e t) as (e' & E & N); rewrite E
  end.

(** Writing one event: one to three attempts at its request, and an
    error, if any, that carries a message. *)
Lemma createCalendarEvent_attempts (event : CalendarEvent.t) (tr : Trace) :
  exists seg,
    snd (createCalendarEvent rt event tr) = tr ++ seg
    /\ writeAttempts (createPageRequest rt event) seg
    /\ hasMessage (fst (createCalendarEvent rt event tr)).
Proof.
  unfold createCalendarEvent. rewrite tryCatch_run, retryOperation_3.
  set (request := createPageRequest rt event). unfold send, writeAttempts.
  rewrite <- !app_assoc. cbn [app]. change (1000 * 1) with 1000. change (1000 * 2) with 2000.
  destruct (remote rt tr request) as [p1|e1].
  { exists [Sent request]. cbn. auto. }
  destruct (messageOf e1) as [m1|t1].
  2:{ wrapped. exists [Sent request]. cbn. auto. }
  destruct (remote rt (tr ++ [Sent request; Waited 1000]) request) as [p2|e2].
  { exists [Sent request; Waited 1000; Sent request]. cbn. auto. }
  destruct (messageOf e2) as [m2|t2].
  2:{ wrapped. exists [Sent request; Waited 1000; Sent request]. cbn. auto. }
  destruct (remote rt _ request) as [p3|e3].
  { exists [Sent request; Waited 1000; Sent request; Waited 2000; Sent request].
    cbn. auto 6. }
  destruct (messageOf e3) as [m3|t3]; wrapped;
    exists [Sent request; Waited 1000; Sent request; Waited 2000; Sent request];
    cbn; auto 6.
Qed.

(** The batch: every event is attempted, in order, whatever happened to
    the ones before it; each ends up in exactly one of the two lists. *)
Lemma createEventsLoop_spec (events : list CalendarEvent.t) :
  forall results errors tr,
  exists segs created failed,
    createEventsLoop rt events results errors tr
    = (Ok {| batch_success := results ++ created; batch_errors := errors ++ failed |},
       tr ++ List.concat segs)
    /\ Forall2 (fun event seg => writeAttempts (createPageRequest rt event) seg) events segs
    /\ (List.length created + List.length failed = List.length events)%nat
    /\ Forall (fun p => In (fst p) events /\ snd p <> ThrownUndefined) failed.
Proof.
  induction events as [|event rest IH]; intros results errors tr.
  - exists [], [], []. cbn. rewrite !app_nil_r. repeat split; constructor.
  - cbn [createEventsLoop].
    destruct (createCalendarEvent_attempts event tr) as (seg & E & W & HM).
    destruct (createCalendarEvent rt event tr) as [[page|e] tr1]; cbn in E, HM; subst tr1.
    + destruct (IH (results ++ [page]) errors (tr ++ seg)) as (segs & c & f & E' & F2 & L & Fa).
      exists (seg :: segs), (page :: c), f. rewrite E'. cbn [List.concat].
      rewrite <- !app_assoc. cbn [app]. repeat split.
      * now constructor.
      * cbn. lia.
      * eapply Forall_impl; [|exact Fa]. intros p [Hin Hne]. split; [now right|exact Hne].
    + destruct (IH results (errors ++ [(event, e)]) (tr ++ seg))
        as (segs & c & f & E' & F2 & L & Fa).
      exists (seg :: segs), c, ((event, e) :: f). rewrite E'. cbn [List.concat].
      rewrite <- !app_assoc. cbn [app]. repeat split.
      * now constructor.
      * cbn. lia.
      * constructor; [split; [now left|exact HM]|].
        eapply Forall_impl; [|exact Fa]. intros p [Hin Hne]. split; [now right|exact Hne].
Qed.

Lemma transformLoop_spec (tasks : list Task.t) :
  forall events errors tr,
    transformLoop rt tasks events errors tr
    = (Ok (events ++ okEvents (outcomes rt tr tasks),
           errors ++ failures (outcomes rt tr tasks)),
       tr ++ repeat ClockRead (List.length tasks)).
Proof.
  induction tasks as [|task rest IH]; intros events errors tr.
  - cbn. now rewrite !app_nil_r.
  - cbn [transformLoop outcomes]. unfold bind, readClock.
    unfold okEvents, failures. cbn [flat_map snd fst].
    destruct (transformTaskToEvent (LocalTZA rt) (clock rt tr) task) as [event|e];
      rewrite IH; cbn [app List.length repeat]; now rewrite <- !app_assoc.
Qed.

End ServiceFacts.

(** C6, amended. [retryOperation] with three attempts, for an operation
    whose failures throw error objects.  The operation runs once; it runs
    a second time only if the first run failed, after a wait of
    [delay * 1], and a third time only if the second failed too, after a
    wait of [delay * 2]; it never runs a fourth time.  The first success is
    the result, and nothing runs after it; when the three runs fail, the
    error of the third is raised again, with no wait before it.  Hence a
    page creation that the remote refuses twice and accepts the third time
    ends in the list of created pages, not in the list of errors.  A run
    that throws [undefined] is the last, whichever it is: the [catch]
    block fails on reading its message, and that TypeError is what
    [retryOperation] raises. *)
Theorem retryOperation_three_attempts :
  (forall (A : Type) (fn : M A) (delay : Z) (tr : Trace),
     let stopped (tr' : Trace) :=
       retryOperation fn 3 delay tr
       = (Throw (TypeError "Cannot read properties of undefined (reading 'message')"),
          tr') in
     match fn tr with
     | (Ok a, tr1) => retryOperation fn 3 delay tr = (Ok a, tr1)
     | (Throw e1, tr1) =>
         (e1 = ThrownUndefined -> stopped tr1)
         /\ (e1 <> ThrownUndefined ->
             match fn (tr1 ++ [Waited (delay * 1)]) with
             | (Ok a, tr2) => retryOperation fn 3 delay tr = (Ok a, tr2)
             | (Throw e2, tr2) =>
                 (e2 = ThrownUndefined -> stopped tr2)
                 /\ (e2 <> ThrownUndefined ->
                     match fn (tr2 ++ [Waited (delay * 2)]) with
                     | (Ok a, tr3) => retryOperation fn 3 delay tr = (Ok a, tr3)
                     | (Throw e3, tr3) =>
                         (e3 = ThrownUndefined -> stopped tr3)
                         /\ (e3 <> ThrownUndefined ->
                             retryOperation fn 3 delay tr = (Throw e3, tr3))
                     end)
             end)
     end)
  /\ (forall (rt : Runtime) (event : CalendarEvent.t) (e1 e2 : JsError)
        (page : Notion.Response) (tr : Trace),
        let request := createPageRequest rt event in
        e1 <> ThrownUndefined -> e2 <> ThrownUndefined ->
        remote rt tr request = Throw e1 ->
        remote rt (tr ++ [Sent request; Waited 1000]) request = Throw e2 ->
        remote rt (tr ++ [Sent request; Waited 1000; Sent request; Waited 2000]) request
        = Ok page ->
        createCalendarEventsBatch rt [event] tr
        = (Ok {| batch_success := [page]; batch_errors := [] |},
           tr ++ [Sent request; Waited 1000; Sent request; Waited 2000; Sent request])).
Proof.
  split.
  - intros A fn delay tr stopped. subst stopped. cbv beta. rewrite retryOperation_3.
    destruct (fn tr) as [[a|e1] tr1]; [reflexivity|].
    split; [now intros ->|].
    intros N1. destruct (messageOf_object e1 N1) as [m1 ->].
    destruct (fn (tr1 ++ [Waited (delay * 1)])) as [[a|e2] tr2]; [reflexivity|].
    split; [now intros ->|].
    intros N2. destruct (messageOf_object e2 N2) as [m2 ->].
    destruct (fn (tr2 ++ [Waited (delay * 2)])) as [[a|e3] tr3]; [reflexivity|].
    split; [now intros ->|].
    intros N3. now destruct (messageOf_object e3 N3) as [m3 ->].
  - intros rt event e1 e2 page tr request N1 N2 H1 H2 H3.
    unfold createCalendarEventsBatch. cbn [createEventsLoop].
    unfold createCalendarEvent. rewrite tryCatch_run, retryOperation_3.
    fold request. unfold send.
    rewrite <- !app_assoc. cbn [app].
    change (1000 * 1) with 1000. change (1000 * 2) with 2000.
    rewrite H1, H2, H3.
    destruct (messageOf_object e1 N1) as [m1 ->].
    destruct (messageOf_object e2 N2) as [m2 ->]. reflexivity.
Qed.

(** The amended C6 at a concrete point: a remote that refuses the first
    two page creations. *)
Lemma retryOperation_three_attempts_witness :
  let rt := sampleRuntime (sampleRemote [] 2) in
  let request := createPageRequest rt sampleEvent in
  createCalendarEventsBatch rt [sampleEvent] []
  = (Ok {| batch_success := [Notion.CreatedPage "created-1"]; batch_errors := [] |},
     [Sent request; Waited 1000; Sent request; Waited 2000; Sent request]).
Proof.
  intros rt request.
  apply (proj2 retryOperation_three_attempts rt sampleEvent
           (APIResponseError "rate_limited" "Rate limited")
           (APIResponseError "rate_limited" "Rate limited")
           (Notion.CreatedPage "created-1") []);
    try reflexivity; discriminate.
Defined.

(** C6 as stated fails: an operation whose first run throws [undefined]
    and whose second run would succeed.  [retryOperation] makes no second
    attempt: it runs the operation once and raises a TypeError, which is
    not the error of the failure either. *)
Lemma retryOperation_stops_on_undefined :
  let request := Notion.DatabasesRetrieve "template-db" in
  let fn := send (sampleRuntime undefinedOnceRemote) request in
  fn [] = (Throw ThrownUndefined, [Sent request])
  /\ fn [Sent request; Waited 1000]
     = (Ok Notion.Database, [Sent request; Waited 1000; Sent request])
  /\ retryOperation fn 3 1000 []
     = (Throw (TypeError "Cannot read properties of undefined (reading 'message')"),
        [Sent request]).
Proof. repeat split. Qed.

(** ** Which tasks the transformation accepts *)

Lemma ownProperty_none (o : list (string * Z)) (key : string) :
  existsb (String.eqb key) (map fst o) = false -> ownProperty o key = None.
Proof.
  induction o as [|[k v] o IH]; [reflexivity|].
  cbn. rewrite (String.eqb_sym k key).
  destruct (String.eqb key k); [discriminate|]. exact IH.
Qed.

Lemma recognizedDay_in (dayName : string) :
  recognizedDay dayName = true -> exists idx, In (dayName, idx) days.
Proof.
  unfold recognizedDay. intros H.
  apply existsb_exists in H as (k & Hin & E).
  apply String.eqb_eq in E as <-.
  apply in_map_iff in Hin as ([k v] & E & Hin). cbn in E. subst k. now exists v.
Qed.

Section TransformFacts.

Variable LocalTZA : Z.

Lemma setters_of_invalid (hours minutes : jsnumber) :
  setMilliseconds LocalTZA
    (setSeconds LocalTZA
       (setMinutes LocalTZA (setHours LocalTZA InvalidDate hours) minutes) (ofZ 0)) (ofZ 0)
  = InvalidDate.
Proof.
  unfold setHours, setMinutes, setSeconds, setMilliseconds,
    Date_setHours, Date_setMinutes, Date_setSeconds, Date_setMilliseconds.
  reflexivity.
Qed.

Lemma parseTimeToDate_finite (baseDate : Date) (timeString : string) :
  parseTimeToDate LocalTZA baseDate timeString
  = match baseDate with
    | InvalidDate => InvalidDate
    | DateAt u =>
        if finiteTime timeString
        then parseTimeToDate LocalTZA (DateAt u) timeString
        else InvalidDate
    end.
Proof.
  unfold parseTimeToDate, finiteTime.
  set (parts := map Number (split ":" timeString)).
  destruct (toInteger (nth 0 parts NaN)) as [h|] eqn:Eh.
  - destruct (toInteger (nth 1 parts NaN)) as [m|] eqn:Em.
    + destruct baseDate; [apply setters_of_invalid|reflexivity].
    + rewrite setters_invalid by now right. now destruct baseDate.
  - rewrite setters_invalid by now left. now destruct baseDate.
Qed.

Lemma getNextWeekDayDate_unrecognized (now : Z) (dayName : string) :
  recognizedDay dayName = false ->
  getNextWeekDayDate LocalTZA now dayName
  = if existsb (String.eqb dayName) objectPrototypeKeys
    then Ok InvalidDate
    else Throw (Error ("Día no válido: " ++ dayName)).
Proof.
  intros H. unfold getNextWeekDayDate, dayNameToIndex, getProperty.
  rewrite (ownProperty_none days dayName H), getNextWeekStart_at.
  destruct (existsb (String.eqb dayName) objectPrototypeKeys); reflexivity.
Qed.

Lemma transformTaskToEvent_unrecognized (now : Z) (task : Task.t) :
  recognizedDay (Task.day task) = false ->
  transformTaskToEvent LocalTZA now task
  = Throw (if existsb (String.eqb (Task.day task)) objectPrototypeKeys
           then RangeError "Invalid time value"
           else Error ("Día no válido: " ++ Task.day task)).
Proof.
  intros H. unfold transformTaskToEvent.
  rewrite (getNextWeekDayDate_unrecognized now _ H).
  destruct (existsb (String.eqb (Task.day task)) objectPrototypeKeys); [|reflexivity].
  rewrite (parseTimeToDate_finite InvalidDate _).
  reflexivity.
Qed.

Lemma transformTaskToEvent_recognized (now : Z) (task : Task.t) :
  recognizedDay (Task.day task) = true ->
  finiteTime (Task.time task) = false ->
  transformTaskToEvent LocalTZA now task = Throw (RangeError "Invalid time value").
Proof.
  intros H F. apply recognizedDay_in in H as [idx Hin].
  destruct (dayNameToIndex_days _ _ Hin) as [E R].
  unfold transformTaskToEvent.
  rewrite (getNextWeekDayDate_index LocalTZA now _ idx E R).
  set (u := UTC LocalTZA _).
  rewrite (parseTimeToDate_finite (DateAt u) (Task.time task)), F.
  reflexivity.
Qed.

End TransformFacts.

(** The events that come out of the loop are those of the tasks whose
    own transformation succeeded, one each, in the order of the
    template. *)
Lemma okEvents_outcomes (rt : Runtime) (tasks : list Task.t) :
  forall tr,
    Forall2 (fun p event =>
               snd p = Ok event
               /\ exists now, transformTaskToEvent (LocalTZA rt) now (fst p) = Ok event)
            (filter (fun p => isOk (snd p)) (outcomes rt tr tasks))
            (okEvents (outcomes rt tr tasks)).
Proof.
  induction tasks as [|task rest IH]; intros tr; [constructor|].
  cbn [outcomes filter snd]. unfold okEvents. cbn [flat_map snd].
  destruct (transformTaskToEvent (LocalTZA rt) (clock rt tr) task) as [event|e] eqn:E; cbn.
  - constructor; [|apply IH]. cbn. eauto.
  - apply IH.
Qed.

Lemma Forall2_compose {A B C} (R : A -> B -> Prop) (S : B -> C -> Prop)
  (l1 : list A) (l2 : list B) (l3 : list C) :
  Forall2 R l1 l2 -> Forall2 S l2 l3 ->
  Forall2 (fun a c => exists b, R a b /\ S b c) l1 l3.
Proof.
  intros H. revert l3. induction H as [|a b l1 l2 Hab H IH]; intros l3 H3.
  - inversion H3. constructor.
  - inversion H3 as [|b' c l2' l3' Hbc H3']; subst. constructor; eauto.
Qed.

Lemma orElse_empty (x : string) : orElse x "" = x.
Proof. unfold orElse. now destruct (String.eqb_spec x ""). Qed.

(** The page that is asked for, for the event of a task. *)
Lemma createPageRequest_of_transformed (rt : Runtime) (now : Z) (task : Task.t)
  (event : CalendarEvent.t) :
  transformTaskToEvent (LocalTZA rt) now task = Ok event ->
  createPageRequest rt event
  = Notion.PagesCreate (calendarDbId (config rt)) (Task.name task)
      (start (CalendarEvent.date event)) (end_ (CalendarEvent.date event))
      "America/Bogota" (CalendarEvent.notes event).
Proof.
  intros H.
  destruct (transformTaskToEvent_inv _ _ _ _ H) as (_ & _ & _ & _ & _ & _ & Z & N & _).
  unfold createPageRequest, databases_calendar. now rewrite Z, N, orElse_empty.
Qed.

(** ** A run of the job, phase by phase *)

Lemma summarize_ok (l : list (CalendarEvent.t * JsError)) :
  Forall (fun p => snd p <> ThrownUndefined) l ->
  exists summary,
    summarize l = Ok summary
    /\ List.length summary = List.length l
    /\ map fst summary = map (fun p => CalendarEvent.name (fst p)) l.
Proof.
  induction l as [|[event e] l IH]; intros H.
  - exists []. auto.
  - inversion H as [|p l' He Hl]; subst. destruct (IH Hl) as (s & E & L & N).
    cbn [summarize]. rewrite E.
    destruct e; cbn in He |- *; try contradiction;
      eexists; (split; [reflexivity|]); cbn; rewrite L, N; auto.
Qed.

Section JobFacts.

Variable rt : Runtime.

Lemma verifyConnection_footprint : appends isRetrieve hasMessage (verifyConnection rt).
Proof.
  unfold verifyConnection.
  eapply appends_tryCatch with (Q1 := fun _ => True).
  - eapply appends_bind with (Q1 := fun _ => True); [now apply appends_send| |trivial].
    intros _ _.
    eapply appends_bind with (Q1 := fun _ => True); [now apply appends_send| |trivial].
    intros _ _. now apply appends_ret.
  - trivial.
  - intros e _. apply appends_wrapNotionError.
Qed.

Lemma getTemplateTasks_footprint (P : Effect -> Prop) :
  (forall ms, P (Waited ms)) ->
  P (Sent (Notion.DatabasesQuery (databases_template (config rt)) "Day" "ascending")) ->
  appends P hasMessage (getTemplateTasks rt).
Proof.
  intros Hw Hq. unfold getTemplateTasks.
  eapply appends_tryCatch with (Q1 := fun _ => True).
  - eapply appends_bind with (Q1 := fun _ => True); [|  |trivial].
    + apply appends_retryLoop; [exact Hw|now apply appends_send].
    + intros [| |] _; [now apply appends_throw|now apply appends_ret|now apply appends_throw].
  - trivial.
  - intros e _. apply appends_wrapNotionError.
Qed.

Lemma handleError_same (e : JsError) (context : string) :
  e <> ThrownUndefined -> handleError e context = e.
Proof. destruct e; intros H; try reflexivity. contradiction. Qed.

Lemma generateWeek_run (tr : Trace) :
  match verifyConnection rt (tr ++ [ClockRead]) with
  | (Throw e, tr1) => generateWeek rt tr = (Throw e, tr1 ++ [ClockRead])
  | (Ok _, tr1) =>
      match getTemplateTasks rt tr1 with
      | (Throw e, tr2) => generateWeek rt tr = (Throw e, tr2 ++ [ClockRead])
      | (Ok [], tr2) =>
          generateWeek rt tr
          = (Ok {| success := true; created := 0; failed := 0;
                   message := Some "No hay tareas de plantilla para procesar"%string;
                   duration := None; errors := None; error := None |}, tr2)
      | (Ok (task :: rest), tr2) =>
          let events := okEvents (outcomes rt tr2 (task :: rest)) in
          exists (segs : list Trace) (written : list Notion.Response)
                 (refused : list (CalendarEvent.t * JsError))
                 (summary : list (string * string)),
            let tr4 := (tr2 ++ repeat ClockRead (List.length (task :: rest)))
                       ++ List.concat segs in
            generateWeek rt tr
            = (Ok {| success := true;
                     created := List.length written;
                     failed := List.length refused;
                     message := None;
                     duration := Some (clock rt tr4 - clock rt tr);
                     errors := Some summary;
                     error := None |}, tr4 ++ [ClockRead])
            /\ Forall2 (fun event seg => writeAttempts (createPageRequest rt event) seg)
                       events segs
            /\ (List.length written + List.length refused = List.length events)%nat
            /\ List.length summary = List.length refused
            /\ Forall (fun p => In (fst p) events) refused
      end
  end.
Proof.
  unfold generateWeek. rewrite bind_run, readClock_run, tryCatch_run, bind_run.
  destruct (verifyConnection_footprint (tr ++ [ClockRead])) as (sv & _ & _ & Hv).
  destruct (verifyConnection rt (tr ++ [ClockRead])) as [[b|e] tr1]; cbn in Hv.
  2:{ rewrite bind_run, readClock_run. unfold throw. now rewrite handleError_same. }
  rewrite bind_run.
  destruct (getTemplateTasks_footprint (fun _ => True) (fun _ => I) I tr1)
    as (sg & _ & _ & Hg).
  destruct (getTemplateTasks rt tr1) as [[[|task rest]|e] tr2]; cbn in Hg.
  - reflexivity.
  - cbv beta iota zeta. rewrite bind_run, transformLoop_spec. cbn [app fst snd].
    set (events := okEvents (outcomes rt tr2 (task :: rest))).
    unfold createCalendarEventsBatch.
    destruct (createEventsLoop_spec rt events [] []
                (tr2 ++ repeat ClockRead (List.length (task :: rest))))
      as (segs & written & refused & E & F2 & L & Fa).
    cbn [app] in E.
    assert (Hm : Forall (fun p => snd p <> ThrownUndefined) refused)
      by (eapply Forall_impl; [|exact Fa]; now intros p [_ H]).
    destruct (summarize_ok refused Hm) as (summary & Es & Ls & _).
    exists segs, written, refused, summary.
    rewrite bind_run, E, bind_run, readClock_run, bind_run.
    unfold lift, ret. cbn [batch_errors batch_success].
    rewrite Es. repeat split; try assumption.
    eapply Forall_impl; [|exact Fa]. now intros p [H _].
  - rewrite bind_run, readClock_run. unfold throw. now rewrite handleError_same.
Qed.

End JobFacts.

(** ** Fatal errors *)

(** C8. When the connectivity check fails, the run stops there:
    [generateWeek] ends by raising the error of the check, as its
    [catch] block hands it to [handleError], which throws it again; the
    process ends with exit code 1, from [index.js] as from the job run as
    a script; and all that the run has sent is what the check itself
    sent: no template query and no page creation.  ([tr ++ [ClockRead]]
    is the trace when the check starts, [generateWeek] having read the
    clock once.) *)
Theorem connectivity_failure_halts (rt : Runtime) (tr tr1 : Trace) (e : JsError) :
  verifyConnection rt (tr ++ [ClockRead]) = (Throw e, tr1) ->
  generateWeek rt tr = (Throw e, tr1 ++ [ClockRead])
  /\ main rt tr = (Exit 1, tr1 ++ [ClockRead])
  /\ runJob rt tr = (Exit 1, tr1 ++ [ClockRead])
  /\ exists seg, tr1 ++ [ClockRead] = tr ++ seg /\ Forall isRetrieve seg.
Proof.
  intros H. pose proof (generateWeek_run rt tr) as R. rewrite H in R.
  split; [exact R|]. unfold main, runJob. rewrite R.
  split; [reflexivity|]. split; [reflexivity|].
  destruct (verifyConnection_footprint rt (tr ++ [ClockRead])) as (seg & E & F & _).
  rewrite H in E. cbn in E. subst tr1.
  exists ([ClockRead] ++ seg ++ [ClockRead]).
  split; [now rewrite <- !app_assoc|].
  apply Forall_app. split; [now repeat constructor|].
  apply Forall_app. split; [exact F|now repeat constructor].
Qed.

(** C8 at a concrete point: a remote that refuses every request. *)
Lemma connectivity_failure_halts_witness :
  let rt := sampleRuntime unauthorizedRemote in
  let e := NotionError
             "Verificación de conexión fallida: Token de API inválido o sin permisos. Verifica tu NOTION_API_KEY"
             (APIResponseError "unauthorized" "API token is invalid.") in
  let tr1 := [ClockRead; Sent (Notion.DatabasesRetrieve "template-db")] in
  generateWeek rt [] = (Throw e, tr1 ++ [ClockRead])
  /\ main rt [] = (Exit 1, tr1 ++ [ClockRead])
  /\ runJob rt [] = (Exit 1, tr1 ++ [ClockRead])
  /\ exists seg, tr1 ++ [ClockRead] = [] ++ seg /\ Forall isRetrieve seg.
Proof.
  intros rt e tr1.
  apply (connectivity_failure_halts rt [] tr1 e). reflexivity.
Defined.

(** ** The time zone of the events *)

Lemma orElse_bogota : orElse "America/Bogota" "America/Mexico_City" = "America/Bogota"%string.
Proof. reflexivity. Qed.

Lemma createCalendarEvent_footprint (rt : Runtime) (P : Effect -> Prop)
  (event : CalendarEvent.t) :
  (forall ms, P (Waited ms)) -> P (Sent (createPageRequest rt event)) ->
  appends P (fun _ => True) (createCalendarEvent rt event).
Proof.
  intros Hw Hs tr. destruct (createCalendarEvent_attempts rt event tr) as (seg & E & W & _).
  exists seg. split; [exact E|]. split; [|exact I].
  destruct W as [->|[->| ->]]; repeat constructor; auto.
Qed.

Lemma createEventsLoop_footprint (rt : Runtime) (P : Effect -> Prop)
  (events : list CalendarEvent.t) :
  (forall ms, P (Waited ms)) ->
  Forall (fun event => P (Sent (createPageRequest rt event))) events ->
  forall results errors,
    appends P (fun _ => True) (createEventsLoop rt events results errors).
Proof.
  intros Hw. induction events as [|event rest IH]; intros He results errors.
  - now apply appends_ret.
  - inversion He as [|x l H1 H2]; subst. cbn [createEventsLoop]. intros tr.
    destruct (createCalendarEvent_footprint rt P event Hw H1 tr) as (seg & E & F & _).
    destruct (createCalendarEvent rt event tr) as [[page|e] tr1]; cbn in E; subst tr1.
    + destruct (IH H2 (results ++ [page]) errors (tr ++ seg)) as (seg' & E' & F' & _).
      exists (seg ++ seg'). rewrite E', app_assoc.
      split; [reflexivity|]. split; [now apply Forall_app|exact I].
    + destruct (IH H2 results (errors ++ [(event, e)]) (tr ++ seg)) as (seg' & E' & F' & _).
      exists (seg ++ seg'). rewrite E', app_assoc.
      split; [reflexivity|]. split; [now apply Forall_app|exact I].
Qed.

Lemma okEvents_bogota (rt : Runtime) (tasks : list Task.t) :
  forall tr,
    Forall (fun event => time_zone (CalendarEvent.date event) = "America/Bogota"%string)
           (okEvents (outcomes rt tr tasks)).
Proof.
  induction tasks as [|task rest IH]; intros tr; [constructor|].
  cbn [outcomes]. unfold okEvents. cbn [flat_map snd].
  destruct (transformTaskToEvent (LocalTZA rt) (clock rt tr) task) as [event|e] eqn:E; cbn.
  - constructor; [|apply IH].
    now destruct (transformTaskToEvent_inv _ _ _ _ E) as (_ & _ & _ & _ & _ & _ & Z & _).
  - apply IH.
Qed.

Lemma generateWeek_bogota (rt : Runtime) :
  appends bogotaOnly (fun _ => True) (generateWeek rt).
Proof.
  assert (Hw : forall ms, bogotaOnly (Waited ms)) by (intros; exact I).
  unfold generateWeek.
  eapply appends_bind with (Q1 := fun _ => True);
    [now apply appends_readClock| |trivial].
  intros startTime _.
  eapply appends_tryCatch with (Q1 := fun _ => True); [|trivial|].
  2:{ intros e _. eapply appends_bind with (Q1 := fun _ => True);
        [now apply appends_readClock| |trivial].
      intros _ _. now apply appends_throw. }
  eapply appends_bind with (Q1 := fun _ => True); [|  |trivial].
  { eapply appends_mono; [| |apply verifyConnection_footprint]; [|trivial].
    intros [[]| |]; cbn; tauto. }
  intros _ _.
  eapply appends_bind with (Q1 := fun _ => True); [|  |trivial].
  { eapply appends_weaken; [|apply (getTemplateTasks_footprint rt bogotaOnly Hw I)].
    trivial. }
  intros [|task rest] _; [now apply appends_ret|].
  eapply appends_bind
    with (Q1 := fun r => match r with
                         | Ok prepared =>
                             Forall (fun event =>
                                       time_zone (CalendarEvent.date event)
                                       = "America/Bogota"%string) (fst prepared)
                         | Throw _ => True
                         end); [|  |trivial].
  { intros tr. rewrite transformLoop_spec. eexists. split; [reflexivity|].
    split; [apply Forall_forall; intros x Hx; apply repeat_spec in Hx; now subst|].
    cbn [fst snd app]. apply okEvents_bogota. }
  intros prepared Hp.
  eapply appends_bind with (Q1 := fun _ => True); [|  |trivial].
  { apply createEventsLoop_footprint; [exact Hw|].
    eapply Forall_impl; [|exact Hp]. intros event Z. cbn. now rewrite Z. }
  intros result _.
  eapply appends_bind with (Q1 := fun _ => True);
    [now apply appends_readClock| |trivial].
  intros endTime _.
  eapply appends_bind with (Q1 := fun _ => True); [now apply appends_lift| |trivial].
  intros summary _. now apply appends_ret.
Qed.

(** C9. The date range of every event that the transformation builds
    carries the time zone America/Bogota; every page creation that a run
    sends carries it; and the time zone label of the configuration has no
    part in a run: with any other label the run has the same outcome and
    sends the same requests. *)
Theorem time_zone_is_always_bogota :
  (forall LocalTZA now task event,
     transformTaskToEvent LocalTZA now task = Ok event ->
     time_zone (CalendarEvent.date event) = "America/Bogota"%string)
  /\ (forall rt tr, exists seg,
        snd (generateWeek rt tr) = tr ++ seg /\ Forall bogotaOnly seg)
  /\ (forall rt label tr, generateWeek (withTimezone rt label) tr = generateWeek rt tr).
Proof.
  split; [|split].
  - intros tz now task event H.
    now destruct (transformTaskToEvent_inv _ _ _ _ H) as (_ & _ & _ & _ & _ & _ & Z & _).
  - intros rt tr. destruct (generateWeek_bogota rt tr) as (seg & E & F & _). eauto.
  - reflexivity.
Qed.

(** C9 at a concrete point: the stand-up of the sample template. *)
Lemma time_zone_is_always_bogota_witness :
  time_zone (CalendarEvent.date sampleEvent) = "America/Bogota"%string.
Proof.
  apply (proj1 time_zone_is_always_bogota 0 1704744000000
           {| Task.id := "1"; Task.name := "Standup"; Task.day := "Monday";
              Task.time := "09:00"; Task.duration := 30; Task.notes := "Daily" |}
           sampleEvent).
  vm_compute. reflexivity.
Defined.

(** ** Errors of single tasks *)

(** C5, amended. A task whose day name is not one of the fourteen names
    is not transformed: its transformation raises an error, whatever the
    clock reads (the "Día no válido" error, unless the name is a property
    that object literals inherit, in which case the date is invalid and
    its serialization raises a RangeError).  A task with one of the
    fourteen names and a time of two colon-separated integers is
    transformed, as long as the clock and the dates of the task are time
    values of Date, with a week to spare after the clock.  When the
    check and the fetch have succeeded, the run goes on to its end, and
    what it writes is one page for each task whose own transformation
    succeeded, in the order of the template: the page of that task, with
    its name and the dates of its event, is asked for one to three
    times, and nothing else is sent. *)
Theorem unrecognized_day_is_isolated (rt : Runtime) (tr tr1 tr2 : Trace) (b : bool)
  (tasks : list Task.t) :
  verifyConnection rt (tr ++ [ClockRead]) = (Ok b, tr1) ->
  getTemplateTasks rt tr1 = (Ok tasks, tr2) ->
  (forall task, recognizedDay (Task.day task) = false ->
     forall now, exists e, transformTaskToEvent (LocalTZA rt) now task = Throw e)
  /\ (forall task now idx h m,
        In (Task.day task, idx) days ->
        matchHHmm (Task.time task) = Some (h, m) ->
        inRange now -> inRange (now + 7 * msPerDay) ->
        eventInRange
          (UTC (LocalTZA rt)
             ((followingMonday (LocalTZA rt) now + (idx - 1 + 7) mod 7) * msPerDay))
          h m (Task.duration task) ->
        exists event, transformTaskToEvent (LocalTZA rt) now task = Ok event)
  /\ exists (segs : list Trace) (result : WeekResult) (before after : Trace),
       generateWeek rt tr = (Ok result, tr2 ++ before ++ List.concat segs ++ after)
       /\ Forall2 (fun p seg =>
                     exists event,
                       snd p = Ok event
                       /\ writeAttempts
                            (Notion.PagesCreate (calendarDbId (config rt))
                               (Task.name (fst p))
                               (start (CalendarEvent.date event))
                               (end_ (CalendarEvent.date event))
                               "America/Bogota" (CalendarEvent.notes event))
                            seg)
                  (filter (fun p => isOk (snd p)) (outcomes rt tr2 tasks)) segs
       /\ Forall (eq ClockRead) before /\ Forall (eq ClockRead) after.
Proof.
  intros Hv Hg. split; [|split].
  - intros task R now. rewrite (transformTaskToEvent_unrecognized _ now task R). eauto.
  - intros task now idx h m Hin T Hn Hn7 R.
    rewrite (transformTaskToEvent_at _ now task idx h m Hin T Hn Hn7 R). eauto.
  - pose proof (generateWeek_run rt tr) as R. rewrite Hv, Hg in R.
    destruct tasks as [|task rest].
    + exists []. eexists. exists [], []. cbn [List.concat app filter outcomes].
      rewrite app_nil_r.
      split; [exact R|]. repeat split; constructor.
    + cbv zeta in R. destruct R as (segs & written & refused & summary & E & F2 & _).
      exists segs. eexists.
      exists (repeat ClockRead (List.length (task :: rest))), [ClockRead].
      split; [rewrite E; now rewrite <- !app_assoc|].
      split; [|split; [|now repeat constructor]].
      * pose proof (Forall2_compose _ _ _ _ _
                      (okEvents_outcomes rt (task :: rest) tr2) F2) as F.
        eapply Forall2_impl; [|exact F].
        intros p seg (event & (Ep & now & T) & W). exists event.
        split; [exact Ep|]. now rewrite <- (createPageRequest_of_transformed rt now _ _ T).
      * apply Forall_forall. intros x Hx. apply repeat_spec in Hx. now subst.
Qed.

(** The amended C5 at a concrete point: a template with a Monday task
    and a Funday task, and a remote that accepts everything. *)
Lemma unrecognized_day_is_isolated_witness :
  let pages := [samplePage "Monday" "09:00" (Notion.Present 30);
                samplePage "Funday" "09:00" (Notion.Present 30)] in
  let rt := sampleRuntime (sampleRemote pages 0) in
  let tr2 := [ClockRead; Sent (Notion.DatabasesRetrieve "template-db");
              Sent (Notion.DatabasesRetrieve "calendar-db");
              Sent (Notion.DatabasesQuery "template-db" "Day" "ascending")] in
  exists (segs : list Trace) (result : WeekResult) (before after : Trace),
    generateWeek rt [] = (Ok result, tr2 ++ before ++ List.concat segs ++ after)
    /\ Forall2 (fun p seg =>
                  exists event,
                    snd p = Ok event
                    /\ writeAttempts
                         (Notion.PagesCreate (calendarDbId (config rt))
                            (Task.name (fst p))
                            (start (CalendarEvent.date event))
                            (end_ (CalendarEvent.date event))
                            "America/Bogota" (CalendarEvent.notes event))
                         seg)
               (filter (fun p => isOk (snd p))
                  (outcomes rt tr2 (map parseTemplatePage pages))) segs
    /\ Forall (eq ClockRead) before /\ Forall (eq ClockRead) after.
Proof.
  intros pages rt tr2.
  apply (unrecognized_day_is_isolated rt []
           [ClockRead; Sent (Notion.DatabasesRetrieve "template-db");
            Sent (Notion.DatabasesRetrieve "calendar-db")]
           tr2 true (map parseTemplatePage pages)); reflexivity.
Defined.

(** C5 as stated fails: in a template with a Funday task and a Monday
    task whose time is not a time, the Monday task has a valid day name
    and yet is neither transformed nor written: its own transformation
    raises a RangeError, and the run creates no page. *)
Lemma valid_day_name_is_not_enough :
  let monday := samplePage "Monday" "soon" (Notion.Present 30) in
  let pages := [samplePage "Funday" "09:00" (Notion.Present 30); monday] in
  let run := generateWeek (sampleRuntime (sampleRemote pages 0)) [] in
  recognizedDay (Task.day (parseTemplatePage monday)) = true
  /\ transformTaskToEvent 0 1704744000000 (parseTemplatePage monday)
     = Throw (RangeError "Invalid time value")
  /\ fst run
     = Ok {| success := true; created := 0; failed := 0; message := None;
             duration := Some 0; errors := Some []; error := None |}
  /\ countCreates (snd run) = 0%nat.
Proof. repeat split; vm_compute; reflexivity. Qed.

(** C3 fails on this input: the template holds one task, whose day is
    Funday, and the remote accepts every request.  The transformation of
    the task raises an error, and yet the run returns no failure and an
    empty list of errors: [transformErrors] is filled and never returned.
    The same goes for a task of Monday whose time is not a time. *)
Lemma generateWeek_omits_transform_errors :
  let result := {| success := true; created := 0; failed := 0; message := None;
                   duration := Some 0; errors := Some []; error := None |} in
  let funday := samplePage "Funday" "09:00" (Notion.Present 30) in
  let noTime := samplePage "Monday" "soon" (Notion.Present 30) in
  transformTaskToEvent 0 1704744000000 (parseTemplatePage funday)
  = Throw (Error "Día no válido: Funday")
  /\ fst (generateWeek (sampleRuntime (sampleRemote [funday] 0)) []) = Ok result
  /\ transformTaskToEvent 0 1704744000000 (parseTemplatePage noTime)
     = Throw (RangeError "Invalid time value")
  /\ fst (generateWeek (sampleRuntime (sampleRemote [noTime] 0)) []) = Ok result.
Proof. repeat split; vm_compute; reflexivity. Qed.

(** What does hold of C3: the errors of the writes.  Whenever the run
    returns a result it reports success; with a template that is not
    empty, the result counts as failed the events whose write failed for
    good, lists one error for each, and every event was attempted, the
    failure of one not stopping the next. *)
Lemma generateWeek_reports_write_failures (rt : Runtime) (tr tr' : Trace)
  (result : WeekResult) :
  generateWeek rt tr = (Ok result, tr') ->
  success result = true
  /\ match errors result with
     | Some summary => List.length summary = failed result
     | None => failed result = 0%nat
     end.
Proof.
  intros H. pose proof (generateWeek_run rt tr) as R.
  destruct (verifyConnection rt (tr ++ [ClockRead])) as [[b|e] tr1];
    [|rewrite H in R; discriminate R].
  destruct (getTemplateTasks rt tr1) as [[[|task rest]|e] tr2];
    [| |rewrite H in R; discriminate R].
  - rewrite H in R. injection R as -> _. now split.
  - cbv zeta in R. destruct R as (segs & written & refused & summary & E & _ & _ & L & _).
    rewrite H in E. injection E as -> _. now split.
Qed.

(** In general: the two counts of a result add up to the number of
    transformable tasks, those whose own transformation succeeded, so
    that a task whose transformation failed is counted nowhere. *)
Lemma generateWeek_counts_only_writes (rt : Runtime) (tr tr1 tr2 tr' : Trace) (b : bool)
  (task : Task.t) (rest : list Task.t) (result : WeekResult) :
  verifyConnection rt (tr ++ [ClockRead]) = (Ok b, tr1) ->
  getTemplateTasks rt tr1 = (Ok (task :: rest), tr2) ->
  generateWeek rt tr = (Ok result, tr') ->
  (created result + failed result
   = List.length (filter (fun p => isOk (snd p)) (outcomes rt tr2 (task :: rest))))%nat.
Proof.
  intros Hv Hg H. pose proof (generateWeek_run rt tr) as R.
  rewrite Hv, Hg in R. cbv zeta in R.
  destruct R as (segs & written & refused & summary & E & _ & L & _).
  rewrite H in E. injection E as -> _. cbn [created failed].
  rewrite L. symmetry.
  apply (Forall2_length (okEvents_outcomes rt (task :: rest) tr2)).
Qed.

(** ** The round trip through the calendar *)

(** C2 fails on this input: 09:00 on Monday 15 January 2024, a 60-minute
    event, the label America/Bogota.  With the runtime in UTC the start is
    serialized as 08:00 UTC, which America/Bogota shows as 03:00; with the
    runtime itself in America/Bogota it is serialized as 13:00 UTC, shown
    as 08:00.  In neither case does 09:00 come back. *)
Lemma createNotionDateObject_loses_wall_clock :
  let range (LocalTZA : Z) (midnight : Z) :=
    let startDate := parseTimeToDate LocalTZA (DateAt midnight) "09:00" in
    createNotionDateObject startDate (calculateEndDate startDate 60)
      (Some "America/Bogota"%string) in
  range 0 1705276800000
  = Ok {| start := "2024-01-15T08:00:00.000Z"; end_ := "2024-01-15T09:00:00.000Z";
          time_zone := "America/Bogota" |}
  /\ redisplay bogotaOffsetMinutes "2024-01-15T08:00:00.000Z" = Some (3, 0)
  /\ range (-18000000) 1705294800000
     = Ok {| start := "2024-01-15T13:00:00.000Z"; end_ := "2024-01-15T14:00:00.000Z";
             time_zone := "America/Bogota" |}
  /\ redisplay bogotaOffsetMinutes "2024-01-15T13:00:00.000Z" = Some (8, 0).
Proof. repeat split; vm_compute; reflexivity. Qed.

(** * Further properties *)

(** ** The week that is filled *)

Lemma jsle_ofZ (a b : Z) : jsle (ofZ a) (ofZ b) = (a <=? b).
Proof.
  unfold jsle, ofZ, inject_Z, Qle_bool; simpl. now rewrite !Z.mul_1_r.
Qed.

Lemma jsIsZero_ofZ (a : Z) : jsIsZero (ofZ a) = (a =? 0).
Proof.
  unfold jsIsZero, ofZ, inject_Z, Qeq_bool; simpl. now rewrite !Z.mul_1_r.
Qed.

#[local] Hint Rewrite jsle_ofZ jsIsZero_ofZ : jsnum.

Lemma followingMonday_facts (LocalTZA now : Z) :
  let today := Day (LocalTime LocalTZA now) in
  let monday := followingMonday LocalTZA now in
  today < monday <= today + 7 /\ (monday + 3) mod 7 = 0.
Proof.
  intros today monday. unfold monday, followingMonday, mondayOfWeek. fold today.
  pose proof (Z.mod_pos_bound (today + 3) 7 ltac:(lia)) as B.
  pose proof (Z.div_mod (today + 3) 7 ltac:(lia)) as D.
  split; [lia|].
  replace (today - (today + 3) mod 7 + 7 + 3) with (0 + (((today + 3) / 7) + 1) * 7) by lia.
  now rewrite Z.mod_add by lia.
Qed.

Lemma Day_bounds (t : Z) : Day t * msPerDay <= t < (Day t + 1) * msPerDay.
Proof.
  pose proof (split_day t) as E. unfold TimeWithinDay, msPerDay in *.
  pose proof (Z.mod_pos_bound t 86400000 ltac:(lia)). lia.
Qed.

Lemma Day_of_midnight (n : Z) : Day (n * msPerDay) = n.
Proof. unfold Day, msPerDay. apply Z.div_mul. lia. Qed.

Lemma WeekDay_of_monday (monday k : Z) :
  (monday + 3) mod 7 = 0 -> 0 <= k < 7 ->
  WeekDay ((monday + k) * msPerDay) = (k + 1) mod 7.
Proof.
  intros Hm Hk. unfold WeekDay. rewrite Day_of_midnight.
  pose proof (Z.div_mod (monday + 3) 7 ltac:(lia)) as D. rewrite Hm in D.
  replace (monday + k + 4) with ((k + 1) + ((monday + 3) / 7) * 7) by lia.
  now rewrite Z.mod_add by lia.
Qed.

Lemma Date_setHours_four (LocalTZA u h m s x : Z) :
  Date_setHours LocalTZA (DateAt u) (ofZ h) (Some (ofZ m)) (Some (ofZ s)) (Some (ofZ x))
  = DateAt (UTC LocalTZA (MakeDate (Day (LocalTime LocalTZA u)) (MakeTime h m s x))).
Proof. unfold Date_setHours. now autorewrite with jsnum. Qed.

(** X1. In a zone whose offset from UTC is constant, [getNextWeekStart]
    of a valid date that lies at least seven days before the last time
    value of [Date] is a valid date: local midnight of a Monday,
    strictly after the reference and at most seven days after it.  Of
    the Invalid Date it is the Invalid Date. *)
Theorem getNextWeekStart_bounds (LocalTZA now : Z) :
  (inRange now -> inRange (now + 7 * msPerDay) ->
   exists t,
     getNextWeekStart LocalTZA (DateAt now) = DateAt t
     /\ now < t <= now + 7 * msPerDay
     /\ inRange t
     /\ WeekDay (LocalTime LocalTZA t) = 1
     /\ TimeWithinDay (LocalTime LocalTZA t) = 0)
  /\ getNextWeekStart LocalTZA InvalidDate = InvalidDate.
Proof.
  split; [|reflexivity]. intros Hn Hn7.
  rewrite getNextWeekStart_at. eexists. split; [reflexivity|].
  rewrite LocalTime_UTC.
  destruct (followingMonday_facts LocalTZA now) as [B M].
  pose proof (Day_bounds (LocalTime LocalTZA now)) as DB.
  set (monday := followingMonday LocalTZA now) in *.
  set (today := Day (LocalTime LocalTZA now)) in *.
  assert (Hb : now < UTC LocalTZA (monday * msPerDay) <= now + 7 * msPerDay)
    by (unfold UTC, LocalTime in *; unfold msPerDay in *; lia).
  split; [exact Hb|]. split; [|split].
  - unfold inRange in *. lia.
  - pose proof (WeekDay_of_monday monday 0 M ltac:(lia)) as W.
    now rewrite Z.add_0_r in W.
  - unfold TimeWithinDay, msPerDay. apply Z.mod_mul. lia.
Qed.

Lemma getNextWeekStart_bounds_witness :
  exists t,
    getNextWeekStart 0 (DateAt 1704744000000) = DateAt t
    /\ 1704744000000 < t <= 1704744000000 + 7 * msPerDay
    /\ inRange t
    /\ WeekDay (LocalTime 0 t) = 1
    /\ TimeWithinDay (LocalTime 0 t) = 0.
Proof.
  apply (proj1 (getNextWeekStart_bounds 0 1704744000000));
    unfold inRange, maxTime, msPerDay; lia.
Defined.

Lemma getNextWeekEnd_at (LocalTZA now : Z) :
  getNextWeekEnd LocalTZA (DateAt now)
  = DateAt (UTC LocalTZA ((followingMonday LocalTZA now + 7) * msPerDay - 1)).
Proof.
  unfold getNextWeekEnd, addWeeks, addDays. rewrite setDate_getDate_plus.
  unfold endOfWeek.
  set (u := now + 1 * 7 * msPerDay).
  assert (Eday : Date_getDay LocalTZA (DateAt u) = ofZ (WeekDay (LocalTime LocalTZA u)))
    by reflexivity.
  rewrite Eday. autorewrite with jsnum.
  set (w := WeekDay (LocalTime LocalTZA u)).
  assert (Ediff : jsadd (if w <? 1 then ofZ (-7) else ofZ 0) (ofZ 6)
                  = ofZ ((if w <? 1 then -7 else 0) + 6)).
  { destruct (w <? 1); now autorewrite with jsnum. }
  rewrite Ediff. autorewrite with jsnum.
  rewrite setDate_getDate_plus, Date_setHours_four.
  do 2 f_equal.
  assert (Ew : w = (Day (LocalTime LocalTZA now) + 4) mod 7).
  { unfold w, WeekDay, LocalTime, u.
    replace (now + 1 * 7 * msPerDay + LocalTZA) with ((now + LocalTZA) + 7 * msPerDay) by lia.
    rewrite Day_shift.
    replace (Day (now + LocalTZA) + 7 + 4) with (Day (now + LocalTZA) + 4 + 1 * 7) by lia.
    now rewrite Z.mod_add by lia. }
  unfold LocalTime at 1.
  replace (u + ((if w <? 1 then -7 else 0) + 6 - (w - 1)) * msPerDay + LocalTZA)
    with (LocalTime LocalTZA now + (7 + ((if w <? 1 then -7 else 0) + 6 - (w - 1))) * msPerDay)
    by (unfold u, LocalTime; lia).
  rewrite Day_shift.
  unfold followingMonday, mondayOfWeek.
  set (d := Day (LocalTime LocalTZA now)) in *.
  pose proof (Z.mod_pos_bound (d + 4) 7 ltac:(lia)).
  pose proof (Z.div_mod (d + 4) 7 ltac:(lia)).
  pose proof (Z.div_mod (d + 3) 7 ltac:(lia)).
  pose proof (Z.mod_pos_bound (d + 3) 7 ltac:(lia)).
  unfold MakeDate, MakeTime, msPerDay, msPerHour, msPerMinute, msPerSecond.
  destruct (w <? 1) eqn:Hw;
    [apply Z.ltb_lt in Hw | apply Z.ltb_ge in Hw];
    clearbody w d; lia.
Qed.

(** X2. In a zone whose offset from UTC is constant, [getNextWeekEnd] of
    a valid date that lies at least fourteen days before the last time
    value of [Date] is the last millisecond of the Sunday that closes
    the week opened by [getNextWeekStart]: seven days less one
    millisecond after it, at 23:59:59.999 local time. *)
Theorem getNextWeekEnd_closes_week (LocalTZA now : Z) :
  inRange now -> inRange (now + 14 * msPerDay) ->
  exists s e,
    getNextWeekStart LocalTZA (DateAt now) = DateAt s
    /\ getNextWeekEnd LocalTZA (DateAt now) = DateAt e
    /\ e = s + 7 * msPerDay - 1
    /\ inRange s /\ inRange e
    /\ WeekDay (LocalTime LocalTZA e) = 0
    /\ HourFromTime (LocalTime LocalTZA e) = 23
    /\ MinFromTime (LocalTime LocalTZA e) = 59
    /\ SecFromTime (LocalTime LocalTZA e) = 59
    /\ msFromTime (LocalTime LocalTZA e) = 999.
Proof.
  intros Hn Hn14.
  rewrite getNextWeekStart_at, getNextWeekEnd_at.
  do 2 eexists. split; [reflexivity|]. split; [reflexivity|].
  rewrite LocalTime_UTC.
  destruct (followingMonday_facts LocalTZA now) as [B M].
  pose proof (Day_bounds (LocalTime LocalTZA now)) as DB.
  set (monday := followingMonday LocalTZA now) in *.
  split; [unfold UTC, msPerDay; lia|].
  assert (Hr : inRange (UTC LocalTZA (monday * msPerDay))
               /\ inRange (UTC LocalTZA ((monday + 7) * msPerDay - 1))).
  { unfold inRange, UTC, LocalTime in *. unfold msPerDay in *. lia. }
  clear B DB.
  pose proof (Z.div_mod (monday + 3) 7 ltac:(lia)) as D. rewrite M in D.
  clearbody monday.
  destruct Hr as [Hs He]. split; [exact Hs|]. split; [exact He|].
  clear Hn Hn14 Hs He.
  unfold WeekDay. unfold_time.
  repeat split; Z.to_euclidean_division_equations; lia.
Qed.

Lemma getNextWeekEnd_closes_week_witness :
  exists s e,
    getNextWeekStart 0 (DateAt 1704744000000) = DateAt s
    /\ getNextWeekEnd 0 (DateAt 1704744000000) = DateAt e
    /\ e = s + 7 * msPerDay - 1
    /\ inRange s /\ inRange e
    /\ WeekDay (LocalTime 0 e) = 0
    /\ HourFromTime (LocalTime 0 e) = 23
    /\ MinFromTime (LocalTime 0 e) = 59
    /\ SecFromTime (LocalTime 0 e) = 59
    /\ msFromTime (LocalTime 0 e) = 999.
Proof.
  apply (getNextWeekEnd_closes_week 0 1704744000000);
    unfold inRange, maxTime, msPerDay; lia.
Defined.

(** X3. With one reading of the clock, the date that
    [getNextWeekDayDate] gives for any of the fourteen names lies between
    [getNextWeekStart] and [getNextWeekEnd], bounds included. *)
Theorem getNextWeekDayDate_within_week (LocalTZA now : Z) (dayName : string) (idx : Z) :
  In (dayName, idx) days ->
  exists s t e,
    getNextWeekStart LocalTZA (DateAt now) = DateAt s
    /\ getNextWeekDayDate LocalTZA now dayName = Ok (DateAt t)
    /\ getNextWeekEnd LocalTZA (DateAt now) = DateAt e
    /\ s <= t <= e.
Proof.
  intros Hin. destruct (dayNameToIndex_days _ _ Hin) as [E R].
  rewrite getNextWeekStart_at, getNextWeekEnd_at,
    (getNextWeekDayDate_index LocalTZA now dayName idx E R).
  do 3 eexists. repeat (split; [reflexivity|]).
  pose proof (Z.mod_pos_bound (idx - 1 + 7) 7 ltac:(lia)).
  unfold UTC, msPerDay. lia.
Qed.

Lemma getNextWeekDayDate_within_week_witness :
  exists s t e,
    getNextWeekStart 0 (DateAt 1704744000000) = DateAt s
    /\ getNextWeekDayDate 0 1704744000000 "Viernes" = Ok (DateAt t)
    /\ getNextWeekEnd 0 (DateAt 1704744000000) = DateAt e
    /\ s <= t <= e.
Proof.
  apply (getNextWeekDayDate_within_week 0 1704744000000 "Viernes" 5).
  unfold days. simpl. tauto.
Defined.

(** ** The other way to the next weekday *)

Lemma dayFunctions_days (dayName : string) (idx : Z) :
  In (dayName, idx) days -> ownProperty dayFunctions dayName = Some idx /\ 0 <= idx <= 6.
Proof.
  unfold days; intros H.
  repeat (destruct H as [H|H]; [injection H as <- <-; split; [reflexivity | lia] | ]).
  destruct H.
Qed.

Lemma nextDay_at (LocalTZA u day : Z) :
  0 <= day <= 6 ->
  let w := WeekDay (LocalTime LocalTZA u) in
  let k := if day - w <=? 0 then day - w + 7 else day - w in
  nextDay LocalTZA (DateAt u) day = DateAt (u + k * msPerDay) /\ 1 <= k <= 7.
Proof.
  intros R w k.
  assert (Hw : 0 <= w < 7) by (apply Z.mod_pos_bound; lia).
  assert (Hk : 1 <= k <= 7) by (unfold k; destruct (Z.leb_spec (day - w) 0); lia).
  split; [|exact Hk].
  unfold nextDay.
  assert (Eday : Date_getDay LocalTZA (DateAt u) = ofZ w) by reflexivity.
  rewrite Eday. autorewrite with jsnum.
  assert (Ek : (if day - w <=? 0 then ofZ (day - w + 7) else ofZ (day - w)) = ofZ k).
  { unfold k. now destruct (day - w <=? 0). }
  rewrite Ek. unfold addDaysBy.
  assert (Ez : jsIsZero (ofZ k) = false)
    by (rewrite jsIsZero_ofZ; apply Z.eqb_neq; lia).
  change (ofZ k) with (Real (inject_Z k)) at 1. cbv iota.
  rewrite Ez. apply setDate_getDate_plus.
Qed.

(** X4. In a zone whose offset from UTC is constant, for any of the
    fourteen names and a valid reference date that lies at least seven
    days before the last time value of [Date], [getNextWeekDay] returns
    the next date after the reference that falls on the named weekday:
    one to seven whole days later (never the day of the reference
    itself), at the same time of day. *)
Theorem getNextWeekDay_next_occurrence (LocalTZA u : Z) (dayName : string) (idx : Z) :
  In (dayName, idx) days ->
  inRange u -> inRange (u + 7 * msPerDay) ->
  exists k,
    getNextWeekDay LocalTZA (DateAt u) dayName = NextDate (DateAt (u + k * msPerDay))
    /\ 1 <= k <= 7
    /\ inRange (u + k * msPerDay)
    /\ WeekDay (LocalTime LocalTZA (u + k * msPerDay)) = idx
    /\ TimeWithinDay (LocalTime LocalTZA (u + k * msPerDay))
       = TimeWithinDay (LocalTime LocalTZA u).
Proof.
  intros Hin Hu Hu7. destruct (dayFunctions_days _ _ Hin) as [E R].
  unfold getNextWeekDay. rewrite E.
  destruct (nextDay_at LocalTZA u idx R) as [En Hk]. cbv zeta in En, Hk.
  set (w := WeekDay (LocalTime LocalTZA u)) in *.
  set (k := if idx - w <=? 0 then idx - w + 7 else idx - w) in *.
  exists k. rewrite En. split; [reflexivity|]. split; [exact Hk|].
  split; [unfold inRange, msPerDay in *; lia|].
  assert (Hw : 0 <= w < 7) by (apply Z.mod_pos_bound; lia).
  replace (LocalTime LocalTZA (u + k * msPerDay))
    with (LocalTime LocalTZA u + k * msPerDay) by (unfold LocalTime; lia).
  split.
  - unfold WeekDay. rewrite Day_shift. fold (WeekDay (LocalTime LocalTZA u)).
    assert (Ew : w = (Day (LocalTime LocalTZA u) + 4) mod 7) by reflexivity.
    set (d := Day (LocalTime LocalTZA u)) in *.
    pose proof (Z.div_mod (d + 4) 7 ltac:(lia)) as D.
    unfold k. destruct (Z.leb_spec (idx - w) 0).
    + replace (d + (idx - w + 7) + 4) with (idx + ((d + 4) / 7 + 1) * 7) by lia.
      rewrite Z.mod_add by lia. apply Z.mod_small. lia.
    + replace (d + (idx - w) + 4) with (idx + ((d + 4) / 7) * 7) by lia.
      rewrite Z.mod_add by lia. apply Z.mod_small. lia.
  - unfold TimeWithinDay, msPerDay. now rewrite Z.mod_add by lia.
Qed.

Lemma getNextWeekDay_next_occurrence_witness :
  exists k,
    getNextWeekDay 0 (DateAt 1704744000000) "Monday"
    = NextDate (DateAt (1704744000000 + k * msPerDay))
    /\ 1 <= k <= 7
    /\ inRange (1704744000000 + k * msPerDay)
    /\ WeekDay (LocalTime 0 (1704744000000 + k * msPerDay)) = 1
    /\ TimeWithinDay (LocalTime 0 (1704744000000 + k * msPerDay))
       = TimeWithinDay (LocalTime 0 1704744000000).
Proof.
  apply (getNextWeekDay_next_occurrence 0 1704744000000 "Monday" 1);
    [unfold days; simpl; tauto | unfold inRange, maxTime, msPerDay; lia ..].
Defined.

(** X5. The two ways to a day of next week agree except on Monday: from
    [getNextWeekStart], [getNextWeekDay] gives the date of
    [getNextWeekDayDate] for every name but Monday and Lunes, for which it
    gives the Monday one week further. *)
Theorem getNextWeekDay_skips_monday (LocalTZA now : Z) (dayName : string) (idx : Z) :
  In (dayName, idx) days ->
  exists t,
    getNextWeekDayDate LocalTZA now dayName = Ok (DateAt t)
    /\ getNextWeekDay LocalTZA (getNextWeekStart LocalTZA (DateAt now)) dayName
       = NextDate (DateAt (if idx =? 1 then t + 7 * msPerDay else t)).
Proof.
  intros Hin. destruct (dayNameToIndex_days _ _ Hin) as [E R].
  destruct (dayFunctions_days _ _ Hin) as [E' _].
  rewrite (getNextWeekDayDate_index LocalTZA now dayName idx E R), getNextWeekStart_at.
  eexists. split; [reflexivity|].
  unfold getNextWeekDay. rewrite E'.
  destruct (followingMonday_facts LocalTZA now) as [_ M].
  set (monday := followingMonday LocalTZA now) in *.
  destruct (nextDay_at LocalTZA (UTC LocalTZA (monday * msPerDay)) idx R) as [En _].
  cbv zeta in En. rewrite En, LocalTime_UTC.
  pose proof (WeekDay_of_monday monday 0 M ltac:(lia)) as W.
  rewrite Z.add_0_r in W. rewrite W. change ((0 + 1) mod 7) with 1.
  do 2 f_equal. unfold UTC.
  assert (K : (idx - 1 + 7) mod 7 = if idx =? 0 then 6 else idx - 1).
  { destruct (Z.eqb_spec idx 0) as [->|N]; [reflexivity|].
    replace (idx - 1 + 7) with (idx - 1 + 1 * 7) by lia.
    rewrite Z.mod_add, Z.mod_small; lia. }
  rewrite K. clearbody monday. unfold msPerDay.
  destruct (Z.eqb_spec idx 1), (Z.eqb_spec idx 0), (Z.leb_spec (idx - 1) 0); lia.
Qed.

Lemma getNextWeekDay_skips_monday_witness :
  exists t,
    getNextWeekDayDate 0 1704744000000 "Lunes" = Ok (DateAt t)
    /\ getNextWeekDay 0 (getNextWeekStart 0 (DateAt 1704744000000)) "Lunes"
       = NextDate (DateAt (if 1 =? 1 then t + 7 * msPerDay else t)).
Proof.
  apply (getNextWeekDay_skips_monday 0 1704744000000 "Lunes" 1).
  unfold days. simpl. tauto.
Defined.

Lemma ownProperty_some (o : list (string * Z)) (key : string) :
  existsb (String.eqb key) (map fst o) = true -> exists v, ownProperty o key = Some v.
Proof.
  induction o as [|[k v] o IH]; [discriminate|].
  cbn. rewrite (String.eqb_sym k key).
  destruct (String.eqb key k); [eauto|exact IH].
Qed.

(** X6. The two day tables of the module hold the same fourteen names,
    and a name outside them is refused only when no object inherits it.
    For a name neither in the tables nor inherited, [getNextWeekDayDate]
    and [getNextWeekDay] both raise "Día no válido".  For a name that
    object literals inherit from Object.prototype (constructor, toString,
    ...), neither raises it: [getNextWeekDayDate] returns the Invalid Date
    and [getNextWeekDay] calls the inherited member. *)
Theorem day_tables_agree (LocalTZA now : Z) (referenceDate : Date) (dayName : string) :
  if recognizedDay dayName then
    exists idx, 0 <= idx <= 6
                /\ dayNameToIndex dayName = Num (ofZ idx)
                /\ ownProperty dayFunctions dayName = Some idx
  else if existsb (String.eqb dayName) objectPrototypeKeys then
    getNextWeekDayDate LocalTZA now dayName = Ok InvalidDate
    /\ getNextWeekDay LocalTZA referenceDate dayName = InheritedCall dayName
  else
    getNextWeekDayDate LocalTZA now dayName = Throw (Error ("Día no válido: " ++ dayName))
    /\ getNextWeekDay LocalTZA referenceDate dayName
       = InvalidDay (Error ("Día no válido: " ++ dayName)).
Proof.
  destruct (recognizedDay dayName) eqn:R.
  - apply recognizedDay_in in R as [idx Hin]. exists idx.
    destruct (dayNameToIndex_days _ _ Hin) as [E B].
    destruct (dayFunctions_days _ _ Hin) as [E' _]. auto.
  - rewrite (getNextWeekDayDate_unrecognized LocalTZA now dayName R).
    unfold getNextWeekDay.
    assert (N : ownProperty dayFunctions dayName = None).
    { apply ownProperty_none.
      unfold recognizedDay in R.
      destruct (existsb (String.eqb dayName) (map fst dayFunctions)) eqn:X; [|reflexivity].
      apply existsb_exists in X as (k & Hin & Ek).
      rewrite <- R. symmetry. apply existsb_exists. exists k. split; [|exact Ek].
      cbn in Hin |- *. tauto. }
    rewrite N.
    destruct (existsb (String.eqb dayName) objectPrototypeKeys); split; reflexivity.
Qed.

(** ** The seven dates of next week *)

Lemma getNextWeekDayDateNow_run (rt : Runtime) (dayName : string) (idx : Z) (tr : Trace) :
  In (dayName, idx) days ->
  getNextWeekDayDateNow rt dayName tr
  = (Ok (DateAt (UTC (LocalTZA rt)
                   ((followingMonday (LocalTZA rt) (clock rt tr) + (idx - 1 + 7) mod 7)
                    * msPerDay))),
     tr ++ [ClockRead]).
Proof.
  intros Hin. destruct (dayNameToIndex_days _ _ Hin) as [E R].
  unfold getNextWeekDayDateNow. rewrite bind_run, readClock_run. unfold lift.
  now rewrite (getNextWeekDayDate_index (LocalTZA rt) (clock rt tr) dayName idx E R).
Qed.



(** ** What the time string can and cannot say *)



Lemma split_nonempty (sep : ascii) (s : string) : split sep s <> [].
Proof.
  destruct s as [|c r]; cbn; [discriminate|].
  destruct (Ascii.eqb c sep); [discriminate|].
  destruct (split sep r); discriminate.
Qed.

Lemma split_append (sep : ascii) (a b : string) :
  split sep (a ++ String sep b) = split sep a ++ split sep b.
Proof.
  induction a as [|c r IH]; cbn.
  - now rewrite Ascii.eqb_refl.
  - destruct (Ascii.eqb c sep); [now rewrite IH|].
    rewrite IH. pose proof (split_nonempty sep r) as N.
    destruct (split sep r) as [|p ps]; [contradiction|reflexivity].
Qed.

(** X9. Only the first two colon-separated parts of the time string are
    read: whatever follows a further colon (seconds, say) changes nothing. *)
Theorem parseTimeToDate_ignores_third_part (LocalTZA : Z) (baseDate : Date)
  (timeString extra : string) :
  (2 <= List.length (split ":" timeString))%nat ->
  parseTimeToDate LocalTZA baseDate (timeString ++ String ":" extra)
  = parseTimeToDate LocalTZA baseDate timeString.
Proof.
  intros H. unfold parseTimeToDate. rewrite split_append, map_app.
  destruct (split ":" timeString) as [|p [|q l]]; cbn in H; try lia.
  reflexivity.
Qed.

Lemma parseTimeToDate_ignores_third_part_witness :
  parseTimeToDate 0 (DateAt 1705276800000) ("12:30" ++ String ":" "45")
  = parseTimeToDate 0 (DateAt 1705276800000) "12:30".
Proof.
  apply (parseTimeToDate_ignores_third_part 0 (DateAt 1705276800000) "12:30" "45").
  cbn. lia.
Defined.

(** ** From a task to its event *)





(** X12. What a page with a missing field turns into.  A page without a
    Day property, or whose Day has no option selected, gives a task that
    the transformation refuses with "Día no válido: " and an empty name of
    day.  A page with one of the fourteen days but without a Time
    property, or with an empty Time text, gives a task whose
    transformation raises the RangeError: the empty time is hour 0 with no
    minute. *)
Theorem incomplete_page_is_refused (LocalTZA now : Z) (page : Notion.Page) :
  (extractSelect (Notion.Day (Notion.properties page)) = ""%string ->
   transformTaskToEvent LocalTZA now (parseTemplatePage page)
   = Throw (Error "Día no válido: "))
  /\ (recognizedDay (extractSelect (Notion.Day (Notion.properties page))) = true ->
      extractText (Notion.Time (Notion.properties page)) = ""%string ->
      transformTaskToEvent LocalTZA now (parseTemplatePage page)
      = Throw (RangeError "Invalid time value"))
  /\ (Notion.Day (Notion.properties page) = None ->
      extractSelect (Notion.Day (Notion.properties page)) = ""%string)
  /\ (Notion.Time (Notion.properties page) = None ->
      extractText (Notion.Time (Notion.properties page)) = ""%string).
Proof.
  split; [|split; [|split]].
  - intros E.
    rewrite (transformTaskToEvent_unrecognized LocalTZA now (parseTemplatePage page));
      cbn [parseTemplatePage Task.day]; rewrite E; reflexivity.
  - intros R E.
    pose proof (transformTaskToEvent_recognized LocalTZA now (parseTemplatePage page)) as H.
    cbn [parseTemplatePage Task.day Task.time] in H. rewrite E in H.
    exact (H R eq_refl).
  - now intros ->.
  - now intros ->.
Qed.

Lemma incomplete_page_is_refused_witness :
  transformTaskToEvent 0 1704744000000
    (parseTemplatePage
       {| Notion.id := "p";
          Notion.properties :=
            {| Notion.Name := None; Notion.Day := None; Notion.Time := None;
               Notion.Duration := None; Notion.Notes := None |} |})
  = Throw (Error "Día no válido: ")
  /\ transformTaskToEvent 0 1704744000000 (parseTemplatePage (samplePage "Monday" "" Notion.Null))
     = Throw (RangeError "Invalid time value").
Proof.
  split.
  - apply (proj1 (incomplete_page_is_refused 0 1704744000000 _)). reflexivity.
  - apply (proj1 (proj2 (incomplete_page_is_refused 0 1704744000000 _))); reflexivity.
Defined.

(** ** Error messages *)

Lemma append_nonempty (a b : string) : a <> ""%string -> (a ++ b)%string <> ""%string.
Proof. destruct a; [contradiction|discriminate]. Qed.

Lemma orElse_nonempty (x d : string) : d <> ""%string -> orElse x d <> ""%string.
Proof.
  intros H. unfold orElse. destruct (String.eqb_spec x ""); assumption.
Qed.

(** X13. For every error object, [processNotionError] returns a message
    and the message is never empty; it raises (a TypeError) only when
    what was thrown is [undefined]. *)
Theorem processNotionError_message (error : JsError) :
  match processNotionError error with
  | Ok message => message <> ""%string /\ error <> ThrownUndefined
  | Throw e => error = ThrownUndefined /\ exists m, e = TypeError m
  end.
Proof.
  destruct error as [m|m|m|code m|m orig|]; cbn;
    try (split; [apply orElse_nonempty|]; discriminate).
  - repeat match goal with
           | |- context [if ?b then _ else _] => destruct b
           end;
      (split; [|discriminate]); try discriminate.
    apply orElse_nonempty. discriminate.
  - split; [reflexivity|eauto].
Qed.

(** ** The retry wrapper, for any number of attempts *)

(** X14. With no attempt allowed ([maxRetries] zero or negative),
    [retryOperation] does not run the operation at all and throws
    [undefined]. *)
Theorem retryOperation_no_attempt {A} (fn : M A) (maxRetries delay : Z) (tr : Trace) :
  maxRetries <= 0 ->
  retryOperation fn maxRetries delay tr = (Throw ThrownUndefined, tr).
Proof.
  intros H. unfold retryOperation.
  replace (Z.to_nat maxRetries) with 0%nat by lia. reflexivity.
Qed.

Lemma retryOperation_no_attempt_witness :
  retryOperation (send (sampleRuntime (sampleRemote [] 0))
                    (Notion.DatabasesRetrieve "template-db")) 0 1000 []
  = (Throw ThrownUndefined, []).
Proof. apply retryOperation_no_attempt. lia. Defined.

(** X15. When the first run of the operation succeeds, and at least one
    attempt is allowed, [retryOperation] is that run: same result, same
    effects, no wait. *)
Theorem retryOperation_first_success {A} (fn : M A) (maxRetries delay : Z)
  (tr tr' : Trace) (a : A) :
  1 <= maxRetries -> fn tr = (Ok a, tr') ->
  retryOperation fn maxRetries delay tr = (Ok a, tr').
Proof.
  intros H E. unfold retryOperation.
  destruct (Z.to_nat maxRetries) as [|n] eqn:N; [lia|].
  cbn [retryLoop]. now rewrite tryCatch_run, E.
Qed.

Lemma retryOperation_first_success_witness :
  let rt := sampleRuntime (sampleRemote [] 0) in
  let request := Notion.DatabasesRetrieve "template-db" in
  retryOperation (send rt request) 5 1000 [] = (Ok Notion.Database, [Sent request]).
Proof.
  intros rt request. apply retryOperation_first_success; [lia|reflexivity].
Defined.

(** X16. Whatever the number of attempts allowed, retrying a request
    sends it at most that many times, sends no other request and reads no
    clock. *)
Theorem retryOperation_sends_at_most (rt : Runtime) (request : Notion.Request)
  (maxRetries delay : Z) (tr : Trace) :
  exists seg,
    snd (retryOperation (send rt request) maxRetries delay tr) = tr ++ seg
    /\ (countSent seg <= Z.to_nat maxRetries)%nat
    /\ Forall (fun e => match e with
                        | Sent r => r = request
                        | Waited _ => True
                        | ClockRead => False
                        end) seg.
Proof. apply retryLoop_sends_at_most. Qed.

Lemma countSent_app (a b : Trace) : countSent (a ++ b) = (countSent a + countSent b)%nat.
Proof. unfold countSent. now rewrite filter_app, length_app. Qed.

Lemma totalWaited_app (a b : Trace) : totalWaited (a ++ b) = totalWaited a + totalWaited b.
Proof.
  induction a as [|[r|ms|] a IH]; cbn; rewrite ?IH; lia.
Qed.

Lemma retryLoop_all_refused (rt : Runtime) (request : Notion.Request) (e : JsError)
  (delay : Z) (k : nat) :
  e <> ThrownUndefined ->
  (forall tr, remote rt tr request = Throw e) ->
  forall i lastError tr, exists seg,
    retryLoop (send rt request) (i + Z.of_nat (S k)) delay (S k) i lastError tr
    = (Throw e, tr ++ seg)
    /\ countSent seg = S k
    /\ 2 * totalWaited seg = delay * Z.of_nat k * (2 * i + Z.of_nat k + 1).
Proof.
  intros Ne H. destruct (messageOf_object e Ne) as [message M].
  induction k as [|k IH]; intros i lastError tr.
  - exists [Sent request]. cbn [retryLoop]. rewrite tryCatch_run. unfold send at 1.
    rewrite H, bind_run, lift_run, M, bind_run.
    replace (i <? i + Z.of_nat 1 - 1) with false by (symmetry; apply Z.ltb_ge; lia).
    unfold ret, throw. cbn. split; [reflexivity|]. split; [reflexivity|lia].
  - cbn [retryLoop]. rewrite tryCatch_run. unfold send at 1.
    rewrite H, bind_run, lift_run, M, bind_run.
    replace (i <? i + Z.of_nat (S (S k)) - 1) with true by (symmetry; apply Z.ltb_lt; lia).
    unfold sleep at 1.
    replace (i + Z.of_nat (S (S k))) with ((i + 1) + Z.of_nat (S k)) by lia.
    destruct (IH (i + 1) (Some e) ((tr ++ [Sent request]) ++ [Waited (delay * (i + 1))]))
      as (seg & E & C & W).
    cbn [retryLoop] in E.
    exists (Sent request :: Waited (delay * (i + 1)) :: seg).
    rewrite E, <- !app_assoc. cbn [app]. split; [reflexivity|].
    split.
    + change (Sent request :: Waited (delay * (i + 1)) :: seg)
        with ([Sent request; Waited (delay * (i + 1))] ++ seg).
      rewrite countSent_app, C. reflexivity.
    + cbn [totalWaited]. nia.
Qed.

(** X17. When the remote refuses a request every time, with an error
    object, [retryOperation] with [n >= 1] attempts sends it exactly [n]
    times, waits [delay * n * (n - 1) / 2] in total (the delays [delay],
    [2 * delay], ... between the attempts, none after the last) and
    raises the error of the remote. *)
Theorem retryOperation_all_refused (rt : Runtime) (request : Notion.Request) (e : JsError)
  (delay : Z) (n : nat) (tr : Trace) :
  (1 <= n)%nat ->
  e <> ThrownUndefined ->
  (forall tr', remote rt tr' request = Throw e) ->
  exists seg,
    retryOperation (send rt request) (Z.of_nat n) delay tr = (Throw e, tr ++ seg)
    /\ countSent seg = n
    /\ 2 * totalWaited seg = delay * Z.of_nat n * (Z.of_nat n - 1).
Proof.
  intros Hn Ne H. destruct n as [|k]; [lia|].
  unfold retryOperation. rewrite Nat2Z.id.
  destruct (retryLoop_all_refused rt request e delay k Ne H 0 None tr) as (seg & E & C & W).
  exists seg. rewrite Z.add_0_l in E. rewrite E. split; [reflexivity|].
  split; [exact C|]. nia.
Qed.

Lemma retryOperation_all_refused_witness :
  let rt := sampleRuntime unauthorizedRemote in
  let request := Notion.DatabasesRetrieve "template-db" in
  exists seg,
    retryOperation (send rt request) (Z.of_nat 4) 1000 []
    = (Throw (APIResponseError "unauthorized" "API token is invalid."), [] ++ seg)
    /\ countSent seg = 4%nat
    /\ 2 * totalWaited seg = 1000 * Z.of_nat 4 * (Z.of_nat 4 - 1).
Proof.
  intros rt request.
  apply (retryOperation_all_refused rt request
           (APIResponseError "unauthorized" "API token is invalid.") 1000 4 []).
  - lia.
  - discriminate.
  - reflexivity.
Defined.

(** ** The services, one call at a time *)

Lemma wrapNotionError_object (prefix : string) (e : JsError) :
  e <> ThrownUndefined ->
  exists message,
    processNotionError e = Ok message
    /\ forall (A : Type) (tr : Trace),
         @wrapNotionError A prefix e tr
         = (Throw (NotionError (prefix ++ message) e), tr).
Proof.
  intros N. unfold wrapNotionError.
  destruct (processNotionError e) as [message|t] eqn:P.
  - exists message. split; [reflexivity|]. reflexivity.
  - destruct e; cbn in P; try discriminate P; try contradiction.
    repeat match type of P with
           | context [if ?b then _ else _] => destruct b
           end; discriminate P.
Qed.

(** X18. [createCalendarEvent] fails when the last request it sent was
    refused, and either that request was the third, after two refusals
    with an error object and waits of 1000 and 2000 ms, or what the
    remote threw is [undefined].  The error it raises is a [NotionError]
    that wraps the cause (the last refusal, or the TypeError of reading
    the message of [undefined]); its message is the prefix followed by
    the processed message of the cause. *)
Theorem createCalendarEvent_failure (rt : Runtime) (event : CalendarEvent.t)
  (tr tr' : Trace) (error : JsError) :
  createCalendarEvent rt event tr = (Throw error, tr') ->
  let request := createPageRequest rt event in
  let second := tr ++ [Sent request; Waited 1000] in
  let third := second ++ [Sent request; Waited 2000] in
  exists (before : Trace) (last cause : JsError) (message : string),
    tr' = before ++ [Sent request]
    /\ remote rt before request = Throw last
    /\ (before = tr
        \/ (before = second
            /\ exists e1, remote rt tr request = Throw e1 /\ e1 <> ThrownUndefined)
        \/ (before = third
            /\ exists e1 e2,
                 remote rt tr request = Throw e1 /\ e1 <> ThrownUndefined
                 /\ remote rt second request = Throw e2 /\ e2 <> ThrownUndefined))
    /\ (last = ThrownUndefined \/ before = third)
    /\ cause = match messageOf last with Ok _ => last | Throw t => t end
    /\ processNotionError cause = Ok message
    /\ error = NotionError ("No se pudo crear el evento: " ++ message) cause.
Proof.
  intros H request second third. subst second third. revert H.
  unfold createCalendarEvent. rewrite tryCatch_run, retryOperation_3.
  fold request. unfold send. rewrite <- !app_assoc. cbn [app].
  change (1000 * 1) with 1000. change (1000 * 2) with 2000.
  assert (U : forall (before : Trace) (last t : JsError),
             messageOf last = Throw t ->
             remote rt before request = Throw last ->
             @wrapNotionError Notion.Response "No se pudo crear el evento: " t
               (before ++ [Sent request]) = (Throw error, tr') ->
             exists (cause : JsError) (message : string),
               tr' = before ++ [Sent request]
               /\ last = ThrownUndefined
               /\ cause = match messageOf last with Ok _ => last | Throw t => t end
               /\ processNotionError cause = Ok message
               /\ error = NotionError ("No se pudo crear el evento: " ++ message) cause).
  { intros before last t M R W. destruct (messageOf_throws _ _ M) as [-> ->].
    cbn in W. injection W as <- <-. eexists. eexists.
    repeat split; reflexivity. }
  destruct (remote rt tr request) as [p1|e1] eqn:R1; [discriminate|].
  destruct (messageOf e1) as [m1|t1] eqn:M1.
  2:{ intros W. destruct (U tr e1 t1 M1 R1 W) as (cause & message & -> & L & C & P & ->).
      exists tr, e1, cause, message. rewrite M1 in C. rewrite M1. auto 10. }
  assert (N1 : e1 <> ThrownUndefined) by (intros ->; discriminate M1).
  destruct (remote rt (tr ++ [Sent request; Waited 1000]) request) as [p2|e2] eqn:R2;
    [discriminate|].
  destruct (messageOf e2) as [m2|t2] eqn:M2.
  2:{ intros W.
      replace (tr ++ [Sent request; Waited 1000; Sent request])
        with ((tr ++ [Sent request; Waited 1000]) ++ [Sent request]) in W
        by now rewrite <- app_assoc.
      destruct (U _ e2 t2 M2 R2 W) as (cause & message & -> & L & C & P & ->).
      exists (tr ++ [Sent request; Waited 1000]), e2, cause, message.
      rewrite M2 in C. rewrite M2. split; [reflexivity|]. split; [exact R2|].
      split; [right; left; eauto|]. auto. }
  assert (N2 : e2 <> ThrownUndefined) by (intros ->; discriminate M2).
  destruct (remote rt (tr ++ [Sent request; Waited 1000; Sent request; Waited 2000]) request)
    as [p3|e3] eqn:R3; [discriminate|].
  destruct (messageOf e3) as [m3|t3] eqn:M3.
  - assert (N3 : e3 <> ThrownUndefined) by (intros ->; discriminate M3).
    destruct (wrapNotionError_object "No se pudo crear el evento: " e3 N3)
      as (message & P & W).
    rewrite W. intros [= <- <-].
    exists (tr ++ [Sent request; Waited 1000; Sent request; Waited 2000]), e3, e3, message.
    split; [now rewrite <- app_assoc|]. split; [exact R3|].
    split; [right; right; split; [reflexivity|]; eauto 10|].
    split; [now right|]. split; [now rewrite M3|]. split; [exact P|reflexivity].
  - intros W.
    replace (tr ++ [Sent request; Waited 1000; Sent request; Waited 2000; Sent request])
      with ((tr ++ [Sent request; Waited 1000; Sent request; Waited 2000]) ++ [Sent request])
      in W by now rewrite <- app_assoc.
    destruct (U _ e3 t3 M3 R3 W) as (cause & message & -> & L & C & P & ->).
    exists (tr ++ [Sent request; Waited 1000; Sent request; Waited 2000]), e3, cause, message.
    split; [reflexivity|]. split; [exact R3|].
    split; [right; right; split; [reflexivity|]; eauto 10|].
    split; [now left|]. auto.
Qed.

Lemma createCalendarEvent_failure_witness :
  let rt := sampleRuntime unauthorizedRemote in
  let refusal := APIResponseError "unauthorized" "API token is invalid." in
  let error :=
    NotionError
      "No se pudo crear el evento: Token de API inválido o sin permisos. Verifica tu NOTION_API_KEY"
      refusal in
  let request := createPageRequest rt sampleEvent in
  let second := [] ++ [Sent request; Waited 1000] in
  let third := second ++ [Sent request; Waited 2000] in
  exists (before : Trace) (last cause : JsError) (message : string),
    third ++ [Sent request] = before ++ [Sent request]
    /\ remote rt before request = Throw last
    /\ (before = []
        \/ (before = second
            /\ exists e1, remote rt [] request = Throw e1 /\ e1 <> ThrownUndefined)
        \/ (before = third
            /\ exists e1 e2,
                 remote rt [] request = Throw e1 /\ e1 <> ThrownUndefined
                 /\ remote rt second request = Throw e2 /\ e2 <> ThrownUndefined))
    /\ (last = ThrownUndefined \/ before = third)
    /\ cause = match messageOf last with Ok _ => last | Throw t => t end
    /\ processNotionError cause = Ok message
    /\ error = NotionError ("No se pudo crear el evento: " ++ message) cause.
Proof.
  intros rt refusal error request second third.
  apply (createCalendarEvent_failure rt sampleEvent [] (third ++ [Sent request]) error).
  reflexivity.
Defined.

Lemma createEventsLoop_writes (rt : Runtime) (events : list CalendarEvent.t) :
  forall results errors tr,
    createEventsLoop rt events results errors tr
    = (Ok {| batch_success := results ++ okPages (fst (writes rt events tr));
             batch_errors :=
               errors ++ refusals (combine events (fst (writes rt events tr))) |},
       snd (writes rt events tr)).
Proof.
  induction events as [|event rest IH]; intros results errors tr.
  - cbn. now rewrite !app_nil_r.
  - cbn [createEventsLoop writes].
    destruct (createCalendarEvent rt event tr) as [[page|e] tr1];
      rewrite IH; destruct (writes rt rest tr1) as [rs tr2];
      unfold okPages, refusals; cbn; now rewrite <- app_assoc.
Qed.

Lemma writes_length (rt : Runtime) (events : list CalendarEvent.t) :
  forall tr, List.length (fst (writes rt events tr)) = List.length events.
Proof.
  induction events as [|event rest IH]; intros tr; [reflexivity|].
  cbn [writes]. destruct (createCalendarEvent rt event tr) as [r tr1].
  specialize (IH tr1). destruct (writes rt rest tr1) as [rs tr2]. cbn in *. now rewrite IH.
Qed.

Lemma partition_length (events : list CalendarEvent.t) :
  forall outs, List.length outs = List.length events ->
    (List.length (okPages outs) + List.length (refusals (combine events outs))
     = List.length events)%nat.
Proof.
  induction events as [|event rest IH]; intros [|[page|e] outs] L; try discriminate L.
  - reflexivity.
  - injection L as L. specialize (IH outs L). unfold okPages, refusals in *. cbn. lia.
  - injection L as L. specialize (IH outs L). unfold okPages, refusals in *. cbn. lia.
Qed.

(** X19. [createCalendarEventsBatch] never throws.  Every event is
    written, in order, each write starting where the one before it ended,
    whatever its outcome; the pages of the writes that succeeded make up
    [success], the events of the writes that failed, each with its error,
    make up [errors], both in the order of the events; so the two lengths
    add up to the number of events. *)
Theorem createCalendarEventsBatch_partition (rt : Runtime)
  (events : list CalendarEvent.t) (tr : Trace) :
  let outs := fst (writes rt events tr) in
  createCalendarEventsBatch rt events tr
  = (Ok {| batch_success := okPages outs;
           batch_errors := refusals (combine events outs) |},
     snd (writes rt events tr))
  /\ List.length outs = List.length events
  /\ (List.length (okPages outs) + List.length (refusals (combine events outs))
      = List.length events)%nat.
Proof.
  intros outs. unfold createCalendarEventsBatch. rewrite createEventsLoop_writes.
  split; [reflexivity|].
  split; [apply writes_length|]. apply partition_length, writes_length.
Qed.

Lemma createEventsLoop_all_accepted (rt : Runtime) (events : list CalendarEvent.t) :
  (forall t event, In event events ->
     exists page, remote rt t (createPageRequest rt event) = Ok page) ->
  forall results tr, exists pages,
    createEventsLoop rt events results [] tr
    = (Ok {| batch_success := results ++ pages; batch_errors := [] |},
       tr ++ map (fun event => Sent (createPageRequest rt event)) events)
    /\ List.length pages = List.length events.
Proof.
  induction events as [|event rest IH]; intros H results tr.
  - exists []. cbn. now rewrite !app_nil_r.
  - cbn [createEventsLoop]. unfold createCalendarEvent.
    rewrite tryCatch_run, retryOperation_3. unfold send at 1.
    destruct (H tr event (or_introl eq_refl)) as (page & E). rewrite E.
    destruct (IH (fun t ev Hin => H t ev (or_intror Hin)) (results ++ [page])
                 (tr ++ [Sent (createPageRequest rt event)])) as (pages & E' & L).
    exists (page :: pages). rewrite E', <- !app_assoc. cbn. now rewrite L.
Qed.

(** X20. When the remote accepts every page creation, the batch sends
    exactly one request per event, in the order of the events, with no
    wait, and returns as many pages as there are events and no error. *)
Theorem createCalendarEventsBatch_all_accepted (rt : Runtime)
  (events : list CalendarEvent.t) (tr : Trace) :
  (forall t event, In event events ->
     exists page, remote rt t (createPageRequest rt event) = Ok page) ->
  exists pages,
    createCalendarEventsBatch rt events tr
    = (Ok {| batch_success := pages; batch_errors := [] |},
       tr ++ map (fun event => Sent (createPageRequest rt event)) events)
    /\ List.length pages = List.length events.
Proof.
  intros H. apply (createEventsLoop_all_accepted rt events H [] tr).
Qed.

Lemma createCalendarEventsBatch_all_accepted_witness :
  let rt := sampleRuntime (sampleRemote [] 0) in
  let events := [sampleEvent; sampleEvent] in
  exists pages,
    createCalendarEventsBatch rt events []
    = (Ok {| batch_success := pages; batch_errors := [] |},
       [] ++ map (fun event => Sent (createPageRequest rt event)) events)
    /\ List.length pages = List.length events.
Proof.
  intros rt events. apply (createCalendarEventsBatch_all_accepted rt events []).
  intros t event _. exists (Notion.CreatedPage "created-1"). reflexivity.
Defined.

(** X21. [verifyConnection] asks once for the template database and,
    only when that is accepted, once for the calendar database: it never
    retries and never waits.  It returns [true] exactly when both are
    accepted; otherwise it raises the first refusal, wrapped in a
    [NotionError] with the processed message. *)
Theorem verifyConnection_checks_both (rt : Runtime) (tr : Trace) :
  let template := Notion.DatabasesRetrieve (templateDbId (config rt)) in
  let calendar := Notion.DatabasesRetrieve (calendarDbId (config rt)) in
  let failure (e : JsError) :=
    match processNotionError e with
    | Ok errorMessage =>
        NotionError ("Verificación de conexión fallida: " ++ errorMessage) e
    | Throw e' => e'
    end in
  match verifyConnection rt tr with
  | (Ok b, tr') =>
      b = true /\ tr' = tr ++ [Sent template; Sent calendar]
      /\ (exists r, remote rt tr template = Ok r)
      /\ (exists r, remote rt (tr ++ [Sent template]) calendar = Ok r)
  | (Throw error, tr') =>
      exists e, error = failure e
        /\ ((remote rt tr template = Throw e /\ tr' = tr ++ [Sent template])
            \/ ((exists r, remote rt tr template = Ok r)
                /\ remote rt (tr ++ [Sent template]) calendar = Throw e
                /\ tr' = tr ++ [Sent template; Sent calendar]))
  end.
Proof.
  intros template calendar failure.
  unfold verifyConnection, databases_template, databases_calendar.
  fold template calendar.
  rewrite tryCatch_run, bind_run. unfold send at 1.
  destruct (remote rt tr template) as [r1|e1] eqn:E1.
  - rewrite bind_run. unfold send at 1.
    destruct (remote rt (tr ++ [Sent template]) calendar) as [r2|e2] eqn:E2.
    + unfold ret. rewrite <- app_assoc. cbn. eauto 6.
    + unfold wrapNotionError, throw. rewrite <- app_assoc. cbn [app].
      assert (R : forall (t : Trace),
                 (match processNotionError e2 with
                  | Ok errorMessage =>
                      fun tr0 : Trace =>
                        (Throw (NotionError
                                  ("Verificación de conexión fallida: " ++ errorMessage) e2),
                         tr0)
                  | Throw e => fun tr0 : Trace => (@Throw bool e, tr0)
                  end) t = (Throw (failure e2), t)).
      { intros t. unfold failure. now destruct (processNotionError e2). }
      rewrite R. exists e2. split; [reflexivity|]. right. eauto.
  - unfold wrapNotionError, throw.
    assert (R : forall (t : Trace),
               (match processNotionError e1 with
                | Ok errorMessage =>
                    fun tr0 : Trace =>
                      (Throw (NotionError
                                ("Verificación de conexión fallida: " ++ errorMessage) e1),
                       tr0)
                | Throw e => fun tr0 : Trace => (@Throw bool e, tr0)
                end) t = (Throw (failure e1), t)).
    { intros t. unfold failure. now destruct (processNotionError e1). }
    rewrite R. exists e1. split; [reflexivity|]. now left.
Qed.

Lemma parseTemplatePage_duration_nonzero (page : Notion.Page) :
  Task.duration (parseTemplatePage page) <> 0.
Proof.
  unfold parseTemplatePage. cbn [Task.duration].
  destruct (extractNumber _) as [n|]; [|discriminate].
  destruct (Z.eqb_spec n 0); [discriminate|assumption].
Qed.

(** X22. When [getTemplateTasks] returns, its tasks are the pages of the
    answer to the last query it sent, parsed one by one: as many tasks as
    pages, in the same order, with the same ids, and none with a zero
    duration.  That query is the first, second or third attempt, after
    waits of 1000 and 2000 ms. *)
Theorem getTemplateTasks_tasks (rt : Runtime) (tr tr' : Trace) (tasks : list Task.t) :
  getTemplateTasks rt tr = (Ok tasks, tr') ->
  let query := Notion.DatabasesQuery (templateDbId (config rt)) "Day" "ascending" in
  exists pages seg,
    tr' = tr ++ seg ++ [Sent query]
    /\ remote rt (tr ++ seg) query = Ok (Notion.QueryResults pages)
    /\ (seg = [] \/ seg = [Sent query; Waited 1000]
        \/ seg = [Sent query; Waited 1000; Sent query; Waited 2000])
    /\ tasks = map parseTemplatePage pages
    /\ map Task.id tasks = map Notion.id pages
    /\ Forall (fun task => Task.duration task <> 0) tasks.
Proof.
  intros H query. revert H.
  unfold getTemplateTasks, databases_template. fold query.
  rewrite tryCatch_run, bind_run, retryOperation_3. unfold send.
  rewrite <- !app_assoc. cbn [app].
  change (1000 * 1) with 1000. change (1000 * 2) with 2000.
  assert (W : forall (e : JsError) (t : Trace),
             @wrapNotionError (list Task.t)
               "No se pudieron obtener las tareas de plantilla: " e t
             <> (Ok tasks, tr')).
  { intros e t. destruct (wrapNotionError_run (A := list Task.t)
                            "No se pudieron obtener las tareas de plantilla: " e t)
      as (e' & E & _). rewrite E. discriminate. }
  assert (D : forall (pages : list Notion.Page) (seg : Trace),
             remote rt (tr ++ seg) query = Ok (Notion.QueryResults pages) ->
             (seg = [] \/ seg = [Sent query; Waited 1000]
              \/ seg = [Sent query; Waited 1000; Sent query; Waited 2000]) ->
             (Ok (map parseTemplatePage pages), tr ++ seg ++ [Sent query]) = (Ok tasks, tr') ->
             exists pages seg,
               tr' = tr ++ seg ++ [Sent query]
               /\ remote rt (tr ++ seg) query = Ok (Notion.QueryResults pages)
               /\ (seg = [] \/ seg = [Sent query; Waited 1000]
                   \/ seg = [Sent query; Waited 1000; Sent query; Waited 2000])
               /\ tasks = map parseTemplatePage pages
               /\ map Task.id tasks = map Notion.id pages
               /\ Forall (fun task => Task.duration task <> 0) tasks).
  { intros pages seg E S R. injection R as <- <-. exists pages, seg.
    repeat (split; [easy|]). split.
    - rewrite map_map. reflexivity.
    - apply Forall_forall. intros task Hin. apply in_map_iff in Hin.
      destruct Hin as (page & <- & _). apply parseTemplatePage_duration_nonzero. }
  destruct (remote rt tr query) as [[|pages|id]|e1] eqn:E1.
  - unfold throw. intros R. now apply W in R.
  - unfold ret. apply (D pages []); [now rewrite app_nil_r|auto].
  - unfold throw. intros R. now apply W in R.
  - destruct (messageOf e1) as [m1|t1]; [|intros R; now apply W in R].
    destruct (remote rt (tr ++ [Sent query; Waited 1000]) query) as [[|pages|id]|e2] eqn:E2.
    + unfold throw. intros R. now apply W in R.
    + unfold ret. apply (D pages [Sent query; Waited 1000]); auto.
    + unfold throw. intros R. now apply W in R.
    + destruct (messageOf e2) as [m2|t2]; [|intros R; now apply W in R].
      destruct (remote rt (tr ++ [Sent query; Waited 1000; Sent query; Waited 2000]) query)
        as [[|pages|id]|e3] eqn:E3.
      * unfold throw. intros R. now apply W in R.
      * unfold ret.
        apply (D pages [Sent query; Waited 1000; Sent query; Waited 2000]); auto.
      * unfold throw. intros R. now apply W in R.
      * destruct (messageOf e3) as [m3|t3]; intros R; now apply W in R.
Qed.

Lemma getTemplateTasks_tasks_witness :
  let page := samplePage "Monday" "09:00" (Notion.Present 30) in
  let rt := sampleRuntime (sampleRemote [page] 0) in
  let tasks := [parseTemplatePage page] in
  let query := Notion.DatabasesQuery (templateDbId (config rt)) "Day" "ascending" in
  exists pages seg,
    [Sent query] = [] ++ seg ++ [Sent query]
    /\ remote rt ([] ++ seg) query = Ok (Notion.QueryResults pages)
    /\ (seg = [] \/ seg = [Sent query; Waited 1000]
        \/ seg = [Sent query; Waited 1000; Sent query; Waited 2000])
    /\ tasks = map parseTemplatePage pages
    /\ map Task.id tasks = map Notion.id pages
    /\ Forall (fun task => Task.duration task <> 0) tasks.
Proof.
  intros page rt tasks query.
  apply (getTemplateTasks_tasks rt [] [Sent query] tasks). reflexivity.
Defined.

(** ** The job, phase by phase *)

Lemma isRetrieve_notCreate (e : Effect) : isRetrieve e -> notCreate e.
Proof. destruct e as [[| |]| |]; cbn; auto. Qed.

Lemma reads_create_nothing (rt : Runtime) (tr tr1 tr2 : Trace)
  (v : Result bool) (g : Result (list Task.t)) :
  verifyConnection rt (tr ++ [ClockRead]) = (v, tr1) ->
  getTemplateTasks rt tr1 = (g, tr2) ->
  exists seg, tr2 = tr ++ seg /\ Forall notCreate seg.
Proof.
  intros Hv Hg.
  destruct (verifyConnection_footprint rt (tr ++ [ClockRead])) as (sv & Ev & Fv & _).
  rewrite Hv in Ev. cbn in Ev. subst tr1.
  destruct (getTemplateTasks_footprint rt notCreate (fun _ => I) I
              ((tr ++ [ClockRead]) ++ sv)) as (sg & Eg & Fg & _).
  rewrite Hg in Eg. cbn in Eg. subst tr2.
  exists ([ClockRead] ++ sv ++ sg). split; [now rewrite <- !app_assoc|].
  apply Forall_app. split; [now repeat constructor|].
  apply Forall_app. split; [|exact Fg].
  eapply Forall_impl; [|exact Fv]. apply isRetrieve_notCreate.
Qed.

(** X23. With an empty template the run succeeds at once: the result
    counts 0 created and 0 failed and carries the message that there is
    nothing to process (and no duration, no error list); the process ends
    normally, with exit code 0 when run as a script; no page creation is
    sent and the clock is not read again. *)
Theorem generateWeek_empty_template (rt : Runtime) (tr tr1 tr2 : Trace) (b : bool) :
  verifyConnection rt (tr ++ [ClockRead]) = (Ok b, tr1) ->
  getTemplateTasks rt tr1 = (Ok [], tr2) ->
  generateWeek rt tr
  = (Ok {| success := true; created := 0; failed := 0;
           message := Some "No hay tareas de plantilla para procesar"%string;
           duration := None; errors := None; error := None |}, tr2)
  /\ main rt tr = (RunsToCompletion, tr2)
  /\ runJob rt tr = (Exit 0, tr2)
  /\ exists seg, tr2 = tr ++ seg /\ Forall notCreate seg.
Proof.
  intros Hv Hg. pose proof (generateWeek_run rt tr) as R. rewrite Hv, Hg in R.
  split; [exact R|]. unfold main, runJob. rewrite R.
  split; [reflexivity|]. split; [reflexivity|].
  exact (reads_create_nothing rt tr tr1 tr2 _ _ Hv Hg).
Qed.

Lemma generateWeek_empty_template_witness :
  let rt := sampleRuntime (sampleRemote [] 0) in
  let tr1 := [ClockRead; Sent (Notion.DatabasesRetrieve "template-db");
              Sent (Notion.DatabasesRetrieve "calendar-db")] in
  let tr2 := tr1 ++ [Sent (Notion.DatabasesQuery "template-db" "Day" "ascending")] in
  generateWeek rt []
  = (Ok {| success := true; created := 0; failed := 0;
           message := Some "No hay tareas de plantilla para procesar"%string;
           duration := None; errors := None; error := None |}, tr2)
  /\ main rt [] = (RunsToCompletion, tr2)
  /\ runJob rt [] = (Exit 0, tr2)
  /\ exists seg, tr2 = [] ++ seg /\ Forall notCreate seg.
Proof.
  intros rt tr1 tr2.
  apply (generateWeek_empty_template rt [] tr1 tr2 true); reflexivity.
Defined.

(** X24. When the template cannot be fetched, the run stops there:
    [generateWeek] reads the clock once more and raises the error of
    [getTemplateTasks]; the process ends with exit code 1; no page
    creation has been sent. *)
Theorem template_failure_halts (rt : Runtime) (tr tr1 tr2 : Trace) (b : bool)
  (e : JsError) :
  verifyConnection rt (tr ++ [ClockRead]) = (Ok b, tr1) ->
  getTemplateTasks rt tr1 = (Throw e, tr2) ->
  generateWeek rt tr = (Throw e, tr2 ++ [ClockRead])
  /\ main rt tr = (Exit 1, tr2 ++ [ClockRead])
  /\ runJob rt tr = (Exit 1, tr2 ++ [ClockRead])
  /\ exists seg, tr2 ++ [ClockRead] = tr ++ seg /\ Forall notCreate seg.
Proof.
  intros Hv Hg. pose proof (generateWeek_run rt tr) as R. rewrite Hv, Hg in R.
  split; [exact R|]. unfold main, runJob. rewrite R.
  split; [reflexivity|]. split; [reflexivity|].
  destruct (reads_create_nothing rt tr tr1 tr2 _ _ Hv Hg) as (seg & -> & F).
  exists (seg ++ [ClockRead]). split; [now rewrite app_assoc|].
  apply Forall_app. split; [exact F|now repeat constructor].
Qed.

(** A remote that accepts the two connectivity checks and refuses the
    rest. *)
Lemma template_failure_halts_witness :
  let remote (tr : Trace) (request : Notion.Request) :=
    match request with
    | Notion.DatabasesRetrieve _ => Ok Notion.Database
    | _ => Throw (APIResponseError "object_not_found" "Could not find database.")
    end in
  let rt := sampleRuntime remote in
  let query := Sent (Notion.DatabasesQuery "template-db" "Day" "ascending") in
  let tr1 := [ClockRead; Sent (Notion.DatabasesRetrieve "template-db");
              Sent (Notion.DatabasesRetrieve "calendar-db")] in
  let tr2 := tr1 ++ [query; Waited 1000; query; Waited 2000; query] in
  let e := NotionError
             "No se pudieron obtener las tareas de plantilla: Base de datos o página no encontrada. Verifica los IDs en tu .env"
             (APIResponseError "object_not_found" "Could not find database.") in
  generateWeek rt [] = (Throw e, tr2 ++ [ClockRead])
  /\ main rt [] = (Exit 1, tr2 ++ [ClockRead])
  /\ runJob rt [] = (Exit 1, tr2 ++ [ClockRead])
  /\ exists seg, tr2 ++ [ClockRead] = [] ++ seg /\ Forall notCreate seg.
Proof.
  intros remote rt query tr1 tr2 e.
  apply (template_failure_halts rt [] tr1 tr2 true e); reflexivity.
Defined.

(** X25. [generateWeek] never returns a result whose [success] is false:
    whenever it returns, the flag is true.  So the job run as a script
    exits with code 0 exactly when [generateWeek] returns and with code 1
    exactly when it throws, and [index.js] ends normally or with code 1
    in the same two cases. *)
Theorem runJob_exit_code (rt : Runtime) (tr : Trace) :
  match generateWeek rt tr with
  | (Ok result, tr') =>
      success result = true
      /\ runJob rt tr = (Exit 0, tr') /\ main rt tr = (RunsToCompletion, tr')
  | (Throw _, tr') =>
      runJob rt tr = (Exit 1, tr') /\ main rt tr = (Exit 1, tr')
  end.
Proof.
  unfold runJob, main.
  destruct (generateWeek rt tr) as [[result|e] tr'] eqn:G; [|now split].
  destruct (generateWeek_reports_write_failures rt tr tr' result G) as [S _].
  rewrite S. now repeat split.
Qed.

(** ** Validation *)

Lemma filter_first {A} (f : A -> bool) (l : list A) :
  forall x r, filter f l = x :: r ->
    exists before after,
      l = before ++ x :: after
      /\ Forall (fun a => f a = false) before
      /\ f x = true
      /\ r = filter f after.
Proof.
  induction l as [|a l IH]; intros x r H; [discriminate H|].
  cbn [filter] in H. destruct (f a) eqn:F.
  - injection H as -> <-. exists [], l. repeat split; auto.
  - destruct (IH x r H) as (before & after & -> & Fb & Fx & ->).
    exists (a :: before), after. repeat split; auto.
Qed.

Lemma filter_none {A} (f : A -> bool) (l : list A) :
  filter f l = [] -> Forall (fun a => f a = false) l.
Proof.
  induction l as [|a l IH]; intros H; [constructor|].
  cbn [filter] in H. destruct (f a) eqn:F; [discriminate H|]. constructor; auto.
Qed.

(** X26. [validateRequiredFields] returns normally exactly when every
    required field of the object is truthy.  Otherwise the error names,
    as its [field], the first required field that is not (every required
    field before it is truthy), and its message lists that field and the
    falsy ones after it, in the order required, after the context. *)
Theorem validateRequiredFields_first_missing (obj : list (string * JsValue))
  (requiredFields : list string) (context : string) :
  match validateRequiredFields obj requiredFields context with
  | None => Forall (fun field => truthy (getValue obj field) = true) requiredFields
  | Some error =>
      exists before after,
        requiredFields = before ++ ValidationError.field error :: after
        /\ Forall (fun field => truthy (getValue obj field) = true) before
        /\ truthy (getValue obj (ValidationError.field error)) = false
        /\ ValidationError.message error
           = (context ++ " - Campos requeridos faltantes: "
              ++ join ", "
                   (ValidationError.field error
                    :: filter (fun field => negb (truthy (getValue obj field))) after))%string
  end.
Proof.
  unfold validateRequiredFields.
  destruct (filter _ requiredFields) as [|first rest] eqn:F.
  - apply filter_none in F. eapply Forall_impl; [|exact F].
    intros field H. now apply negb_false_iff in H.
  - destruct (filter_first _ _ _ _ F) as (before & after & -> & Fb & Fx & ->).
    exists before, after. cbn [ValidationError.field ValidationError.message].
    split; [reflexivity|]. split.
    + eapply Forall_impl; [|exact Fb]. intros field H. now apply negb_false_iff in H.
    + split; [now apply negb_true_iff in Fx|reflexivity].
Qed.

(** X27. The configuration loads exactly when NOTION_API_KEY,
    TEMPLATE_DB_ID and CALENDAR_DB_ID are all set to a non-empty string;
    its three Notion fields are then those strings, the log level is
    info and the time zone UTC unless LOG_LEVEL and TIMEZONE are set to a
    non-empty string, which is then the value.  Otherwise loading throws,
    and some required variable is unset or empty. *)
Theorem loadConfig_requires_three (env : Environment) :
  match loadConfig env with
  | Ok c =>
      env "NOTION_API_KEY"%string = Some (apiKey c) /\ apiKey c <> ""%string
      /\ env "TEMPLATE_DB_ID"%string = Some (templateDbId c) /\ templateDbId c <> ""%string
      /\ env "CALENDAR_DB_ID"%string = Some (calendarDbId c) /\ calendarDbId c <> ""%string
      /\ (if unset env "LOG_LEVEL" then loggingLevel c = "info"%string
          else env "LOG_LEVEL"%string = Some (loggingLevel c))
      /\ (if unset env "TIMEZONE" then timezone c = "UTC"%string
          else env "TIMEZONE"%string = Some (timezone c))
  | Throw error =>
      (exists message, error = Error message)
      /\ exists key, In key requiredVariables /\ unset env key = true
  end.
Proof.
  assert (U : forall key dflt, unset env key = false ->
                env key = Some (envOr env key dflt) /\ envOr env key dflt <> ""%string).
  { intros key dflt. unfold unset, envOr, orElse.
    destruct (env key) as [v|]; [|discriminate].
    destruct (String.eqb_spec v ""); [discriminate|]. auto. }
  assert (D : forall key dflt, unset env key = true -> envOr env key dflt = dflt).
  { intros key dflt. unfold unset, envOr, orElse.
    destruct (env key) as [v|]; [|reflexivity]. now intros ->. }
  unfold loadConfig, validateEnvironment, requiredVariables. cbn [filter].
  destruct (unset env "NOTION_API_KEY") eqn:A;
    [split; [eauto|]; exists "NOTION_API_KEY"%string; cbn; auto|].
  destruct (unset env "TEMPLATE_DB_ID") eqn:B;
    [split; [eauto|]; exists "TEMPLATE_DB_ID"%string; cbn; auto|].
  destruct (unset env "CALENDAR_DB_ID") eqn:C;
    [split; [eauto|]; exists "CALENDAR_DB_ID"%string; cbn; auto|].
  cbn [apiKey templateDbId calendarDbId loggingLevel timezone].
  destruct (U _ ""%string A) as [A1 A2]. destruct (U _ ""%string B) as [B1 B2].
  destruct (U _ ""%string C) as [C1 C2].
  repeat (split; [assumption|]). split.
  - destruct (unset env "LOG_LEVEL") eqn:L; [now apply D|now apply U].
  - destruct (unset env "TIMEZONE") eqn:T; [now apply D|now apply U].
Qed.

(** X28. The function that [asyncErrorHandler] returns is transparent:
    when the wrapped call returns, the wrapper returns the same value;
    when it fails, the wrapper fails too, with the same error if that is
    an error object (as [handleError] always throws, a failure is never
    turned into a normal return); the effects are those of the wrapped
    call. *)
Theorem asyncErrorHandler_transparent {A} (fn : M A) (context : string) (tr : Trace) :
  match fn tr with
  | (Ok a, tr') => asyncErrorHandler fn context tr = (Ok a, tr')
  | (Throw e, tr') =>
      exists e', asyncErrorHandler fn context tr = (Throw e', tr')
                 /\ e' <> ThrownUndefined
                 /\ (e <> ThrownUndefined -> e' = e)
  end.
Proof.
  unfold asyncErrorHandler. rewrite tryCatch_run.
  destruct (fn tr) as [[a|e] tr1]; [reflexivity|].
  unfold throw. exists (handleError e context). split; [reflexivity|].
  split; [now destruct e|apply handleError_same].
Qed.

(** ** What the calendar is sent *)

Lemma utcHourMinute_cons (c : ascii) (r : string) :
  c <> "T"%char -> utcHourMinute (String c r) = utcHourMinute r.
Proof.
  destruct c as [[|] [|] [|] [|] [|] [|] [|] [|]]; intros H; try reflexivity.
  now contradiction H.
Qed.

Lemma utcHourMinute_skip (p s : string) :
  noT p -> utcHourMinute (p ++ s) = utcHourMinute s.
Proof.
  induction p as [|c p IH]; intros H; [reflexivity|].
  destruct H as [Hc Hp]. cbn [append]. rewrite utcHourMinute_cons by exact Hc. auto.
Qed.

Lemma noT_app (a b : string) : noT a -> noT b -> noT (a ++ b).
Proof.
  induction a as [|c a IH]; intros Ha Hb; [exact Hb|].
  destruct Ha as [Hc Ha]. cbn. auto.
Qed.

Lemma digitChar (k : Z) :
  0 <= k < 10 ->
  let c := ascii_of_N (48 + Z.to_N k) in
  isDigit c = true /\ digitValue c = k /\ c <> "T"%char.
Proof.
  intros H.
  assert (E : In k [0; 1; 2; 3; 4; 5; 6; 7; 8; 9]) by (cbn; lia).
  cbn in E.
  repeat (destruct E as [<-|E]; [repeat split; discriminate|]).
  contradiction.
Qed.

Lemma noT_padded (width : nat) : forall n, noT (padded width n).
Proof.
  induction width as [|w IH]; intros n; [exact I|].
  cbn [padded]. apply noT_app; [apply IH|].
  split; [|exact I]. apply digitChar. apply Z.mod_pos_bound. lia.
Qed.

Lemma noT_isoYear (y : Z) : noT (isoYear y).
Proof.
  unfold isoYear. destruct (_ && _); [apply noT_padded|].
  apply noT_app; [|apply noT_padded]. destruct (y <? 0); split; easy.
Qed.

Lemma padded_2 (n : Z) :
  padded 2 n
  = String (ascii_of_N (48 + Z.to_N ((n / 10) mod 10)))
      (String (ascii_of_N (48 + Z.to_N (n mod 10))) EmptyString).
Proof. reflexivity. Qed.

(** The text of [toISOString] spells out the hour and the minute of the
    time value, in UTC. *)
Lemma utcHourMinute_isoString (t : Z) :
  utcHourMinute (isoString t) = Some (HourFromTime t, MinFromTime t).
Proof.
  unfold isoString.
  rewrite utcHourMinute_skip by apply noT_isoYear.
  change ("-" ++ ?x)%string with (String "-" x).
  rewrite utcHourMinute_cons by discriminate.
  rewrite utcHourMinute_skip by apply noT_padded.
  change ("-" ++ ?x)%string with (String "-" x).
  rewrite utcHourMinute_cons by discriminate.
  rewrite utcHourMinute_skip by apply noT_padded.
  assert (Hh : 0 <= HourFromTime t < 24) by (apply Z.mod_pos_bound; lia).
  assert (Hm : 0 <= MinFromTime t < 60) by (apply Z.mod_pos_bound; lia).
  rewrite !padded_2.
  set (h := HourFromTime t) in *. set (m := MinFromTime t) in *.
  destruct (digitChar ((h / 10) mod 10)) as (A1 & A2 & _); [apply Z.mod_pos_bound; lia|].
  destruct (digitChar (h mod 10)) as (B1 & B2 & _); [apply Z.mod_pos_bound; lia|].
  destruct (digitChar ((m / 10) mod 10)) as (C1 & C2 & _); [apply Z.mod_pos_bound; lia|].
  destruct (digitChar (m mod 10)) as (D1 & D2 & _); [apply Z.mod_pos_bound; lia|].
  cbn [append utcHourMinute].
  rewrite A1, B1, C1, D1, A2, B2, C2, D2. cbn [andb].
  f_equal. f_equal; clearbody h m; Z.to_euclidean_division_equations; lia.
Qed.

(** X29. For every pair of valid dates that both lie at least one hour
    after the first time value of [Date], and every zone label,
    [createNotionDateObject] succeeds, and the texts it sends spell, in
    UTC, the time of day one hour before the start and one hour before
    the end: same minute, the hour before (23 for hour 0).  The shift
    does not depend on the zone label.  When one of the two dates lies
    in the first hour of the time values, the shifted date is invalid
    and the function throws the RangeError of [toISOString]. *)
Theorem createNotionDateObject_one_hour_earlier (s e : Z) (timezone : option string) :
  inRange s -> inRange e ->
  (inRange (s - 3600000) -> inRange (e - 3600000) ->
   exists range,
     createNotionDateObject (DateAt s) (DateAt e) timezone = Ok range
     /\ utcHourMinute (start range) = Some ((HourFromTime s - 1) mod 24, MinFromTime s)
     /\ utcHourMinute (end_ range) = Some ((HourFromTime e - 1) mod 24, MinFromTime e))
  /\ (~ inRange (s - 3600000) \/ ~ inRange (e - 3600000) ->
      createNotionDateObject (DateAt s) (DateAt e) timezone
      = Throw (RangeError "Invalid time value")).
Proof.
  intros _ _. split.
  - intros Hs He.
    assert (K : forall t, utcHourMinute (isoString (t - 3600000))
                          = Some ((HourFromTime t - 1) mod 24, MinFromTime t)).
    { intros t. rewrite utcHourMinute_isoString. f_equal.
      unfold HourFromTime, MinFromTime, msPerHour, msPerMinute, msPerSecond.
      f_equal; Z.to_euclidean_division_equations; lia. }
    eexists. rewrite createNotionDateObject_valid by assumption.
    split; [reflexivity|].
    cbn [start end_]. now rewrite !K.
  - apply createNotionDateObject_outside.
Qed.

Lemma createNotionDateObject_one_hour_earlier_witness :
  exists range,
    createNotionDateObject (DateAt 1705309200000) (DateAt 1705311000000) None = Ok range
    /\ utcHourMinute (start range) = Some (8, 0)
    /\ utcHourMinute (end_ range) = Some (8, 30).
Proof.
  refine (proj1 (createNotionDateObject_one_hour_earlier
                   1705309200000 1705311000000 None _ _) _ _);
    unfold inRange, maxTime; lia.
Defined.
